(** * Monte Carlo and random-number simulations: a shallow embedding

    The two scripts under [src/Simulations] are embedded as Rocq functions:

    - [monte_carlo_simulation.py] as module [monte_carlo_simulation]
      ([MonteCarloConfig], [PiEstimation], [MonteCarloAnalyzer]);
    - [random_simulation.py] as module [random_simulation]
      ([SimulationConfig], [RandomSimulation]).

    Python [float]s and numpy [float64]s are IEEE 754 binary64 numbers; they
    are embedded as Rocq's primitive floats, which are the same format with
    the same rounding.  Python [int]s are [Z].  An exception is a value of
    [exn]; a computation that can raise returns [res].  The random sources,
    the clock and the scheduling of worker processes are parameters. *)

From Stdlib Require Import ZArith List String Bool Lia Floats.
From Stdlib Require Uint63.
Import ListNotations.

Local Open Scope Z_scope.

(** ** Python values and exceptions *)

Module Py.

Inductive exn : Type :=
| NameError (name : string)
| ZeroDivisionError
| ValueError.

Inductive res (A : Type) : Type :=
| Ok (a : A)
| Raise (e : exn).

Arguments Ok {A} a.
Arguments Raise {A} e.

Definition bind {A B : Type} (c : res A) (k : A -> res B) : res B :=
  match c with
  | Ok a => k a
  | Raise e => Raise e
  end.

Definition is_ok {A : Type} (c : res A) : bool :=
  match c with Ok _ => true | Raise _ => false end.

(** [a // b] on Python ints: floor division, [ZeroDivisionError] on 0. *)
Definition floordiv (a b : Z) : res Z :=
  if b =? 0 then Raise ZeroDivisionError else Ok (a / b).

(** [x or d] where [x : Optional[int]]: [None] and [0] are falsy, and [d]
    is only evaluated in that case. *)
Definition or_else (x : option Z) (d : res Z) : res Z :=
  match x with
  | Some v => if v =? 0 then d else Ok v
  | None => d
  end.

(** [range(n)] as a list of indices; empty when [n <= 0]. *)
Definition range (n : Z) : list nat := seq 0 (Z.to_nat n).

(** [for x in xs: ...] collecting results, stopping at the first raise. *)
Fixpoint mapM {A B : Type} (f : A -> res B) (xs : list A) : res (list B) :=
  match xs with
  | [] => Ok []
  | x :: xs' =>
      bind (f x) (fun y => bind (mapM f xs') (fun ys => Ok (y :: ys)))
  end.

(** Conversion of an int to the nearest binary64 number. *)
Definition float_of_int (z : Z) : float :=
  SF2Prim (binary_normalize prec emax z 0 false).

(** [a / b] on Python ints: [ZeroDivisionError] on 0, otherwise a float
    (the quotient of the two converted operands, which is the correctly
    rounded quotient as long as both are below 2^53 in magnitude). *)
Definition truediv (a b : Z) : res float :=
  if b =? 0 then Raise ZeroDivisionError
  else Ok (float_of_int a / float_of_int b)%float.

End Py.

Import Py.

Notation "'do' x <- c ; k" := (bind c (fun x => k))
  (at level 10, x pattern, c at level 100, k at level 200).

(** ** The part of numpy the scripts use

    [np.mean], [np.std], [np.var], [np.min], [np.max], [np.median] and
    [np.sum] on one-dimensional [float64] data.  Reductions of floats never
    raise: on degenerate input they return NaN or an infinity (numpy only
    emits a warning).  [np.min] and [np.max] raise [ValueError] on an empty
    array.

    [np.sum] accumulates from left to right starting at 0, which is what
    numpy does for fewer than 8 elements; for longer arrays numpy adds
    pairwise in blocks, which can differ in the last bit when the partial
    sums are rounded, and gives the same result in any order when they are
    all exact. *)

Module np.

Local Open Scope float_scope.

Definition sum (a : list float) : float := fold_left add a 0.

Definition count (a : list float) : float :=
  float_of_int (Z.of_nat (List.length a)).

Definition mean (a : list float) : float := sum a / count a.

Definition var (a : list float) : float :=
  let arrmean := mean a in
  mean (map (fun x => let d := x - arrmean in d * d) a).

Definition std (a : list float) : float := sqrt (var a).

(** An [int64] array seen as [float64], as numpy converts it before any
    floating-point reduction. *)
Definition asfloat (a : list Z) : list float := map float_of_int a.

Definition min (a : list Z) : res Z :=
  match a with
  | [] => Raise ValueError
  | x :: xs => Ok (fold_left Z.min xs x)
  end.

Definition max (a : list Z) : res Z :=
  match a with
  | [] => Raise ValueError
  | x :: xs => Ok (fold_left Z.max xs x)
  end.

(** Elementwise [x ** 3] and [x ** 4].  numpy calls the C library's [pow]
    here, which agrees with the repeated product on NaN, zeros and
    infinities and is within one unit in the last place otherwise. *)
Definition pow3 (x : float) : float := x * x * x.
Definition pow4 (x : float) : float := (x * x) * (x * x).

End np.

(** ** [monte_carlo_simulation.py] *)

Module monte_carlo_simulation.

Local Open Scope float_scope.

(** The names bound in the module's global namespace: the imports of
    lines 1-8 and the classes and functions the file defines.  A name
    that is read without being bound here raises [NameError]. *)
Definition module_globals : list string :=
  [ "np"; "plt"; "dataclass"; "List"; "Dict"; "Tuple"; "Optional";
    "Callable"; "time"; "ProcessPoolExecutor"; "json"; "ABC";
    "abstractmethod"; "MonteCarloConfig"; "MonteCarloSimulation";
    "PiEstimation"; "MonteCarloAnalyzer"; "main" ]%string.

Definition lookup_global (name : string) : res unit :=
  if existsb (String.eqb name) module_globals then Ok tt
  else Raise (NameError name).

Record MonteCarloConfig : Type := {
  num_samples : Z;
  num_processes : Z;
  seed : option Z;
  batch_size : option Z;
  use_numpy : bool;
  store_points : bool;
  convergence_threshold : float;
  max_iterations : Z
}.

(** The keyword arguments of a call [MonteCarloConfig(...)]: [None] is an
    argument that was not passed. *)
Record MonteCarloConfig_kwargs : Type := {
  kw_num_samples : option Z;
  kw_num_processes : option Z;
  kw_seed : option (option Z);
  kw_batch_size : option (option Z);
  kw_use_numpy : option bool;
  kw_store_points : option bool;
  kw_convergence_threshold : option float;
  kw_max_iterations : option Z
}.

Definition default {A : Type} (x : option A) (d : A) : A :=
  match x with Some v => v | None => d end.

(** The literal [1e-6], that is the binary64 number nearest to it. *)
Definition threshold_1e_6 : float := 0x1.0c6f7a0b5ed8dp-20.

(** The [__init__] that [@dataclass] generates: every field is assigned
    from its argument or its default; there is no [__post_init__]. *)
Definition MonteCarloConfig__init__ (kw : MonteCarloConfig_kwargs)
  : res MonteCarloConfig :=
  Ok {| num_samples := default (kw_num_samples kw) 10000%Z;
        num_processes := default (kw_num_processes kw) 4%Z;
        seed := default (kw_seed kw) None;
        batch_size := default (kw_batch_size kw) None;
        use_numpy := default (kw_use_numpy kw) true;
        store_points := default (kw_store_points kw) false;
        convergence_threshold := default (kw_convergence_threshold kw) threshold_1e_6;
        max_iterations := default (kw_max_iterations kw) 100%Z |}.

Definition no_kwargs : MonteCarloConfig_kwargs :=
  {| kw_num_samples := None; kw_num_processes := None; kw_seed := None;
     kw_batch_size := None; kw_use_numpy := None; kw_store_points := None;
     kw_convergence_threshold := None; kw_max_iterations := None |}.

(** The auxiliary dictionary a trial returns. *)
Definition Dict : Type := list (string * Z).

(** The abstract base class [MonteCarloSimulation]: an object with state
    [S] (its attributes and the interpreter state it touches) that offers
    [run_trial] and [get_exact_value]. *)
Record MonteCarloSimulation (S : Type) : Type := {
  run_trial : S -> res ((float * option Dict) * S);
  get_exact_value : S -> float
}.

Arguments run_trial {S} _ _.
Arguments get_exact_value {S} _ _.

Section PiEstimation.

(** The two random sources: numpy's global generator and the one of
    Python's [random] module. *)
Variable np_state : Type.
Variable np_random_seed : Z -> np_state.
Variable np_random_uniform1 : np_state -> float -> float -> float * np_state.
Variable py_state : Type.
Variable random_seed : Z -> py_state.
Variable random_uniform : py_state -> float -> float -> float * py_state.

Record Globals : Type := { np_rng : np_state; py_rng : py_state }.

(** [np.random.seed(s)]: the seed must lie in [0, 2^32 - 1]. *)
Definition np_seed (s : Z) : res np_state :=
  if ((0 <=? s) && (s <? 2 ^ 32))%Z then Ok (np_random_seed s)
  else Raise ValueError.

(** [np.random.uniform(low, high, size)]: [size] draws in order. *)
Fixpoint np_random_uniform (st : np_state) (low high : float) (size : nat)
  : list float * np_state :=
  match size with
  | O => ([], st)
  | S k =>
      let '(v, st1) := np_random_uniform1 st low high in
      let '(vs, st2) := np_random_uniform st1 low high k in
      (v :: vs, st2)
  end.

Record PiEstimation : Type := {
  config : MonteCarloConfig;
  points : list (float * float * bool)
}.

Definition PiEstimation__init__ (g : Globals) (cfg : MonteCarloConfig)
  : res (Globals * PiEstimation) :=
  do g1 <- match seed cfg with
           | Some s =>
               do st <- np_seed s;
               do _ <- lookup_global "random";
               Ok {| np_rng := st; py_rng := random_seed s |}
           | None => Ok g
           end;
  Ok (g1, {| config := cfg; points := [] |}).

Definition _run_numpy_trial (st : Globals * PiEstimation)
  : res ((float * option Dict) * (Globals * PiEstimation)) :=
  let '(g, self) := st in
  let n := num_samples (config self) in
  if (n <? 0)%Z then Raise ValueError
  else
    let '(x, r1) := np_random_uniform (np_rng g) (-1) 1 (Z.to_nat n) in
    let '(y, r2) := np_random_uniform r1 (-1) 1 (Z.to_nat n) in
    let distances := map (fun xy => fst xy * fst xy + snd xy * snd xy)
                         (combine x y) in
    let inside_circle :=
      Z.of_nat (List.length (filter (fun d => d <=? 1) distances)) in
    let points' :=
      if store_points (config self)
      then points self
           ++ map (fun xy => (fst xy, snd xy,
                              fst xy * fst xy + snd xy * snd xy <=? 1))
                  (combine x y)
      else points self in
    let pi_estimate := (float_of_int inside_circle / float_of_int n) * 4 in
    Ok ((pi_estimate, Some [("inside_circle"%string, inside_circle)]),
        ({| np_rng := r2; py_rng := py_rng g |},
         {| config := config self; points := points' |})).

(** The body of [for _ in range(num_samples)] in [_run_python_trial]. *)
Fixpoint python_trial_loop (k : nat) (g : Globals) (self : PiEstimation)
  (inside_circle : Z) : res (Globals * PiEstimation * Z) :=
  match k with
  | O => Ok (g, self, inside_circle)
  | S k' =>
      do _ <- lookup_global "random";
      let '(x, r1) := random_uniform (py_rng g) (-1) 1 in
      do _ <- lookup_global "random";
      let '(y, r2) := random_uniform r1 (-1) 1 in
      let distance := x * x + y * y in
      let is_inside := distance <=? 1 in
      let self' :=
        if store_points (config self)
        then {| config := config self;
                points := points self ++ [(x, y, is_inside)] |}
        else self in
      python_trial_loop k' {| np_rng := np_rng g; py_rng := r2 |} self'
        (if is_inside then inside_circle + 1 else inside_circle)%Z
  end.

Definition _run_python_trial (st : Globals * PiEstimation)
  : res ((float * option Dict) * (Globals * PiEstimation)) :=
  let '(g, self) := st in
  let n := num_samples (config self) in
  do (g', self', inside_circle) <-
     python_trial_loop (Z.to_nat n) g self 0%Z;
  do q <- truediv inside_circle n;
  Ok ((q * 4, Some [("inside_circle"%string, inside_circle)]), (g', self')).

Definition PiEstimation_run_trial (st : Globals * PiEstimation)
  : res ((float * option Dict) * (Globals * PiEstimation)) :=
  if use_numpy (config (snd st)) then _run_numpy_trial st
  else _run_python_trial st.

(** [np.pi] *)
Definition np_pi : float := 0x1.921fb54442d18p+1.

Definition PiEstimation_sim : MonteCarloSimulation (Globals * PiEstimation) :=
  {| run_trial := PiEstimation_run_trial;
     get_exact_value := fun _ => np_pi |}.

End PiEstimation.

(** *** [MonteCarloAnalyzer] *)

Record Report : Type := {
  estimate : float;
  exact_value : float;
  absolute_error : float;
  relative_error : float;
  standard_deviation : float;
  report_runtime : float;
  num_iterations : Z
}.

Section MonteCarloAnalyzer.

Variable S : Type.
Variable sim : MonteCarloSimulation S.

Record MonteCarloAnalyzer : Type := {
  simulation : S;
  analyzer_config : MonteCarloConfig;
  results : list float;
  runtime : float;
  convergence_history : list float
}.

Definition MonteCarloAnalyzer__init__ (simulation : S)
  (cfg : MonteCarloConfig) : MonteCarloAnalyzer :=
  {| simulation := simulation; analyzer_config := cfg; results := [];
     runtime := 0; convergence_history := [] |}.

Definition _analyze_results (self : MonteCarloAnalyzer) : Report :=
  let exact_value := get_exact_value sim (simulation self) in
  let final_estimate := np.mean (results self) in
  {| estimate := final_estimate;
     exact_value := exact_value;
     absolute_error := abs (final_estimate - exact_value);
     relative_error := abs ((final_estimate - exact_value) / exact_value);
     standard_deviation := np.std (results self);
     report_runtime := runtime self;
     num_iterations := Z.of_nat (List.length (results self)) |}.

(** [run_parallel].  [start_time] and [end_time] are the two readings
    of [time.time()].  Task [i] runs [run_trial] in a worker process on
    its own copy of the simulation, [worker i]; the copy is discarded,
    and only the estimate comes back.  The futures are read in
    submission order, and the first one that raised re-raises. *)
Definition run_parallel (self : MonteCarloAnalyzer)
  (start_time end_time : float) (worker : nat -> S)
  : res (MonteCarloAnalyzer * Report) :=
  let cfg := analyzer_config self in
  do batch_size <- or_else (batch_size cfg)
                     (floordiv (num_samples cfg) (num_processes cfg));
  do _ <- (if (num_processes cfg <=? 0)%Z then Raise ValueError else Ok tt);
  do results <- mapM (fun i => do r <- run_trial sim (worker i);
                               Ok (fst (fst r)))
                  (range (num_processes cfg));
  let self' := {| simulation := simulation self;
                  analyzer_config := cfg;
                  results := results;
                  runtime := end_time - start_time;
                  convergence_history := convergence_history self |} in
  Ok (self', _analyze_results self').

(** The [for i in range(max_iterations)] loop of [run_sequential], with
    [k] iterations left; a [break] returns at once. *)
Fixpoint sequential_loop (k : nat) (s : S) (results history : list float)
  (prev_estimate : float) (threshold : float)
  : res (S * list float * list float) :=
  match k with
  | O => Ok (s, results, history)
  | Datatypes.S k' =>
      do r <- run_trial sim s;
      let result := fst (fst r) in
      let results' := results ++ [result] in
      let estimate := np.mean results' in
      let history' := history ++ [estimate] in
      if abs (estimate - prev_estimate) <? threshold
      then Ok (snd r, results', history')
      else sequential_loop k' (snd r) results' history' estimate threshold
  end.

Definition run_sequential (self : MonteCarloAnalyzer)
  (start_time end_time : float) : res (MonteCarloAnalyzer * Report) :=
  let cfg := analyzer_config self in
  do out <- sequential_loop (Z.to_nat (max_iterations cfg))
              (simulation self) (results self) (convergence_history self)
              infinity (convergence_threshold cfg);
  let '(s', results', history') := out in
  let self' := {| simulation := s';
                  analyzer_config := cfg;
                  results := results';
                  runtime := end_time - start_time;
                  convergence_history := history' |} in
  Ok (self', _analyze_results self').

(** The first [k] trials run one after the other from state [s]. *)
Fixpoint trials (k : nat) (s : S) : res (list float * S) :=
  match k with
  | O => Ok ([], s)
  | Datatypes.S k' =>
      do r <- run_trial sim s;
      do rest <- trials k' (snd r);
      Ok (fst (fst r) :: fst rest, snd rest)
  end.

End MonteCarloAnalyzer.

End monte_carlo_simulation.

(** ** [random_simulation.py] *)

Module random_simulation.

Local Open Scope float_scope.

Record SimulationConfig : Type := {
  min_value : Z;
  max_value : Z;
  trials : Z;
  seed : option Z;
  parallel : bool;
  num_processes : Z;
  batch_size : option Z
}.

Record SimulationConfig_kwargs : Type := {
  kw_min_value : option Z;
  kw_max_value : option Z;
  kw_trials : option Z;
  kw_seed : option (option Z);
  kw_parallel : option bool;
  kw_num_processes : option Z;
  kw_batch_size : option (option Z)
}.

Definition default {A : Type} (x : option A) (d : A) : A :=
  match x with Some v => v | None => d end.

(** The [__init__] that [@dataclass] generates; no [__post_init__]. *)
Definition SimulationConfig__init__ (kw : SimulationConfig_kwargs)
  : res SimulationConfig :=
  Ok {| min_value := default (kw_min_value kw) 1%Z;
        max_value := default (kw_max_value kw) 100%Z;
        trials := default (kw_trials kw) 1000%Z;
        seed := default (kw_seed kw) None;
        parallel := default (kw_parallel kw) false;
        num_processes := default (kw_num_processes kw) 4%Z;
        batch_size := default (kw_batch_size kw) None |}.

Definition no_kwargs : SimulationConfig_kwargs :=
  {| kw_min_value := None; kw_max_value := None; kw_trials := None;
     kw_seed := None; kw_parallel := None; kw_num_processes := None;
     kw_batch_size := None |}.

(** The [statistics] dictionary of [run], one field per key. *)
Record Statistics : Type := {
  mean : float;
  median : float;
  std_dev : float;
  min : float;
  max : float;
  variance : float;
  skewness : float;
  kurtosis : float
}.

Record SimulationResults : Type := {
  raw_data : list Z;
  statistics : Statistics;
  runtime : float;
  config : SimulationConfig
}.

(** [_calculate_skewness] and [_calculate_kurtosis] on [float64] data. *)
Definition _calculate_skewness (data : list float) : float :=
  np.mean (map (fun x => np.pow3 ((x - np.mean data) / np.std data)) data).

Definition _calculate_kurtosis (data : list float) : float :=
  np.mean (map (fun x => np.pow4 ((x - np.mean data) / np.std data)) data) - 3.

(** Sorting, for [np.median]. *)
Fixpoint insert_sorted (x : Z) (l : list Z) : list Z :=
  match l with
  | [] => [x]
  | y :: l' => if (x <=? y)%Z then x :: l else y :: insert_sorted x l'
  end.

Definition sorted (l : list Z) : list Z := fold_right insert_sorted [] l.

(** [np.median]: the mean of the middle element, or of the two middle
    elements, of the sorted data; NaN on an empty array. *)
Definition np_median (a : list Z) : float :=
  let s := sorted a in
  let n := List.length s in
  if Nat.even n
  then np.mean (np.asfloat (firstn 2 (skipn (Nat.div2 n - 1) s)))
  else np.mean (np.asfloat (firstn 1 (skipn (Nat.div2 n) s))).

(** The [statistics] part of [run], on the list [results]. *)
Definition compute_statistics (results : list Z) : res Statistics :=
  let np_results := np.asfloat results in
  do lo <- np.min results;
  do hi <- np.max results;
  Ok {| mean := np.mean np_results;
        median := np_median results;
        std_dev := np.std np_results;
        min := float_of_int lo;
        max := float_of_int hi;
        variance := np.var np_results;
        skewness := _calculate_skewness np_results;
        kurtosis := _calculate_kurtosis np_results |}.

Section RandomSimulation.

(** The generator of Python's [random] module.  [random_randint st a b]
    is the draw of [random.randint(a, b)] for [a <= b]. *)
Variable py_state : Type.
Variable random_seed : Z -> py_state.
Variable random_randint : py_state -> Z -> Z -> Z * py_state.

Record RandomSimulation : Type := { self_config : SimulationConfig }.

(** [__init__]: seeds [random]; [np.random.seed] moreover raises
    [ValueError] for a seed outside [0, 2^32 - 1]. *)
Definition RandomSimulation__init__ (rng : py_state)
  (cfg : SimulationConfig) : res (py_state * RandomSimulation) :=
  match seed cfg with
  | Some s =>
      if ((0 <=? s) && (s <? 2 ^ 32))%Z
      then Ok (random_seed s, {| self_config := cfg |})
      else Raise ValueError
  | None => Ok (rng, {| self_config := cfg |})
  end.

(** [random.randint(a, b)]: [ValueError] on an empty range. *)
Definition randint (rng : py_state) (a b : Z) : res (Z * py_state) :=
  if (b <? a)%Z then Raise ValueError else Ok (random_randint rng a b).

(** The comprehension of [_generate_batch], [k] draws left. *)
Fixpoint generate (self : RandomSimulation) (k : nat) (rng : py_state)
  : res (list Z * py_state) :=
  match k with
  | O => Ok ([], rng)
  | S k' =>
      do v <- randint rng (min_value (self_config self))
                          (max_value (self_config self));
      do vs <- generate self k' (snd v);
      Ok (fst v :: fst vs, snd vs)
  end.

Definition _generate_batch (self : RandomSimulation) (rng : py_state)
  (size : Z) : res (list Z * py_state) :=
  generate self (Z.to_nat size) rng.

(** [executor.map(self._generate_batch, sizes)]: task [i] is generated in
    a worker process whose generator is in state [worker_rng i]; the
    parent's generator is not advanced.  The batches come back in order,
    and the first exception is re-raised. *)
Definition executor_map (self : RandomSimulation)
  (worker_rng : nat -> py_state) (tasks : list (nat * Z))
  : res (list (list Z)) :=
  mapM (fun ib => do b <- _generate_batch self (worker_rng (fst ib))
                            (snd ib);
                  Ok (fst b)) tasks.

(** [_parallel_simulation] *)
Definition _parallel_simulation (self : RandomSimulation)
  (worker_rng : nat -> py_state) : res (list Z) :=
  let cfg := self_config self in
  do batch_size <- or_else (batch_size cfg)
                     (floordiv (trials cfg) (num_processes cfg));
  do n_batches <- floordiv (trials cfg) batch_size;
  let batches := map (fun _ => batch_size) (range n_batches) in
  do _ <- (if (num_processes cfg <=? 0)%Z then Raise ValueError else Ok tt);
  do results <- executor_map self worker_rng
                  (combine (range n_batches) batches);
  Ok (List.concat results).

(** The branch of [run] that produces [results]. *)
Definition run_results (self : RandomSimulation) (rng : py_state)
  (worker_rng : nat -> py_state) : res (list Z * py_state) :=
  let cfg := self_config self in
  if parallel cfg && (10000 <=? trials cfg)%Z
  then do results <- _parallel_simulation self worker_rng; Ok (results, rng)
  else _generate_batch self rng (trials cfg).

Definition run (self : RandomSimulation) (rng : py_state)
  (worker_rng : nat -> py_state) (start_time end_time : float)
  : res (SimulationResults * py_state) :=
  do out <- run_results self rng worker_rng;
  do stats <- compute_statistics (fst out);
  Ok ({| raw_data := fst out;
         statistics := stats;
         runtime := end_time - start_time;
         config := self_config self |}, snd out).

End RandomSimulation.

(** A small linear congruential generator, to run the simulation on
    concrete inputs. *)
Definition lcg_next (st : Z) : Z := (1103515245 * st + 12345) mod 2 ^ 31.

Definition lcg_randint (st : Z) (a b : Z) : Z * Z :=
  (a + lcg_next st mod (b - a + 1), lcg_next st)%Z.

Definition lcg_seed (s : Z) : Z := s mod 2 ^ 31.

End random_simulation.

(** ** Concrete instances, to run the embedding *)

Module fixtures.

Import monte_carlo_simulation.
Local Open Scope float_scope.

(** A linear congruential generator standing for both random sources;
    a draw of [uniform(low, high)] is [low + (high - low) * u] with [u] in
    [0, 1). *)
Definition lcg_next (st : Z) : Z := ((1103515245 * st + 12345) mod 2 ^ 31)%Z.

Definition lcg_uniform (st : Z) (low high : float) : float * Z :=
  let st' := lcg_next st in
  let u := of_uint63 (Uint63.of_Z st') / 0x1p+31 in
  (low + (high - low) * u, st').

Definition lcg_seed (s : Z) : Z := (s mod 2 ^ 31)%Z.

Definition G : Type := Globals Z Z.

Definition pi_sim : MonteCarloSimulation (G * PiEstimation) :=
  PiEstimation_sim Z lcg_uniform Z lcg_uniform.

Definition globals0 : G := {| np_rng := 1%Z; py_rng := 1%Z |}.

(** [MonteCarloConfig(num_samples=10000, seed=42)], the first
    configuration of [main]. *)
Definition config_seed_42 : MonteCarloConfig :=
  {| num_samples := 10000; num_processes := 4; seed := Some 42%Z;
     batch_size := None; use_numpy := true; store_points := false;
     convergence_threshold := threshold_1e_6; max_iterations := 100 |}.

(** [MonteCarloConfig(num_samples=10000)]: four processes by default. *)
Definition config_10000 : MonteCarloConfig :=
  {| num_samples := 10000; num_processes := 4; seed := None;
     batch_size := None; use_numpy := true; store_points := false;
     convergence_threshold := threshold_1e_6; max_iterations := 100 |}.

(** [MonteCarloConfig(num_samples=20, convergence_threshold=inf,
    max_iterations=50)] *)
Definition config_inf_50 : MonteCarloConfig :=
  {| num_samples := 20; num_processes := 4; seed := None;
     batch_size := None; use_numpy := true; store_points := false;
     convergence_threshold := infinity; max_iterations := 50 |}.

Definition pi_state (cfg : MonteCarloConfig) : G * PiEstimation :=
  (globals0, {| config := cfg; points := [] |}).

(** Worker [i] starts from its own generator state. *)
Definition pi_worker (cfg : MonteCarloConfig) (i : nat) : G * PiEstimation :=
  ({| np_rng := (Z.of_nat i + 1)%Z; py_rng := (Z.of_nat i + 1)%Z |},
   {| config := cfg; points := [] |}).

(** A simulation with reference value 0 whose trials all estimate 1. *)
Definition zero_reference_sim : MonteCarloSimulation unit :=
  {| run_trial := fun s => Ok ((1, None), s);
     get_exact_value := fun _ => 0 |}.

(** The estimate of a trial with 8 of 10 points inside the circle,
    [(8 / 10) * 4], that is 3.2. *)
Definition estimate_8_of_10 : float := float_of_int 8 / float_of_int 10 * 4.

End fixtures.

Module random_fixtures.

Import random_simulation.

(** [SimulationConfig(trials=10000, parallel=True, num_processes=3)]:
    the default batch size is 3333. *)
Definition config_parallel_3 : SimulationConfig :=
  {| min_value := 1; max_value := 100; trials := 10000; seed := None;
     parallel := true; num_processes := 3; batch_size := None |}.

(** [SimulationConfig(trials=5000, parallel=True)] *)
Definition config_small_parallel : SimulationConfig :=
  {| min_value := 1; max_value := 100; trials := 5000; seed := None;
     parallel := true; num_processes := 4; batch_size := None |}.

(** [SimulationConfig(trials=3, num_processes=4)] *)
Definition config_3_of_4 : SimulationConfig :=
  {| min_value := 1; max_value := 100; trials := 3; seed := None;
     parallel := true; num_processes := 4; batch_size := None |}.

(** [SimulationConfig(trials=-1, num_processes=4)] *)
Definition config_negative_trials : SimulationConfig :=
  {| min_value := 1; max_value := 100; trials := -1; seed := None;
     parallel := true; num_processes := 4; batch_size := None |}.

(** Three draws of one large value. *)
Definition big : Z := 7205759403792794.

Definition config_big : SimulationConfig :=
  {| min_value := big; max_value := big; trials := 3; seed := None;
     parallel := false; num_processes := 4; batch_size := None |}.

Definition sim_of (cfg : SimulationConfig) : RandomSimulation :=
  {| self_config := cfg |}.

(** Worker [i] starts from generator state [i + 1]. *)
Definition worker_rng (i : nat) : Z := Z.of_nat i + 1.

End random_fixtures.

(** ** Notions used in the statements *)

Module notions.

Import monte_carlo_simulation.
Local Open Scope float_scope.

(** A float that is neither NaN nor an infinity. *)
Definition is_finite (x : float) : bool :=
  match Prim2SF x with
  | S754_zero _ | S754_finite _ _ _ => true
  | _ => false
  end.

Definition is_nan (x : float) : bool :=
  match Prim2SF x with S754_nan => true | _ => false end.

(** The running mean after iteration [i] of a sequential run whose
    trials deliver [rs]. *)
Definition running_mean (rs : list float) (i : nat) : float :=
  np.mean (firstn i rs).

(** The convergence test of iteration [i >= 2]. *)
Definition converged_at (threshold : float) (rs : list float) (i : nat)
  : bool :=
  abs (running_mean rs i - running_mean rs (i - 1)) <? threshold.

(** The convergence test as the loop evaluates it at its [i]-th
    iteration, when it started with [pre] already in the buffer and
    [prev] as previous estimate. *)
Definition stop_test (threshold : float) (pre rs : list float)
  (prev : float) (i : nat) : bool :=
  abs (np.mean (pre ++ firstn i rs)
       - match i with
         | 1%nat => prev
         | _ => np.mean (pre ++ firstn (i - 1) rs)
         end) <? threshold.

(** A configuration the specification calls invalid. *)
Definition invalid_config (cfg : MonteCarloConfig) : Prop :=
  (num_samples cfg <= 0)%Z \/ (num_processes cfg <= 0)%Z
  \/ (exists b, batch_size cfg = Some b /\ (b <= 0)%Z)
  \/ (0 <? convergence_threshold cfg) = false
  \/ (max_iterations cfg <= 0)%Z.

End notions.

(** ** Integers as binary64 numbers *)

Module int64_as_float.

(** The binary64 number with the value of the integer [z], for
    [|z| < 2^53]: the mantissa is [|z|] shifted to 53 bits. *)
Definition SF_of_int (z : Z) : spec_float :=
  match z with
  | Z0 => S754_zero false
  | Zpos p =>
      S754_finite false (Z.to_pos (Zpos p * 2 ^ (53 - Zpos (digits2_pos p))))
        (Zpos (digits2_pos p) - 53)
  | Zneg p =>
      S754_finite true (Z.to_pos (Zpos p * 2 ^ (53 - Zpos (digits2_pos p))))
        (Zpos (digits2_pos p) - 53)
  end.

(** The sum of a list of integers, and the largest magnitude in it. *)
Definition total (l : list Z) : Z := fold_left Z.add l 0%Z.

Definition all_within (B : Z) (l : list Z) : Prop :=
  forall x, In x l -> (Z.abs x <= B)%Z.

(** A shift record with no bit lost so far. *)
Definition exact_record (m : Z) : shr_record :=
  {| shr_m := m; shr_r := false; shr_s := false |}.

(** The second half of [binary_round_aux]: the rounded mantissa [m] is
    renormalised (it may have gained a bit) and packed. *)
Definition round_finish (s : bool) (m e : Z) : spec_float :=
  let '(mrs, e') := shr_fexp prec emax m e loc_Exact in
  match shr_m mrs with
  | Z0 => S754_zero s
  | Zpos m' =>
      if (e' <=? emax - prec)%Z then S754_finite s m' e' else S754_infinity s
  | Zneg _ => S754_nan
  end.

End int64_as_float.

(** ** The data of the plots

    [visualize] and [visualize_results] draw with matplotlib; the two
    curves they compute themselves are embedded here. *)

Module plots.

Import monte_carlo_simulation.
Local Open Scope float_scope.







End plots.

(** ** Further notions used in the statements *)

Module more_notions.

Local Open Scope Z_scope.

(** What the documentation of [random.randint] promises: a value of the
    closed range. *)
Definition randint_in_range {py_state : Type}
  (random_randint : py_state -> Z -> Z -> Z * py_state) : Prop :=
  forall st a b, a <= b -> a <= fst (random_randint st a b) <= b.

(** A float with a 53-bit mantissa. *)
Definition is_normal (x : float) : bool :=
  match Prim2SF x with
  | S754_finite _ m _ => (Zpos (digits2_pos m) =? 53)
  | _ => false
  end.

(** NaN, [+0], [+inf] or a positive number: what a sum of squares can be. *)
Definition sign_clear (x : spec_float) : bool :=
  match x with
  | S754_nan | S754_zero false | S754_infinity false
  | S754_finite false _ _ => true
  | _ => false
  end.

(** NaN, or a number that is not below 0. *)
Definition not_negative (x : float) : bool :=
  match Prim2SF x with
  | S754_nan => true
  | _ => (0 <=? x)%float
  end.

(** The number of points of a list that are flagged as inside. *)
Definition count_inside (pts : list (float * float * bool)) : Z :=
  Z.of_nat (List.length (filter (fun p => snd p) pts)).

End more_notions.

(** ** Further concrete configurations *)

Module more_fixtures.

Import monte_carlo_simulation.

(** [MonteCarloConfig(num_samples=20, store_points=True)] *)
Definition config_store_points : MonteCarloConfig :=
  {| num_samples := 20; num_processes := 4; seed := None;
     batch_size := None; use_numpy := true; store_points := true;
     convergence_threshold := threshold_1e_6; max_iterations := 100 |}.

(** [MonteCarloConfig(num_samples=20, use_numpy=False)] *)
Definition config_python : MonteCarloConfig :=
  {| num_samples := 20; num_processes := 4; seed := None;
     batch_size := None; use_numpy := false; store_points := false;
     convergence_threshold := threshold_1e_6; max_iterations := 100 |}.

(** [MonteCarloConfig(num_samples=0)] *)
Definition config_no_samples : MonteCarloConfig :=
  {| num_samples := 0; num_processes := 4; seed := None;
     batch_size := None; use_numpy := true; store_points := false;
     convergence_threshold := threshold_1e_6; max_iterations := 100 |}.

(** [MonteCarloConfig(num_samples=20, num_processes=0)] *)
Definition config_no_processes : MonteCarloConfig :=
  {| num_samples := 20; num_processes := 0; seed := None;
     batch_size := None; use_numpy := true; store_points := false;
     convergence_threshold := threshold_1e_6; max_iterations := 100 |}.

(** [MonteCarloConfig(num_samples=20, max_iterations=0)] *)
Definition config_no_iterations : MonteCarloConfig :=
  {| num_samples := 20; num_processes := 4; seed := None;
     batch_size := None; use_numpy := true; store_points := false;
     convergence_threshold := threshold_1e_6; max_iterations := 0 |}.

(** [MonteCarloConfig(num_samples=20, store_points=True,
    convergence_threshold=inf, max_iterations=50)] *)
Definition config_store_inf_50 : MonteCarloConfig :=
  {| num_samples := 20; num_processes := 4; seed := None;
     batch_size := None; use_numpy := true; store_points := true;
     convergence_threshold := infinity; max_iterations := 50 |}.

(** A fresh analyzer of the Pi simulation, both built from [cfg]. *)
Definition pi_analyzer (cfg : MonteCarloConfig)
  : MonteCarloAnalyzer (fixtures.G * PiEstimation) :=
  MonteCarloAnalyzer__init__ _ (fixtures.pi_state cfg) cfg.

(** An analyzer that already holds the result 3.0 of an earlier run. *)
Definition pi_analyzer_after_run (cfg : MonteCarloConfig)
  : MonteCarloAnalyzer (fixtures.G * PiEstimation) :=
  {| simulation := fixtures.pi_state cfg; analyzer_config := cfg;
     results := [3%float]; runtime := 1%float;
     convergence_history := [3%float] |}.

(** A simulation with exact value 3 whose trials all estimate 3. *)
Definition three_sim : MonteCarloSimulation unit :=
  {| run_trial := fun s => Ok ((3%float, None), s);
     get_exact_value := fun _ => 3%float |}.

End more_fixtures.

Module more_random_fixtures.

Import random_simulation.

(** [SimulationConfig()] with [trials=10] *)
Definition config_10 : SimulationConfig :=
  {| min_value := 1; max_value := 100; trials := 10; seed := None;
     parallel := false; num_processes := 4; batch_size := None |}.

(** [SimulationConfig(trials=0)] *)
Definition config_no_trials : SimulationConfig :=
  {| min_value := 1; max_value := 100; trials := 0; seed := None;
     parallel := false; num_processes := 4; batch_size := None |}.

(** [SimulationConfig(min_value=5, max_value=1, trials=10)] *)
Definition config_empty_range : SimulationConfig :=
  {| min_value := 5; max_value := 1; trials := 10; seed := None;
     parallel := false; num_processes := 4; batch_size := None |}.

(** [SimulationConfig(trials=10000, parallel=True, batch_size=20000)] *)
Definition config_oversized_batch : SimulationConfig :=
  {| min_value := 1; max_value := 100; trials := 10000; seed := None;
     parallel := true; num_processes := 4; batch_size := Some 20000%Z |}.

End more_random_fixtures.

(** * Binary64 arithmetic: the facts the proofs need *)

Module float_facts.

Import notions.
Local Open Scope float_scope.

(** Rounding does not look at the sign. *)
Lemma SFabs_binary_round_aux (s : bool) (m e : Z) (l : location) :
  SFabs (binary_round_aux prec emax s m e l)
  = binary_round_aux prec emax false m e l.
Proof.
  unfold binary_round_aux.
  destruct (shr_fexp prec emax m e l) as [mrs' e'].
  destruct (shr_fexp prec emax _ e' loc_Exact) as [mrs'' e''].
  destruct (shr_m mrs''); [reflexivity | | reflexivity].
  destruct (Z.leb e'' (emax - prec)); reflexivity.
Qed.

Lemma SFabs_SFdiv (x y : spec_float) :
  SFabs (SFdiv prec emax x y) = SFdiv prec emax (SFabs x) (SFabs y).
Proof.
  destruct x as [sx|sx| |sx mx ex], y as [sy|sy| |sy my ey];
    try reflexivity.
  simpl. destruct (SFdiv_core_binary prec emax _ ex _ ey) as [[mz ez] lz].
  apply SFabs_binary_round_aux.
Qed.

(** [|a / b| = |a| / |b|], exactly. *)
Lemma abs_div (a b : float) : abs (a / b) = abs a / abs b.
Proof.
  apply Prim2SF_inj.
  rewrite abs_spec, !div_spec, !abs_spec. apply SFabs_SFdiv.
Qed.

Lemma eqb_zero_inv (x : float) :
  (x =? 0) = true -> exists s, Prim2SF x = S754_zero s.
Proof.
  rewrite eqb_spec. change (Prim2SF 0) with (S754_zero false).
  destruct (Prim2SF x) as [s|s| |s m e]; unfold SFeqb; simpl;
    try discriminate; try (destruct s; discriminate).
  intros _. exists s. reflexivity.
Qed.

(** Division of an error [d] by a zero reference. *)
Lemma abs_div_zero (d r : float) :
  (r =? 0) = true ->
  (abs (d / r) = nan /\ (is_nan (abs d) = true \/ (abs d =? 0) = true))
  \/ (abs (d / r) = infinity
      /\ is_nan (abs d) = false /\ (abs d =? 0) = false).
Proof.
  intros Hr. destruct (eqb_zero_inv r Hr) as [s Hs].
  unfold is_nan. rewrite eqb_spec, !abs_spec.
  change (Prim2SF 0) with (S754_zero false).
  assert (H : Prim2SF (abs (d / r))
              = SFabs (SFdiv prec emax (Prim2SF d) (S754_zero s))).
  { rewrite abs_spec, div_spec, Hs. reflexivity. }
  destruct (Prim2SF d) as [sd|sd| |sd md ed]; simpl in *.
  - left. split; [apply Prim2SF_inj; exact H | right; reflexivity].
  - right. split; [apply Prim2SF_inj; exact H | split; reflexivity].
  - left. split; [apply Prim2SF_inj; exact H | left; reflexivity].
  - right. split; [apply Prim2SF_inj; exact H | split; reflexivity].
Qed.

End float_facts.

(** * Integers in binary64 arithmetic

    Sums of integers are exact while they stay below 2^53, and a quotient
    of two such integers is rounded to a number between any two integer
    bounds of the exact quotient. *)

Module int_float_facts.

Import int64_as_float.
Local Open Scope Z_scope.

(** *** Digits *)

Lemma digits2_size (p : positive) : digits2_pos p = Pos.size p.
Proof. induction p as [p IH|p IH|]; simpl; congruence. Qed.

Lemma digits2_bounds (p : positive) :
  2 ^ (Zpos (digits2_pos p) - 1) <= Zpos p < 2 ^ Zpos (digits2_pos p).
Proof.
  rewrite digits2_size. split.
  - pose proof (Pos.size_le p) as H.
    apply Pos2Z.pos_le_pos in H. rewrite Pos2Z.inj_pow in H.
    replace (Zpos (Pos.size p)) with (Zpos (Pos.size p) - 1 + 1) in H by lia.
    rewrite Z.pow_add_r in H by lia.
    change (Zpos p~0) with (2 * Zpos p) in H. lia.
  - pose proof (Pos.size_gt p) as H.
    apply Pos2Z.pos_lt_pos in H. rewrite Pos2Z.inj_pow in H. exact H.
Qed.

(** The number of digits is determined by the bounds. *)
Lemma digits2_unique (p : positive) (d : Z) :
  2 ^ (d - 1) <= Zpos p < 2 ^ d -> Zpos (digits2_pos p) = d.
Proof.
  intros [Hlo Hhi]. pose proof (digits2_bounds p) as [Hlo' Hhi'].
  assert (Hd : 0 < d).
  { destruct (Z.lt_ge_cases 0 d) as [|Hd]; [assumption|].
    assert (2 ^ d <= 1).
    { destruct (Z.eq_dec d 0) as [->|]; [simpl; lia|].
      rewrite Z.pow_neg_r by lia. lia. }
    lia. }
  destruct (Z.lt_trichotomy (Zpos (digits2_pos p)) d) as [H|[H|H]];
    [exfalso | assumption | exfalso].
  - assert (2 ^ Zpos (digits2_pos p) <= 2 ^ (d - 1))
      by (apply Z.pow_le_mono_r; lia).
    lia.
  - assert (2 ^ d <= 2 ^ (Zpos (digits2_pos p) - 1))
      by (apply Z.pow_le_mono_r; lia).
    lia.
Qed.

Lemma digits2_le_53 (p : positive) :
  Zpos p < 2 ^ 53 -> Zpos (digits2_pos p) <= 53.
Proof.
  intros H. pose proof (digits2_bounds p) as [Hlo _].
  destruct (Z.le_gt_cases (Zpos (digits2_pos p)) 53) as [|Hgt]; [assumption|].
  assert (2 ^ 53 <= 2 ^ (Zpos (digits2_pos p) - 1))
    by (apply Z.pow_le_mono_r; lia).
  lia.
Qed.

Lemma digits2_mul_pow2 (p : positive) (k : Z) :
  0 <= k ->
  Zpos (digits2_pos (Z.to_pos (Zpos p * 2 ^ k))) = Zpos (digits2_pos p) + k.
Proof.
  intros Hk. pose proof (digits2_bounds p) as [Hlo Hhi].
  assert (Hpow : 0 < 2 ^ k) by (apply Z.pow_pos_nonneg; lia).
  apply digits2_unique. rewrite Z2Pos.id by lia.
  replace (Zpos (digits2_pos p) + k - 1) with (Zpos (digits2_pos p) - 1 + k)
    by lia.
  rewrite !Z.pow_add_r by lia. split; nia.
Qed.

Lemma iter_xO_pow2 (p k : positive) :
  Zpos (Pos.iter xO p k) = Zpos p * 2 ^ Zpos k.
Proof.
  change (Pos.iter xO p k) with (shift_pos k p).
  rewrite shift_pos_correct. change (Z.pow_pos 2 k) with (2 ^ Zpos k). lia.
Qed.

(** *** Shifting out zero bits *)

Lemma shr_1_double (m : Z) : shr_1 (exact_record (2 * m)) = exact_record m.
Proof. destruct m as [|p|p]; reflexivity. Qed.

Lemma iter_shr_1_exact (k : positive) :
  forall m, iter_pos shr_1 k (exact_record (m * 2 ^ Zpos k)) = exact_record m.
Proof.
  induction k as [k IH|k IH|]; intros m; cbn [iter_pos].
  - replace (m * 2 ^ Zpos k~1) with (2 * ((m * 2 ^ Zpos k) * 2 ^ Zpos k)).
    + rewrite shr_1_double, !IH. reflexivity.
    + replace (Zpos k~1) with (Zpos k + Zpos k + 1) by lia.
      rewrite !Z.pow_add_r by lia. change (2 ^ 1) with 2. ring.
  - replace (m * 2 ^ Zpos k~0) with ((m * 2 ^ Zpos k) * 2 ^ Zpos k).
    + rewrite !IH. reflexivity.
    + replace (Zpos k~0) with (Zpos k + Zpos k) by lia.
      rewrite !Z.pow_add_r by lia. ring.
  - change (2 ^ 1) with 2. rewrite Z.mul_comm. apply shr_1_double.
Qed.

(** [shr] by [k >= 0] positions when the [k] low bits are 0. *)
Lemma shr_exact (m e k : Z) :
  0 <= k ->
  shr (exact_record (m * 2 ^ k)) e k = (exact_record m, e + k).
Proof.
  intros Hk. destruct k as [|k|k]; [| |lia].
  - simpl. rewrite Z.mul_1_r, Z.add_0_r. reflexivity.
  - unfold shr. rewrite iter_shr_1_exact. reflexivity.
Qed.

(** *** Rounding a number that needs no rounding *)

Lemma fexp_normal (x : Z) : -1074 <= x - 53 -> fexp prec emax x = x - 53.
Proof. unfold fexp, SpecFloat.emin, prec, emax. lia. Qed.

Lemma Zdigits2_pos (p : positive) : Zdigits2 (Zpos p) = Zpos (digits2_pos p).
Proof. reflexivity. Qed.

(** A mantissa of 53 bits followed by [k] zero bits is rounded to the 53
    bits, exactly. *)
Lemma binary_round_aux_exact (s : bool) (m : positive) (e k : Z) :
  Zpos (digits2_pos m) = 53 -> 0 <= k -> -1074 <= e + k <= 971 ->
  binary_round_aux prec emax s (Zpos m * 2 ^ k) e loc_Exact
  = S754_finite s m (e + k).
Proof.
  intros Hd Hk He.
  assert (Hpow : 0 < 2 ^ k) by (apply Z.pow_pos_nonneg; lia).
  assert (HM : Zpos (Z.to_pos (Zpos m * 2 ^ k)) = Zpos m * 2 ^ k)
    by (apply Z2Pos.id; lia).
  assert (Hdig : Zdigits2 (Zpos m * 2 ^ k) = 53 + k).
  { rewrite <- HM, Zdigits2_pos, digits2_mul_pow2, Hd by lia. reflexivity. }
  unfold binary_round_aux, shr_fexp.
  rewrite Hdig, fexp_normal by lia.
  replace (53 + k + e - 53 - e) with k by lia.
  change (shr_record_of_loc (Zpos m * 2 ^ k) loc_Exact)
    with (exact_record (Zpos m * 2 ^ k)).
  rewrite shr_exact by lia.
  change (loc_of_shr_record (exact_record (Zpos m))) with loc_Exact.
  cbn [shr_m exact_record round_nearest_even].
  rewrite Zdigits2_pos, Hd, fexp_normal by lia.
  replace (53 + (e + k) - 53 - (e + k)) with 0 by lia.
  cbn [shr shr_record_of_loc shr_m].
  replace (e + k <=? emax - prec) with true; [reflexivity|].
  symmetry. apply Z.leb_le. unfold emax, prec. lia.
Qed.

(** Any representation [p * 2^j * 2^(-j)] of a positive integer below 2^53
    is normalised to the same 53-bit mantissa. *)
Lemma binary_round_int (s : bool) (p : positive) (j : Z) :
  Zpos p < 2 ^ 53 -> 0 <= j <= 1000 ->
  binary_round prec emax s (Z.to_pos (Zpos p * 2 ^ j)) (- j)
  = S754_finite s (Z.to_pos (Zpos p * 2 ^ (53 - Zpos (digits2_pos p))))
      (Zpos (digits2_pos p) - 53).
Proof.
  intros Hp Hj.
  pose proof (digits2_le_53 p Hp) as Hd.
  assert (Hd1 : 1 <= Zpos (digits2_pos p)) by lia.
  set (d := Zpos (digits2_pos p)) in *.
  assert (Hpj : 0 < 2 ^ j) by (apply Z.pow_pos_nonneg; lia).
  assert (Hpd : 0 < 2 ^ (53 - d)) by (apply Z.pow_pos_nonneg; lia).
  set (m := Z.to_pos (Zpos p * 2 ^ (53 - d))).
  assert (Hm : Zpos m = Zpos p * 2 ^ (53 - d)) by (apply Z2Pos.id; lia).
  assert (Hdm : Zpos (digits2_pos m) = 53).
  { unfold m. rewrite digits2_mul_pow2 by lia. fold d. lia. }
  unfold binary_round.
  rewrite digits2_mul_pow2 by lia. fold d.
  rewrite fexp_normal by lia.
  unfold shl_align.
  destruct (d + j + - j - 53 - - j) as [|t|t] eqn:Ht.
  - replace (Zpos (Z.to_pos (Zpos p * 2 ^ j))) with (Zpos m * 2 ^ 0).
    + rewrite binary_round_aux_exact by lia. f_equal. lia.
    + rewrite Z2Pos.id, Hm by lia. replace (53 - d) with j by lia. lia.
  - replace (Zpos (Z.to_pos (Zpos p * 2 ^ j))) with (Zpos m * 2 ^ (Zpos t)).
    + rewrite binary_round_aux_exact by lia. f_equal. lia.
    + rewrite Z2Pos.id, Hm by lia.
      replace j with (53 - d + Zpos t) by lia.
      rewrite Z.pow_add_r by lia. ring.
  - replace (Zpos (Pos.iter xO (Z.to_pos (Zpos p * 2 ^ j)) t))
      with (Zpos m * 2 ^ 0).
    + rewrite binary_round_aux_exact by lia. f_equal. lia.
    + rewrite iter_xO_pow2, Z2Pos.id, Hm by lia.
      replace (53 - d) with (j + Zpos t) by lia.
      rewrite Z.pow_add_r by lia. ring.
Qed.

(** Normalising [v * 2^j * 2^(-j)] gives the float of the integer [v]. *)
Lemma binary_normalize_int (v j : Z) :
  Z.abs v < 2 ^ 53 -> 0 <= j <= 1000 ->
  binary_normalize prec emax (v * 2 ^ j) (- j) false = SF_of_int v.
Proof.
  intros Hv Hj.
  assert (Hpj : 0 < 2 ^ j) by (apply Z.pow_pos_nonneg; lia).
  destruct v as [|p|p]; [reflexivity | |].
  - replace (Zpos p * 2 ^ j) with (Zpos (Z.to_pos (Zpos p * 2 ^ j)))
      by (apply Z2Pos.id; lia).
    apply binary_round_int; [exact Hv | lia].
  - replace (Zneg p * 2 ^ j) with (Zneg (Z.to_pos (Zpos p * 2 ^ j))).
    + apply (binary_round_int true); [exact Hv | lia].
    + rewrite <- Pos2Z.opp_pos, Z2Pos.id by lia. lia.
Qed.

Lemma SF_of_int_normalize (v : Z) :
  Z.abs v < 2 ^ 53 -> binary_normalize prec emax v 0 false = SF_of_int v.
Proof.
  intros Hv. rewrite <- (binary_normalize_int v 0 Hv) by lia.
  f_equal. lia.
Qed.

(** *** The float of a non-zero integer *)

Lemma SF_of_int_finite (v : Z) :
  v <> 0 -> Z.abs v < 2 ^ 53 ->
  exists m e,
    SF_of_int v = S754_finite (v <? 0) m e
    /\ Zpos (digits2_pos m) = 53 /\ -52 <= e <= 0
    /\ Zpos m = Z.abs v * 2 ^ (- e).
Proof.
  intros Hv Hb.
  destruct v as [|p|p]; [congruence| |];
    pose proof (digits2_le_53 p Hb) as Hd;
    assert (Hpd : 0 < 2 ^ (53 - Zpos (digits2_pos p)))
      by (apply Z.pow_pos_nonneg; lia);
    eexists; eexists; (split; [reflexivity|]);
    (split; [rewrite digits2_mul_pow2 by lia; lia|]);
    (split; [lia|]); rewrite Z2Pos.id by lia;
    simpl Z.abs; f_equal; f_equal; lia.
Qed.

Lemma shl_align_fst (m : positive) (e e' : Z) :
  e' <= e -> Zpos (fst (shl_align m e e')) = Zpos m * 2 ^ (e - e').
Proof.
  intros He. unfold shl_align.
  destruct (e' - e) as [|t|t] eqn:Ht; simpl fst.
  - replace (e - e') with 0 by lia. lia.
  - lia.
  - rewrite iter_xO_pow2. f_equal. f_equal. lia.
Qed.

Lemma cond_Zopp_abs (v : Z) : cond_Zopp (v <? 0) (Z.abs v) = v.
Proof.
  unfold cond_Zopp. destruct (Z.ltb_spec v 0); lia.
Qed.

Lemma cond_Zopp_mul (s : bool) (x y : Z) :
  cond_Zopp s (x * y) = cond_Zopp s x * y.
Proof. destruct s; simpl; lia. Qed.

(** *** Addition of integers is exact *)

Lemma SFadd_int (a b : Z) :
  Z.abs a < 2 ^ 53 -> Z.abs b < 2 ^ 53 -> Z.abs (a + b) < 2 ^ 53 ->
  SFadd prec emax (SF_of_int a) (SF_of_int b) = SF_of_int (a + b).
Proof.
  intros Ha Hb Hab.
  destruct (Z.eq_dec a 0) as [->|Ha0].
  { simpl (0 + b). destruct b; reflexivity. }
  destruct (Z.eq_dec b 0) as [->|Hb0].
  { rewrite Z.add_0_r. destruct a; reflexivity. }
  destruct (SF_of_int_finite a Ha0 Ha) as [ma [ea [-> [Hda [Hea Hma]]]]].
  destruct (SF_of_int_finite b Hb0 Hb) as [mb [eb [-> [Hdb [Heb Hmb]]]]].
  cbn [SFadd].
  rewrite !shl_align_fst by lia.
  set (ez := Z.min ea eb).
  rewrite Hma, Hmb, <- !Z.mul_assoc, <- !Z.pow_add_r by lia.
  replace (- ea + (ea - ez)) with (- ez) by lia.
  replace (- eb + (eb - ez)) with (- ez) by lia.
  rewrite !cond_Zopp_mul, !cond_Zopp_abs, <- Z.mul_add_distr_r.
  rewrite <- (Z.opp_involutive ez) at 2.
  apply binary_normalize_int; [exact Hab | lia].
Qed.

(** *** Rounding a quotient of 53 or 54 bits *)

Lemma binary_round_aux_finish (s : bool) (m e : Z) (l : location) :
  binary_round_aux prec emax s m e l
  = round_finish s
      (round_nearest_even (shr_m (fst (shr_fexp prec emax m e l)))
         (loc_of_shr_record (fst (shr_fexp prec emax m e l))))
      (snd (shr_fexp prec emax m e l)).
Proof.
  unfold binary_round_aux, round_finish.
  destruct (shr_fexp prec emax m e l) as [mrs' e']. reflexivity.
Qed.

Lemma loc_of_record_of_loc (m : Z) (l : location) :
  loc_of_shr_record (shr_record_of_loc m l) = l.
Proof. destruct l as [|[| |]]; reflexivity. Qed.

Lemma shr_m_record_of_loc (m : Z) (l : location) :
  shr_m (shr_record_of_loc m l) = m.
Proof. destruct l as [|[| |]]; reflexivity. Qed.

Lemma round_nearest_even_cases (m : Z) (l : location) :
  round_nearest_even m l = m \/ round_nearest_even m l = m + 1.
Proof.
  destruct l as [|[| |]]; simpl; auto. destruct (Z.even m); auto.
Qed.

Lemma Zdigits2_unique (m d : Z) :
  0 < m -> 2 ^ (d - 1) <= m < 2 ^ d -> Zdigits2 m = d.
Proof.
  intros Hm H. destruct m as [|p|p]; try lia.
  simpl. apply digits2_unique. exact H.
Qed.

(** A mantissa in [[2^52, 2^53]] is packed as it is, or as [2^52] with the
    next exponent when it is [2^53]. *)
Lemma round_finish_normal (s : bool) (m e : Z) :
  2 ^ 52 <= m <= 2 ^ 53 -> -1074 <= e <= 970 ->
  exists m' e',
    round_finish s m e = S754_finite s m' e'
    /\ Zpos (digits2_pos m') = 53 /\ e <= e' <= e + 1
    /\ Zpos m' * 2 ^ (e' - e) = m.
Proof.
  intros Hm He. unfold round_finish, shr_fexp.
  destruct (Z.eq_dec m (2 ^ 53)) as [->|Hne].
  - change (Zdigits2 (2 ^ 53)) with 54. rewrite fexp_normal by lia.
    replace (54 + e - 53 - e) with 1 by lia.
    cbn [shr shr_record_of_loc iter_pos shr_1 shr_m].
    replace (e + 1 <=? emax - prec) with true
      by (symmetry; apply Z.leb_le; unfold emax, prec; lia).
    eexists; eexists. split; [reflexivity|].
    split; [reflexivity|]. split; [lia|].
    replace (e + 1 - e) with 1 by lia. reflexivity.
  - assert (Hd : Zdigits2 m = 53) by (apply Zdigits2_unique; lia).
    rewrite Hd, fexp_normal by lia.
    replace (53 + e - 53 - e) with 0 by lia.
    cbn [shr shr_record_of_loc shr_m].
    destruct m as [|p|p]; try lia.
    replace (e <=? emax - prec) with true
      by (symmetry; apply Z.leb_le; unfold emax, prec; lia).
    exists p, e. split; [reflexivity|]. split; [exact Hd|]. split; [lia|].
    rewrite Z.sub_diag. lia.
Qed.

Lemma half_xI (p : positive) : Zpos p~1 / 2 = Zpos p.
Proof.
  symmetry. apply Z.div_unique with (r := 1); [lia|].
  rewrite Pos2Z.inj_xI. lia.
Qed.

Lemma half_xO (p : positive) : Zpos p~0 / 2 = Zpos p.
Proof.
  symmetry. apply Z.div_unique with (r := 0); [lia|].
  rewrite Pos2Z.inj_xO. lia.
Qed.

Lemma shr_1_record_of_loc (q : Z) (l : location) :
  2 <= q ->
  shr_m (shr_1 (shr_record_of_loc q l)) = q / 2
  /\ (l = loc_Exact -> q = 2 * (q / 2) ->
      loc_of_shr_record (shr_1 (shr_record_of_loc q l)) = loc_Exact).
Proof.
  intros Hq. destruct q as [|p|p]; try lia.
  destruct p as [p|p|]; try lia.
  - rewrite half_xI. split.
    + destruct l as [|[| |]]; reflexivity.
    + intros _ H. rewrite Pos2Z.inj_xI in H. lia.
  - rewrite half_xO. split.
    + destruct l as [|[| |]]; reflexivity.
    + intros -> _. reflexivity.
Qed.

(** The result of rounding a quotient [q] of 53 or 54 bits at exponent [e]:
    a normal number whose mantissa [R], in units of [2^e], is the
    truncation [T] of [q] to 53 bits or the next 53-bit number, and is [T]
    when nothing was lost. *)
Lemma binary_round_aux_quotient (s : bool) (q e : Z) (l : location) :
  2 ^ 52 <= q < 2 ^ 54 -> -1074 <= e <= 960 ->
  exists m' e',
    binary_round_aux prec emax s q e l = S754_finite s m' e'
    /\ Zpos (digits2_pos m') = 53 /\ e <= e' <= e + 2
    /\ ((q < 2 ^ 53 ->
         q <= Zpos m' * 2 ^ (e' - e) <= q + 1
         /\ (l = loc_Exact -> Zpos m' * 2 ^ (e' - e) = q))
        /\ (2 ^ 53 <= q ->
            2 * (q / 2) <= Zpos m' * 2 ^ (e' - e) <= 2 * (q / 2) + 2
            /\ (l = loc_Exact -> q = 2 * (q / 2) ->
                Zpos m' * 2 ^ (e' - e) = q))).
Proof.
  intros Hq He. rewrite binary_round_aux_finish. unfold shr_fexp.
  destruct (Z.lt_ge_cases q (2 ^ 53)) as [Hlt|Hge].
  - assert (Hd : Zdigits2 q = 53) by (apply Zdigits2_unique; lia).
    rewrite Hd, fexp_normal by lia.
    replace (53 + e - 53 - e) with 0 by lia.
    cbn [shr fst snd].
    rewrite loc_of_record_of_loc, shr_m_record_of_loc.
    destruct (round_finish_normal s (round_nearest_even q l) e)
      as [m' [e' [Hres [Hdm [He' Hval]]]]];
      [destruct (round_nearest_even_cases q l); lia | lia |].
    exists m', e'. split; [exact Hres|]. split; [exact Hdm|].
    split; [lia|]. split; [|intros; lia].
    intros _. rewrite Hval. split.
    + destruct (round_nearest_even_cases q l); lia.
    + intros ->. reflexivity.
  - assert (Hd : Zdigits2 q = 54) by (apply Zdigits2_unique; lia).
    rewrite Hd, fexp_normal by lia.
    replace (54 + e - 53 - e) with 1 by lia.
    cbn [shr iter_pos fst snd].
    destruct (shr_1_record_of_loc q l ltac:(lia)) as [Hm Hex].
    rewrite Hm.
    set (l' := loc_of_shr_record (shr_1 (shr_record_of_loc q l))) in *.
    assert (Hhalf : 2 ^ 52 <= q / 2 < 2 ^ 53).
    { split.
      - apply Z.div_le_lower_bound; lia.
      - apply Z.div_lt_upper_bound; lia. }
    destruct (round_finish_normal s (round_nearest_even (q / 2) l') (e + 1))
      as [m' [e' [Hres [Hdm [He' Hval]]]]];
      [destruct (round_nearest_even_cases (q / 2) l'); lia | lia |].
    exists m', e'. split; [exact Hres|]. split; [exact Hdm|].
    split; [lia|]. split; [intros; lia|].
    intros _.
    assert (HR : Zpos m' * 2 ^ (e' - e)
                 = 2 * round_nearest_even (q / 2) l').
    { rewrite <- Hval. replace (e' - e) with (e' - (e + 1) + 1) by lia.
      rewrite Z.pow_add_r by lia. change (2 ^ 1) with 2. ring. }
    rewrite HR. split.
    + destruct (round_nearest_even_cases (q / 2) l'); lia.
    + intros Hl Heven. rewrite (Hex Hl Heven).
      cbn [round_nearest_even]. lia.
Qed.

(** *** Order of normal numbers *)

Lemma scaled_lt (m1 m2 P X : Z) :
  0 < m1 -> m1 < 2 * m2 -> 0 < P -> 0 < X -> m1 * P < m2 * (P * (2 * X)).
Proof.
  intros H1 H2 HP HX.
  assert (m1 * P < 2 * m2 * P) by (apply Z.mul_lt_mono_pos_r; lia).
  assert (2 * m2 * P * 1 <= 2 * m2 * P * X)
    by (apply Z.mul_le_mono_nonneg_l; nia).
  replace (m2 * (P * (2 * X))) with (2 * m2 * P * X) by ring. lia.
Qed.

(** Two positive normal numbers compare as their values, here scaled by
    [2^200] to stay in the integers. *)
Lemma compare_normal (m1 m2 : positive) (e1 e2 : Z) :
  Zpos (digits2_pos m1) = 53 -> Zpos (digits2_pos m2) = 53 ->
  -200 <= e1 -> -200 <= e2 ->
  match e1 ?= e2 with
  | Lt => Lt
  | Gt => Gt
  | Eq => Pos.compare_cont Eq m1 m2
  end = (Zpos m1 * 2 ^ (e1 + 200) ?= Zpos m2 * 2 ^ (e2 + 200)).
Proof.
  intros Hd1 Hd2 He1 He2.
  pose proof (digits2_bounds m1) as B1. rewrite Hd1 in B1.
  pose proof (digits2_bounds m2) as B2. rewrite Hd2 in B2.
  change (2 ^ (53 - 1)) with (2 ^ 52) in *.
  assert (H53 : 2 ^ 53 = 2 * 2 ^ 52) by reflexivity.
  assert (Hp1 : 0 < 2 ^ (e1 + 200)) by (apply Z.pow_pos_nonneg; lia).
  assert (Hp2 : 0 < 2 ^ (e2 + 200)) by (apply Z.pow_pos_nonneg; lia).
  destruct (Z.compare_spec e1 e2) as [Heq|Hlt|Hgt].
  - subst e2. change (Pos.compare_cont Eq m1 m2) with (Zpos m1 ?= Zpos m2).
    symmetry. destruct (Z.compare_spec (Zpos m1) (Zpos m2)) as [E|L|G].
    + rewrite E. apply Z.compare_refl.
    + apply Z.compare_lt_iff. nia.
    + apply Z.compare_gt_iff. nia.
  - symmetry. apply Z.compare_lt_iff.
    replace (e2 + 200) with ((e1 + 200) + (1 + (e2 - e1 - 1))) by lia.
    rewrite (Z.pow_add_r 2 (e1 + 200)), (Z.pow_add_r 2 1) by lia.
    change (2 ^ 1) with 2.
    assert (0 < 2 ^ (e2 - e1 - 1)) by (apply Z.pow_pos_nonneg; lia).
    generalize dependent (2 ^ (e2 - e1 - 1)).
    generalize dependent (2 ^ (e1 + 200)). intros P HP X HX.
    apply (scaled_lt (Zpos m1) (Zpos m2) P X); lia.
  - symmetry. apply Z.compare_gt_iff.
    replace (e1 + 200) with ((e2 + 200) + (1 + (e1 - e2 - 1))) by lia.
    rewrite (Z.pow_add_r 2 (e2 + 200)), (Z.pow_add_r 2 1) by lia.
    change (2 ^ 1) with 2.
    assert (0 < 2 ^ (e1 - e2 - 1)) by (apply Z.pow_pos_nonneg; lia).
    generalize dependent (2 ^ (e1 - e2 - 1)).
    generalize dependent (2 ^ (e2 + 200)). intros P HP X HX.
    apply (scaled_lt (Zpos m2) (Zpos m1) P X); lia.
Qed.

(** *** Division of integers *)

Lemma new_location_exact (n : Z) : new_location n 0 = loc_Exact.
Proof.
  unfold new_location, new_location_even, new_location_odd.
  destruct (Z.even n); reflexivity.
Qed.

(** The integer core: [q] and [r] are quotient and remainder by [d], [R]
    is the rounded mantissa and [H] an even bound. *)
Lemma quotient_lower (d q r H : Z) :
  0 < d -> 0 <= r < d -> d * H <= d * q + r -> H <= q.
Proof.
  intros Hd Hr Hle.
  assert (d * H < d * (q + 1)) by (rewrite Z.mul_add_distr_l; lia).
  assert (H < q + 1) by (apply (Z.mul_lt_mono_pos_l d); assumption).
  lia.
Qed.

Lemma quotient_upper (d q r H : Z) :
  0 < d -> 0 <= r < d -> d * q + r <= d * H ->
  q <= H /\ (r <> 0 -> q < H).
Proof.
  intros Hd Hr Hle. split.
  - apply (Z.mul_le_mono_pos_l _ _ d); lia.
  - intros Hr0. apply (Z.mul_lt_mono_pos_l d); lia.
Qed.

Lemma quotient_upper_small (d q r H R : Z) :
  0 < d -> 0 <= r < d -> d * q + r <= d * H ->
  q <= R <= q + 1 -> (r = 0 -> R = q) -> R <= H.
Proof.
  intros Hd Hr Hle HR Hex.
  destruct (quotient_upper d q r H Hd Hr Hle) as [H1 H2].
  destruct (Z.eq_dec r 0) as [Hr0|Hr0].
  - rewrite (Hex Hr0). exact H1.
  - specialize (H2 Hr0). lia.
Qed.

Lemma quotient_upper_large (d q r H' R : Z) :
  0 < d -> 0 <= r < d -> d * q + r <= d * (2 * H') ->
  2 * (q / 2) <= R <= 2 * (q / 2) + 2 ->
  (r = 0 -> q = 2 * (q / 2) -> R = q) -> R <= 2 * H'.
Proof.
  intros Hd Hr Hle HR Hex.
  destruct (quotient_upper d q r (2 * H') Hd Hr Hle) as [H1 H2].
  pose proof (Z.div_mod q 2 ltac:(lia)) as Hq.
  pose proof (Z.mod_pos_bound q 2 ltac:(lia)) as Hqb.
  destruct (Z.eq_dec q (2 * (q / 2))) as [Heven|Hodd].
  - destruct (Z.eq_dec r 0) as [Hr0|Hr0].
    + rewrite (Hex Hr0 Heven). exact H1.
    + specialize (H2 Hr0). lia.
  - lia.
Qed.

(** The quotient of the floats of two integers [a <> 0] and [n > 0] below
    2^53 is a normal number with the sign of [a]; against every integer
    [h] below 2^53 its magnitude lies on the same side as [|a| / n]. *)
Lemma SFdiv_int (a n : Z) :
  a <> 0 -> Z.abs a < 2 ^ 53 -> 0 < n < 2 ^ 53 ->
  exists m e,
    SFdiv prec emax (SF_of_int a) (SF_of_int n) = S754_finite (a <? 0) m e
    /\ Zpos (digits2_pos m) = 53 /\ -105 <= e <= 1
    /\ forall h, 0 < h ->
         (Z.abs a <= n * h -> Zpos m * 2 ^ (e + 200) <= h * 2 ^ 200)
         /\ (n * h <= Z.abs a -> h * 2 ^ 200 <= Zpos m * 2 ^ (e + 200)).
Proof.
  intros Ha0 Ha Hn.
  destruct (SF_of_int_finite a Ha0 Ha) as [ma [ea [-> [Hda [Hea Hma]]]]].
  destruct (SF_of_int_finite n ltac:(lia) ltac:(lia))
    as [mn [en [-> [Hdn [Hen Hmn]]]]].
  replace (n <? 0) with false by (symmetry; apply Z.ltb_ge; lia).
  rewrite (Z.abs_eq n) in Hmn by lia.
  pose proof (digits2_bounds ma) as Ba. rewrite Hda in Ba.
  pose proof (digits2_bounds mn) as Bn. rewrite Hdn in Bn.
  change (2 ^ (53 - 1)) with (2 ^ 52) in *.
  cbn [SFdiv]. unfold SFdiv_core_binary.
  rewrite !Zdigits2_pos, Hda, Hdn.
  rewrite fexp_normal by lia.
  replace (Z.min (53 + ea - (53 + en) - 53) (ea - en))
    with (ea - en - 53) by lia.
  replace (ea - en - (ea - en - 53)) with 53 by lia.
  rewrite Z.shiftl_mul_pow2 by lia.
  rewrite xorb_false_r.
  pose proof (Z_div_mod (Zpos ma * 2 ^ 53) (Zpos mn) ltac:(lia)) as Hdiv.
  destruct (Z.div_eucl (Zpos ma * 2 ^ 53) (Zpos mn)) as [q r].
  destruct Hdiv as [Hqr Hr].
  set (e0 := ea - en - 53) in *.
  assert (Hq : 2 ^ 52 <= q < 2 ^ 54).
  { change (2 ^ 54) with (4 * 2 ^ 52). change (2 ^ 53) with (2 * 2 ^ 52) in *.
    split; nia. }
  destruct (binary_round_aux_quotient (a <? 0) q e0
              (new_location (Zpos mn) r) Hq ltac:(lia))
    as [m [e [Hres [Hdm [He [Hsmall Hlarge]]]]]].
  exists m, e. split; [exact Hres|]. split; [exact Hdm|]. split; [lia|].
  intros h Hh.
  set (R := Zpos m * 2 ^ (e - e0)) in *.
  set (g := - e0).
  assert (Hg : 1 <= g) by lia.
  assert (HRv : Zpos m * 2 ^ (e + 200) = R * 2 ^ (e0 + 200)).
  { unfold R. rewrite <- Z.mul_assoc, <- Z.pow_add_r by lia.
    f_equal. f_equal. lia. }
  assert (HHv : h * 2 ^ 200 = (2 * (h * 2 ^ (g - 1))) * 2 ^ (e0 + 200)).
  { replace 200 with (1 + (g - 1) + (e0 + 200)) at 1 by lia.
    rewrite !Z.pow_add_r by lia. change (2 ^ 1) with 2. ring. }
  set (H' := h * 2 ^ (g - 1)) in *.
  assert (Hscale : 0 < 2 ^ (e0 + 200)) by (apply Z.pow_pos_nonneg; lia).
  (* both sides of the hypothesis, in units of [2^e0 / mn] *)
  assert (Hnum : Zpos mn * q + r = Z.abs a * 2 ^ (53 - ea)).
  { rewrite <- Hqr, Hma, <- Z.mul_assoc, <- Z.pow_add_r by lia.
    f_equal. f_equal. lia. }
  assert (Hden : Zpos mn * (2 * H') = n * h * 2 ^ (53 - ea)).
  { unfold H'. rewrite Hmn.
    replace (53 - ea) with (- en + (1 + (g - 1))) by lia.
    rewrite !Z.pow_add_r by lia. change (2 ^ 1) with 2. ring. }
  assert (Hpe : 0 < 2 ^ (53 - ea)) by (apply Z.pow_pos_nonneg; lia).
  assert (Hexact : r = 0 -> new_location (Zpos mn) r = loc_Exact)
    by (intros ->; apply new_location_exact).
  rewrite HRv, HHv.
  split.
  - intros Hle. apply Z.mul_le_mono_nonneg_r; [lia|].
    apply (Z.mul_le_mono_nonneg_r _ _ (2 ^ (53 - ea))) in Hle; [|lia].
    rewrite <- Hnum, <- Hden in Hle.
    destruct (Z.lt_ge_cases q (2 ^ 53)) as [Hlt|Hge].
    + destruct (Hsmall Hlt) as [HR HRex].
      apply (quotient_upper_small (Zpos mn) q r); auto; lia.
    + destruct (Hlarge Hge) as [HR HRex].
      apply (quotient_upper_large (Zpos mn) q r); auto; lia.
  - intros Hle. apply Z.mul_le_mono_nonneg_r; [lia|].
    apply (Z.mul_le_mono_nonneg_r _ _ (2 ^ (53 - ea))) in Hle; [|lia].
    rewrite <- Hnum, <- Hden in Hle.
    pose proof (quotient_lower (Zpos mn) q r (2 * H') ltac:(lia) Hr Hle)
      as Hq'.
    destruct (Z.lt_ge_cases q (2 ^ 53)) as [Hlt|Hge].
    + destruct (Hsmall Hlt) as [HR HRex]. lia.
    + destruct (Hlarge Hge) as [HR HRex].
      pose proof (Z.div_le_lower_bound q 2 H' ltac:(lia) Hq'). lia.
Qed.

(** *** The quotient lies between the bounds of the numerator *)

Lemma SF_of_int_scaled (v : Z) :
  v <> 0 -> Z.abs v < 2 ^ 53 ->
  exists m e,
    SF_of_int v = S754_finite (v <? 0) m e
    /\ Zpos (digits2_pos m) = 53 /\ -52 <= e <= 0
    /\ Zpos m * 2 ^ (e + 200) = Z.abs v * 2 ^ 200.
Proof.
  intros Hv Hb.
  destruct (SF_of_int_finite v Hv Hb) as [m [e [H [Hd [He Hm]]]]].
  exists m, e. repeat split; try assumption; try lia.
  rewrite Hm, <- Z.mul_assoc, <- Z.pow_add_r by lia.
  f_equal. f_equal. lia.
Qed.

Lemma compare_le_true (x y : Z) :
  x <= y -> match x ?= y with Lt | Eq => true | Gt => false end = true.
Proof.
  intros H. destruct (Z.compare_spec x y); [reflexivity | reflexivity | lia].
Qed.

Lemma compare_opp_ge_true (x y : Z) :
  y <= x -> match CompOpp (x ?= y) with Lt | Eq => true | Gt => false end = true.
Proof.
  intros H. destruct (Z.compare_spec x y); simpl; [reflexivity | lia | reflexivity].
Qed.

Lemma compare_negative_normal (m1 m2 : positive) (e1 e2 : Z) :
  match e1 ?= e2 with
  | Lt => Gt
  | Gt => Lt
  | Eq => CompOpp (Pos.compare_cont Eq m1 m2)
  end
  = CompOpp match e1 ?= e2 with
            | Lt => Lt
            | Gt => Gt
            | Eq => Pos.compare_cont Eq m1 m2
            end.
Proof. destruct (e1 ?= e2); reflexivity. Qed.

Lemma SFleb_div_upper (a n hi : Z) :
  Z.abs a < 2 ^ 53 -> 0 < n < 2 ^ 53 -> Z.abs hi < 2 ^ 53 -> a <= n * hi ->
  SFleb (SFdiv prec emax (SF_of_int a) (SF_of_int n)) (SF_of_int hi) = true.
Proof.
  intros Ha Hn Hhi Hle. unfold SFleb.
  destruct (Z.eq_dec a 0) as [->|Ha0].
  { destruct (SF_of_int_finite n ltac:(lia) ltac:(lia)) as [mn [en [-> _]]].
    replace (n <? 0) with false by (symmetry; apply Z.ltb_ge; lia).
    assert (0 <= hi) by nia.
    destruct hi as [|p|p]; [reflexivity | reflexivity | lia]. }
  destruct (SFdiv_int a n Ha0 Ha Hn) as [m [e [-> [Hdm [He Hbounds]]]]].
  destruct (Z.ltb_spec a 0) as [Hneg|Hpos].
  - destruct (Z.eq_dec hi 0) as [->|Hhi0]; [reflexivity|].
    destruct (SF_of_int_scaled hi Hhi0 Hhi) as [mh [eh [-> [Hdh [Heh Hvh]]]]].
    destruct (Z.ltb_spec hi 0) as [Hhneg|Hhpos]; [|reflexivity].
    cbn [SFcompare]. rewrite compare_negative_normal.
    rewrite compare_normal by lia. rewrite Hvh.
    apply compare_opp_ge_true.
    apply (Hbounds (Z.abs hi)); nia.
  - assert (0 < hi) by nia.
    destruct (SF_of_int_scaled hi ltac:(lia) Hhi)
      as [mh [eh [-> [Hdh [Heh Hvh]]]]].
    replace (hi <? 0) with false by (symmetry; apply Z.ltb_ge; lia).
    cbn [SFcompare]. rewrite compare_normal by lia. rewrite Hvh.
    apply compare_le_true.
    apply (Hbounds (Z.abs hi)); nia.
Qed.

Lemma SFleb_div_lower (a n lo : Z) :
  Z.abs a < 2 ^ 53 -> 0 < n < 2 ^ 53 -> Z.abs lo < 2 ^ 53 -> n * lo <= a ->
  SFleb (SF_of_int lo) (SFdiv prec emax (SF_of_int a) (SF_of_int n)) = true.
Proof.
  intros Ha Hn Hlo Hle. unfold SFleb.
  destruct (Z.eq_dec a 0) as [->|Ha0].
  { destruct (SF_of_int_finite n ltac:(lia) ltac:(lia)) as [mn [en [-> _]]].
    replace (n <? 0) with false by (symmetry; apply Z.ltb_ge; lia).
    assert (lo <= 0) by nia.
    destruct lo as [|p|p]; [reflexivity | lia | reflexivity]. }
  destruct (SFdiv_int a n Ha0 Ha Hn) as [m [e [-> [Hdm [He Hbounds]]]]].
  destruct (Z.ltb_spec a 0) as [Hneg|Hpos].
  - assert (lo < 0) by nia.
    destruct (SF_of_int_scaled lo ltac:(lia) Hlo)
      as [ml [el [-> [Hdl [Hel Hvl]]]]].
    replace (lo <? 0) with true by (symmetry; apply Z.ltb_lt; lia).
    cbn [SFcompare]. rewrite compare_negative_normal.
    rewrite compare_normal by lia. rewrite Hvl.
    apply compare_opp_ge_true.
    apply (Hbounds (Z.abs lo)); nia.
  - destruct (Z.eq_dec lo 0) as [->|Hlo0]; [reflexivity|].
    destruct (SF_of_int_scaled lo Hlo0 Hlo) as [ml [el [-> [Hdl [Hel Hvl]]]]].
    destruct (Z.ltb_spec lo 0) as [Hlneg|Hlpos]; [reflexivity|].
    cbn [SFcompare]. rewrite compare_normal by lia. rewrite Hvl.
    apply compare_le_true.
    apply (Hbounds (Z.abs lo)); nia.
Qed.

(** *** From specification floats to primitive floats *)

Lemma SF_of_int_valid (v : Z) :
  Z.abs v < 2 ^ 53 -> valid_binary (SF_of_int v) = true.
Proof.
  intros Hb. destruct (Z.eq_dec v 0) as [->|Hv]; [reflexivity|].
  destruct (SF_of_int_finite v Hv Hb) as [m [e [-> [Hd [He _]]]]].
  unfold SpecFloat.valid_binary, bounded, canonical_mantissa.
  rewrite Hd, fexp_normal by lia.
  apply andb_true_iff. split.
  - apply Z.eqb_eq. lia.
  - apply Z.leb_le. unfold emax, prec. lia.
Qed.

Lemma Prim2SF_float_of_int (v : Z) :
  Z.abs v < 2 ^ 53 -> Prim2SF (float_of_int v) = SF_of_int v.
Proof.
  intros Hb. unfold float_of_int. rewrite SF_of_int_normalize by exact Hb.
  apply Prim2SF_SF2Prim. apply SF_of_int_valid. exact Hb.
Qed.

(** Adding the float of an integer to the float of an integer. *)
Lemma add_float_of_int (acc : float) (A x : Z) :
  Prim2SF acc = SF_of_int A ->
  Z.abs A < 2 ^ 53 -> Z.abs x < 2 ^ 53 -> Z.abs (A + x) < 2 ^ 53 ->
  Prim2SF (acc + float_of_int x)%float = SF_of_int (A + x).
Proof.
  intros Hacc HA Hx HAx.
  rewrite add_spec, Hacc, Prim2SF_float_of_int by exact Hx.
  apply SFadd_int; assumption.
Qed.

(** The left-to-right float sum of integers is their exact sum, as long as
    no partial sum can reach 2^53. *)
Lemma fold_add_float_of_int (B : Z) (l : list Z) :
  forall (acc : float) (A : Z),
    Prim2SF acc = SF_of_int A ->
    all_within B l ->
    Z.abs A + Z.of_nat (List.length l) * B < 2 ^ 53 ->
    Prim2SF (fold_left PrimFloat.add (np.asfloat l) acc)
    = SF_of_int (fold_left Z.add l A)
    /\ Z.abs (fold_left Z.add l A) <= Z.abs A + Z.of_nat (List.length l) * B.
Proof.
  induction l as [|x l IH]; intros acc A Hacc Hin Hb.
  - simpl. split; [exact Hacc | lia].
  - assert (Hx : Z.abs x <= B) by (apply Hin; left; reflexivity).
    assert (Hl : all_within B l) by (intros y Hy; apply Hin; right; exact Hy).
    cbn [List.length] in Hb. rewrite Nat2Z.inj_succ in Hb.
    cbn [np.asfloat map fold_left].
    destruct (IH (acc + float_of_int x)%float (A + x)) as [H1 H2].
    + apply add_float_of_int; [exact Hacc | nia | nia | nia].
    + exact Hl.
    + nia.
    + split; [exact H1|]. cbn [List.length]. rewrite Nat2Z.inj_succ. nia.
Qed.

Lemma np_sum_int (B : Z) (l : list Z) :
  all_within B l -> Z.of_nat (List.length l) * B < 2 ^ 53 ->
  Prim2SF (np.sum (np.asfloat l)) = SF_of_int (total l)
  /\ Z.abs (total l) <= Z.of_nat (List.length l) * B.
Proof.
  intros Hin Hb. unfold np.sum, total.
  destruct (fold_add_float_of_int B l 0%float 0 eq_refl Hin) as [H1 H2];
    [simpl; lia|].
  split; [exact H1 | simpl in H2; lia].
Qed.

Lemma np_count_int (l : list Z) :
  Z.of_nat (List.length l) < 2 ^ 53 ->
  Prim2SF (np.count (np.asfloat l)) = SF_of_int (Z.of_nat (List.length l)).
Proof.
  intros Hb. unfold np.count, np.asfloat. rewrite length_map.
  apply Prim2SF_float_of_int. lia.
Qed.

(** *** Bounds on a list and on its sum *)

Lemma fold_min_le (xs : list Z) :
  forall x, fold_left Z.min xs x <= x
            /\ (forall y, In y xs -> fold_left Z.min xs x <= y)
            /\ In (fold_left Z.min xs x) (x :: xs).
Proof.
  induction xs as [|z xs IH]; intros x; simpl.
  - split; [lia|]. split; [intros y []|]. left; reflexivity.
  - destruct (IH (Z.min x z)) as [H1 [H2 H3]].
    split; [lia|]. split.
    + intros y [->|Hy]; [lia | apply H2, Hy].
    + set (F := fold_left Z.min xs (Z.min x z)) in *.
      destruct H3 as [H3|H3]; [|right; right; exact H3].
      destruct (Z.min_spec x z) as [[_ E]|[_ E]];
        [left | right; left]; congruence.
Qed.

Lemma fold_max_ge (xs : list Z) :
  forall x, x <= fold_left Z.max xs x
            /\ (forall y, In y xs -> y <= fold_left Z.max xs x)
            /\ In (fold_left Z.max xs x) (x :: xs).
Proof.
  induction xs as [|z xs IH]; intros x; simpl.
  - split; [lia|]. split; [intros y []|]. left; reflexivity.
  - destruct (IH (Z.max x z)) as [H1 [H2 H3]].
    split; [lia|]. split.
    + intros y [->|Hy]; [lia | apply H2, Hy].
    + set (F := fold_left Z.max xs (Z.max x z)) in *.
      destruct H3 as [H3|H3]; [|right; right; exact H3].
      destruct (Z.max_spec x z) as [[_ E]|[_ E]];
        [right; left | left]; congruence.
Qed.

Lemma fold_add_bounds (lo hi : Z) (l : list Z) :
  (forall y, In y l -> lo <= y <= hi) ->
  forall A,
    A + Z.of_nat (List.length l) * lo <= fold_left Z.add l A
    <= A + Z.of_nat (List.length l) * hi.
Proof.
  induction l as [|x l IH]; intros Hin A.
  - simpl. lia.
  - cbn [fold_left List.length]. rewrite Nat2Z.inj_succ.
    assert (Hx : lo <= x <= hi) by (apply Hin; left; reflexivity).
    specialize (IH (fun y Hy => Hin y (or_intror Hy)) (A + x)). lia.
Qed.

End int_float_facts.

(** * Properties of [monte_carlo_simulation.py] *)

Module monte_carlo_facts.

Import monte_carlo_simulation notions.
Local Open Scope float_scope.

(** *** Monad and list helpers *)

Lemma mapM_length {A B : Type} (f : A -> res B) (xs : list A) (ys : list B) :
  mapM f xs = Ok ys -> List.length ys = List.length xs.
Proof.
  revert ys; induction xs as [|x xs IH]; simpl; intros ys H.
  - inversion H; reflexivity.
  - destruct (f x) as [y|e]; simpl in H; [|discriminate].
    destruct (mapM f xs) as [ys'|e]; simpl in H; [|discriminate].
    inversion H; subst; simpl. f_equal. apply IH. reflexivity.
Qed.

Lemma mapM_total {A B : Type} (f : A -> res B) (xs : list A) :
  forallb (fun x => is_ok (f x)) xs = true ->
  exists ys, mapM f xs = Ok ys.
Proof.
  induction xs as [|x xs IH]; simpl; intros H.
  - eexists; reflexivity.
  - apply andb_true_iff in H as [Hx Hxs].
    destruct (f x) as [y|e]; [|discriminate].
    destruct (IH Hxs) as [ys ->]. simpl. eexists; reflexivity.
Qed.

Lemma mapM_nth {A B : Type} (f : A -> res B) (xs : list A) (ys : list B)
  (i : nat) (x : A) :
  mapM f xs = Ok ys -> nth_error xs i = Some x ->
  exists y, f x = Ok y /\ nth_error ys i = Some y.
Proof.
  revert ys i; induction xs as [|x0 xs IH]; simpl; intros ys i H Hi.
  - destruct i; discriminate.
  - destruct (f x0) as [y0|e] eqn:E0; simpl in H; [|discriminate].
    destruct (mapM f xs) as [ys'|e]; simpl in H; [|discriminate].
    inversion H; subst. destruct i as [|i]; simpl in *.
    + inversion Hi; subst. exists y0; auto.
    + apply (IH ys' i eq_refl Hi).
Qed.

Lemma forallb_pointwise {A : Type} (p q : A -> bool) (xs : list A) :
  (forall x, p x = q x) -> forallb p xs = forallb q xs.
Proof.
  intros H. induction xs as [|x xs IH]; simpl; [reflexivity|].
  rewrite H, IH. reflexivity.
Qed.

(** *** C1: the seeded constructor *)

(** Without a seed the constructor succeeds and touches no generator. *)
Lemma PiEstimation_unseeded_init_ok
  (np_state py_state : Type) (np_random_seed : Z -> np_state)
  (random_seed : Z -> py_state) (g : Globals np_state py_state)
  (cfg : MonteCarloConfig) :
  seed cfg = None ->
  PiEstimation__init__ np_state np_random_seed py_state random_seed g cfg
  = Ok (g, {| config := cfg; points := [] |}).
Proof.
  intros Hs. unfold PiEstimation__init__. rewrite Hs. reflexivity.
Qed.

(** C1 (the code departs from it).  Constructing a [PiEstimation] from a
    configuration whose seed is set never succeeds: after seeding numpy the
    constructor reads the name [random], which the module never imports,
    so that for every seed numpy accepts the call raises
    [NameError: random]; no seeded trial object exists, and no two seeded
    runs can be compared. *)
Theorem PiEstimation_seeded_init_raises
  (np_state py_state : Type) (np_random_seed : Z -> np_state)
  (random_seed : Z -> py_state) (g : Globals np_state py_state)
  (cfg : MonteCarloConfig) (s : Z) :
  seed cfg = Some s ->
  (exists e, PiEstimation__init__ np_state np_random_seed py_state
               random_seed g cfg = Raise e)
  /\ ((0 <= s < 2 ^ 32)%Z ->
      PiEstimation__init__ np_state np_random_seed py_state random_seed
        g cfg = Raise (NameError "random")).
Proof.
  intros Hs. unfold PiEstimation__init__, np_seed. rewrite Hs.
  destruct ((0 <=? s)%Z && (s <? 2 ^ 32)%Z) eqn:E; simpl.
  - split; [eexists; reflexivity | intros _; reflexivity].
  - split; [eexists; reflexivity |].
    intros [H1 H2]. apply andb_false_iff in E as [E|E].
    + apply Z.leb_gt in E. lia.
    + apply Z.ltb_ge in E. lia.
Qed.

Lemma PiEstimation_seeded_init_raises_witness :
  seed fixtures.config_seed_42 = Some 42%Z
  /\ PiEstimation__init__ Z fixtures.lcg_seed Z fixtures.lcg_seed
       fixtures.globals0 fixtures.config_seed_42
     = Raise (NameError "random").
Proof.
  split; [reflexivity|].
  apply (PiEstimation_seeded_init_raises Z Z fixtures.lcg_seed
           fixtures.lcg_seed fixtures.globals0 fixtures.config_seed_42 42);
    [reflexivity | lia].
Defined.

(** *** C7: the parallel strategy *)

Lemma or_else_floordiv_ok (b : option Z) (n d : Z) :
  (1 <= d)%Z -> exists v, or_else b (floordiv n d) = Ok v.
Proof.
  intros Hd. unfold or_else, floordiv.
  replace (d =? 0)%Z with false by (symmetry; apply Z.eqb_neq; lia).
  destruct b as [v|]; [destruct (v =? 0)%Z|]; eexists; reflexivity.
Qed.

Lemma range_length (n : Z) : (0 <= n)%Z -> Z.of_nat (List.length (range n)) = n.
Proof. intros H. unfold range. rewrite length_seq. lia. Qed.

(** C7.  A parallel run with [num_processes >= 1] in which every worker's
    trial returns ends with exactly [num_processes] entries in
    [results], the [i]-th being the estimate of the [i]-th worker
    invocation, whatever [num_samples] is; the report's [num_iterations]
    is [num_processes] too. *)
Theorem run_parallel_one_entry_per_worker
  (S : Type) (sim : MonteCarloSimulation S) (self : MonteCarloAnalyzer S)
  (start_time end_time : float) (worker : nat -> S) :
  (1 <= num_processes (analyzer_config S self))%Z ->
  forallb (fun i => is_ok (run_trial sim (worker i)))
    (range (num_processes (analyzer_config S self))) = true ->
  exists self' rep,
    run_parallel S sim self start_time end_time worker = Ok (self', rep)
    /\ Z.of_nat (List.length (results S self'))
       = num_processes (analyzer_config S self)
    /\ num_iterations rep = num_processes (analyzer_config S self)
    /\ forall i, (Z.of_nat i < num_processes (analyzer_config S self))%Z ->
         exists r, run_trial sim (worker i) = Ok r
                   /\ nth_error (results S self') i = Some (fst (fst r)).
Proof.
  intros Hn Hall. unfold run_parallel.
  destruct (or_else_floordiv_ok (batch_size (analyzer_config S self))
              (num_samples (analyzer_config S self)) _ Hn) as [b ->].
  simpl.
  replace (num_processes (analyzer_config S self) <=? 0)%Z with false
    by (symmetry; apply Z.leb_gt; lia).
  simpl.
  set (f := fun i => do r <- run_trial sim (worker i); Ok (fst (fst r))).
  assert (Hall' : forallb (fun i => is_ok (f i))
                    (range (num_processes (analyzer_config S self))) = true).
  { rewrite <- Hall. apply forallb_pointwise. intros i. unfold f.
    destruct (run_trial sim (worker i)); reflexivity. }
  destruct (mapM_total f _ Hall') as [ys Hys]. rewrite Hys. simpl.
  pose proof (mapM_length f _ ys Hys) as Hlen.
  do 2 eexists. split; [reflexivity|]. simpl.
  assert (Hz : Z.of_nat (List.length ys)
               = num_processes (analyzer_config S self)).
  { rewrite Hlen. apply range_length. lia. }
  repeat split; try exact Hz.
  intros i Hi.
  assert (Hnth : nth_error (range (num_processes (analyzer_config S self))) i
                 = Some i).
  { unfold range. rewrite nth_error_seq.
    destruct (Nat.ltb_spec i (Z.to_nat (num_processes (analyzer_config S self))));
      [reflexivity | lia]. }
  destruct (mapM_nth f _ ys i i Hys Hnth) as [y [Hy Hyi]].
  unfold f in Hy. destruct (run_trial sim (worker i)) as [r|e];
    simpl in Hy; [|discriminate].
  inversion Hy; subst. exists r. auto.
Qed.

Lemma run_parallel_one_entry_per_worker_witness :
  exists self' rep,
    run_parallel _ fixtures.pi_sim
      (MonteCarloAnalyzer__init__ _ (fixtures.pi_state fixtures.config_10000)
         fixtures.config_10000)
      0 1 (fixtures.pi_worker fixtures.config_10000) = Ok (self', rep)
    /\ Z.of_nat (List.length (results _ self')) = 4%Z
    /\ num_iterations rep = 4%Z.
Proof.
  destruct (run_parallel_one_entry_per_worker _ fixtures.pi_sim
              (MonteCarloAnalyzer__init__ _
                 (fixtures.pi_state fixtures.config_10000)
                 fixtures.config_10000)
              0 1 (fixtures.pi_worker fixtures.config_10000))
    as [self' [rep [H1 [H2 [H3 _]]]]].
  - simpl. lia.
  - vm_compute. reflexivity.
  - exists self', rep. auto.
Defined.

(** *** C2: the sequential strategy *)

(** With [prev_estimate = inf] the difference is [-inf] or NaN, and
    neither is below any threshold. *)
Lemma first_iteration_never_stops (e t : float) :
  (abs (e - infinity) <? t) = false.
Proof.
  rewrite ltb_spec, abs_spec, sub_spec.
  change (Prim2SF infinity) with (S754_infinity false).
  destruct (Prim2SF e) as [s|s| |s m ex]; try destruct s;
    destruct (Prim2SF t) as [s'|s'| |s' m' e']; try destruct s';
    reflexivity.
Qed.

(** A finite difference is below the threshold [inf]. *)
Lemma finite_below_infinity (d : float) :
  is_finite d = true -> (abs d <? infinity) = true.
Proof.
  unfold is_finite. rewrite ltb_spec, abs_spec.
  change (Prim2SF infinity) with (S754_infinity false).
  destruct (Prim2SF d) as [s|s| |s m ex]; try discriminate; reflexivity.
Qed.

Lemma stop_test_shift (t : float) (pre rest : list float) (r0 prev : float)
  (j : nat) :
  (1 <= j)%nat ->
  stop_test t pre (r0 :: rest) prev (Datatypes.S j)
  = stop_test t (pre ++ [r0]) rest (np.mean (pre ++ [r0])) j.
Proof.
  intros Hj. unfold stop_test.
  destruct j as [|[|j]]; [lia| |]; simpl; rewrite <- !app_assoc; reflexivity.
Qed.

Section SequentialLoop.

Variable S : Type.
Variable sim : MonteCarloSimulation S.

Lemma trials_succ_inv (k : nat) (s : S) (rs : list float) (s' : S) :
  trials S sim (Datatypes.S k) s = Ok (rs, s') ->
  exists r rest,
    run_trial sim s = Ok r /\ trials S sim k (snd r) = Ok (rest, s')
    /\ rs = fst (fst r) :: rest.
Proof.
  simpl. intros H.
  destruct (run_trial sim s) as [r|e]; simpl in H; [|discriminate].
  destruct (trials S sim k (snd r)) as [[rest s'']|e] eqn:E; simpl in H;
    [|discriminate].
  inversion H; subst. exists r, rest. repeat split; auto.
Qed.

(** The loop invariant, by induction on the number of iterations left:
    the loop stops at the first iteration whose test holds, and has
    then appended one estimate and one running mean per iteration. *)
Lemma sequential_loop_spec (t : float) (k : nat) :
  forall (s : S) (rs : list float) (s' : S) (pre hist : list float)
         (prev : float),
    trials S sim k s = Ok (rs, s') ->
    exists n sfin,
      (n <= k)%nat /\ (1 <= k -> 1 <= n)%nat
      /\ sequential_loop S sim k s pre hist prev t
         = Ok (sfin, pre ++ firstn n rs,
               hist ++ map (fun i => np.mean (pre ++ firstn i rs))
                         (seq 1 n))
      /\ (forall i, (1 <= i < n)%nat -> stop_test t pre rs prev i = false)
      /\ ((n < k)%nat -> stop_test t pre rs prev n = true).
Proof.
  induction k as [|k IH]; intros s rs s' pre hist prev Htr.
  - exists 0%nat, s. simpl. rewrite !app_nil_r.
    repeat split; intros; lia.
  - destruct (trials_succ_inv k s rs s' Htr) as [r [rest [Hr [Hrest ->]]]].
    simpl. rewrite Hr. simpl.
    destruct (abs (np.mean (pre ++ [fst (fst r)]) - prev) <? t) eqn:Htest.
    + exists 1%nat, (snd r). simpl.
      repeat split; intros; try lia. exact Htest.
    + destruct (IH (snd r) rest s' (pre ++ [fst (fst r)])
                  (hist ++ [np.mean (pre ++ [fst (fst r)])])
                  (np.mean (pre ++ [fst (fst r)])) Hrest)
        as [n [sfin [Hle [Hpos [Hloop [Hbefore Hat]]]]]].
      exists (Datatypes.S n), sfin.
      split; [lia|]. split; [lia|]. split; [|split].
      * rewrite Hloop. f_equal. f_equal.
        -- simpl. rewrite <- app_assoc. reflexivity.
        -- rewrite <- app_assoc. f_equal. simpl. f_equal.
           rewrite <- (seq_shift n 1), map_map.
           apply map_ext. intros i. simpl. rewrite <- app_assoc.
           reflexivity.
      * intros i Hi. destruct i as [|[|j]]; [lia| exact Htest |].
        rewrite stop_test_shift by lia. apply Hbefore. lia.
      * intros Hlt. destruct n as [|n]; [lia|].
        rewrite stop_test_shift by lia. apply Hat. lia.
Qed.

End SequentialLoop.

Lemma stop_test_fresh (t : float) (rs : list float) (i : nat) :
  (2 <= i)%nat -> stop_test t [] rs infinity i = converged_at t rs i.
Proof.
  intros Hi. unfold stop_test, converged_at, running_mean.
  destruct i as [|[|i]]; [lia | lia | reflexivity].
Qed.

Lemma stop_test_fresh_first (t : float) (rs : list float) :
  stop_test t [] rs infinity 1 = false.
Proof. unfold stop_test. apply first_iteration_never_stops. Qed.

Lemma trials_length (S : Type) (sim : MonteCarloSimulation S) (k : nat) :
  forall (s : S) (rs : list float) (s' : S),
    trials S sim k s = Ok (rs, s') -> List.length rs = k.
Proof.
  induction k as [|k IH]; intros s rs s' H.
  - simpl in H. inversion H. reflexivity.
  - destruct (trials_succ_inv S sim k s rs s' H) as [r [rest [_ [Hrest ->]]]].
    simpl. f_equal. apply (IH _ _ _ Hrest).
Qed.

(** C2.  A sequential run on a fresh analyzer with
    [max_iterations = m >= 1], whose trials deliver the estimates [rs],
    performs [n] iterations where [n] is the first iteration [i >= 2] at
    which [|mean_i - mean_(i-1)| < convergence_threshold], and [m] if there
    is none: the buffer holds the first [n] estimates, the history the
    first [n] running means, and [num_iterations = n].  The first
    iteration never stops the loop; with [m = 1] the run performs exactly
    one iteration; with [m >= 2] and a test that holds at iteration 2 (as
    with the threshold [inf] and finite running means) it stops at
    iteration 2. *)
Theorem run_sequential_stops_at_first_convergence
  (S : Type) (sim : MonteCarloSimulation S) (s : S) (cfg : MonteCarloConfig)
  (start_time end_time : float) (rs : list float) (s' : S) :
  (1 <= max_iterations cfg)%Z ->
  trials S sim (Z.to_nat (max_iterations cfg)) s = Ok (rs, s') ->
  exists n self' rep,
    run_sequential S sim (MonteCarloAnalyzer__init__ S s cfg)
      start_time end_time = Ok (self', rep)
    /\ results S self' = firstn n rs
    /\ convergence_history S self' = map (running_mean rs) (seq 1 n)
    /\ num_iterations rep = Z.of_nat n
    /\ (1 <= Z.of_nat n <= max_iterations cfg)%Z
    /\ (forall i, (2 <= i < n)%nat ->
          converged_at (convergence_threshold cfg) rs i = false)
    /\ ((Z.of_nat n < max_iterations cfg)%Z ->
          (2 <= n)%nat
          /\ converged_at (convergence_threshold cfg) rs n = true)
    /\ (max_iterations cfg = 1%Z -> n = 1%nat)
    /\ ((2 <= max_iterations cfg)%Z -> (2 <= n)%nat)
    /\ ((2 <= max_iterations cfg)%Z ->
          converged_at (convergence_threshold cfg) rs 2 = true -> n = 2%nat)
    /\ ((2 <= max_iterations cfg)%Z ->
          convergence_threshold cfg = infinity ->
          is_finite (running_mean rs 2 - running_mean rs 1) = true ->
          n = 2%nat).
Proof.
  intros Hm Htr.
  destruct (sequential_loop_spec S sim (convergence_threshold cfg)
              (Z.to_nat (max_iterations cfg)) s rs s' [] [] infinity Htr)
    as [n [sfin [Hle [Hpos [Hloop [Hbefore Hat]]]]]].
  pose proof (trials_length S sim _ s rs s' Htr) as Hlen.
  assert (Hn1 : (1 <= n)%nat) by (apply Hpos; lia).
  assert (Hn2 : (2 <= Z.to_nat (max_iterations cfg))%nat -> (2 <= n)%nat).
  { intros H2. destruct (Nat.eq_dec n 1) as [->|]; [|lia].
    assert (Hlt : (1 < Z.to_nat (max_iterations cfg))%nat) by lia.
    apply Hat in Hlt. rewrite stop_test_fresh_first in Hlt. discriminate. }
  assert (Hfirst : (2 <= Z.to_nat (max_iterations cfg))%nat ->
                   converged_at (convergence_threshold cfg) rs 2 = true ->
                   n = 2%nat).
  { intros H2 Hc. specialize (Hn2 H2).
    destruct (Nat.eq_dec n 2) as [|Hne]; [assumption|].
    assert (Hin : (1 <= 2 < n)%nat) by lia.
    apply Hbefore in Hin. rewrite stop_test_fresh in Hin by lia.
    congruence. }
  exists n.
  eexists. eexists. split.
  { unfold run_sequential, MonteCarloAnalyzer__init__. simpl.
    rewrite Hloop. simpl. reflexivity. }
  simpl.
  split; [reflexivity|]. split; [reflexivity|].
  split. { rewrite length_firstn, Hlen. lia. }
  split; [lia|].
  split. { intros i Hi. rewrite <- stop_test_fresh by lia. apply Hbefore. lia. }
  split. { intros Hlt. assert (Hlt' : (n < Z.to_nat (max_iterations cfg))%nat) by lia.
           split; [apply Hn2; lia|].
           rewrite <- stop_test_fresh by (apply Hn2; lia). apply Hat. exact Hlt'. }
  split; [intros H1; rewrite H1 in Hle; simpl in Hle; lia|].
  split; [intros H2; apply Hn2; lia|].
  split; [intros H2 Hc; apply Hfirst; [lia | exact Hc]|].
  intros H2 Ht Hfin. apply Hfirst; [lia|].
  unfold converged_at. rewrite Ht. apply finite_below_infinity. exact Hfin.
Qed.

Lemma run_sequential_stops_at_first_convergence_witness :
  exists rs s' n self' rep,
    trials _ fixtures.pi_sim 50 (fixtures.pi_state fixtures.config_inf_50)
      = Ok (rs, s')
    /\ run_sequential _ fixtures.pi_sim
         (MonteCarloAnalyzer__init__ _
            (fixtures.pi_state fixtures.config_inf_50) fixtures.config_inf_50)
         0 1 = Ok (self', rep)
    /\ results _ self' = firstn n rs
    /\ num_iterations rep = Z.of_nat n
    /\ n = 2%nat.
Proof.
  destruct (trials _ fixtures.pi_sim 50
              (fixtures.pi_state fixtures.config_inf_50))
    as [[rs s']|e] eqn:E; [|vm_compute in E; discriminate].
  assert (Hrs : rs = match trials _ fixtures.pi_sim 50
                             (fixtures.pi_state fixtures.config_inf_50) with
                     | Ok p => fst p
                     | Raise _ => []
                     end) by (rewrite E; reflexivity).
  destruct (run_sequential_stops_at_first_convergence _ fixtures.pi_sim
              (fixtures.pi_state fixtures.config_inf_50)
              fixtures.config_inf_50 0 1 rs s')
    as [n [self' [rep [H1 [H2 [_ [H4 [_ [_ [_ [_ [_ [_ H11]]]]]]]]]]]]].
  - simpl. lia.
  - exact E.
  - exists rs, s', n, self', rep. repeat split; try assumption.
    apply H11; [simpl; lia | reflexivity |].
    rewrite Hrs. vm_compute. reflexivity.
Defined.

(** *** C3: the error metrics *)

(** C3 as stated fails at a zero reference value: with the estimate 1 and
    the reference 0 the relative error is [+inf], not NaN. *)
Lemma relative_error_zero_reference_is_infinite :
  exists self' rep,
    run_sequential unit fixtures.zero_reference_sim
      (MonteCarloAnalyzer__init__ unit tt fixtures.config_10000) 0 1
    = Ok (self', rep)
    /\ estimate rep = 1 /\ exact_value rep = 0
    /\ relative_error rep = infinity
    /\ is_nan (relative_error rep) = false.
Proof.
  eexists. eexists. split; [vm_compute; reflexivity|].
  repeat split.
Qed.

(** C3 (as amended).  The report of [_analyze_results] has
    [absolute_error = |estimate - exact_value|] and
    [relative_error = absolute_error / |exact_value|].  When
    [exact_value == 0] the relative error is NaN if the absolute error is
    0 or NaN, and [+inf] otherwise.  [_analyze_results] is a total
    function: it returns a report on every buffer, the empty one
    included. *)
Theorem error_metrics (S : Type) (sim : MonteCarloSimulation S)
  (self : MonteCarloAnalyzer S) :
  estimate (_analyze_results S sim self) = np.mean (results S self)
  /\ exact_value (_analyze_results S sim self)
     = get_exact_value sim (simulation S self)
  /\ absolute_error (_analyze_results S sim self)
     = abs (estimate (_analyze_results S sim self)
            - exact_value (_analyze_results S sim self))
  /\ relative_error (_analyze_results S sim self)
     = absolute_error (_analyze_results S sim self)
       / abs (exact_value (_analyze_results S sim self))
  /\ ((exact_value (_analyze_results S sim self) =? 0) = true ->
      (relative_error (_analyze_results S sim self) = nan
       /\ (is_nan (absolute_error (_analyze_results S sim self)) = true
           \/ (absolute_error (_analyze_results S sim self) =? 0) = true))
      \/ (relative_error (_analyze_results S sim self) = infinity
          /\ is_nan (absolute_error (_analyze_results S sim self)) = false
          /\ (absolute_error (_analyze_results S sim self) =? 0) = false)).
Proof.
  unfold _analyze_results; simpl.
  split; [reflexivity|]. split; [reflexivity|]. split; [reflexivity|].
  split; [apply float_facts.abs_div|].
  apply float_facts.abs_div_zero.
Qed.

Lemma error_metrics_witness :
  relative_error
    (_analyze_results unit fixtures.zero_reference_sim
       {| simulation := tt; analyzer_config := fixtures.config_10000;
          results := [0]; runtime := 0; convergence_history := [0] |})
  = nan.
Proof.
  destruct (error_metrics unit fixtures.zero_reference_sim
              {| simulation := tt; analyzer_config := fixtures.config_10000;
                 results := [0]; runtime := 0; convergence_history := [0] |})
    as [_ [_ [_ [_ H]]]].
  destruct H as [[H _]|[_ [_ H]]]; [reflexivity | exact H | discriminate H].
Defined.

End monte_carlo_facts.

(** * Properties of [random_simulation.py] *)

Module random_simulation_facts.

Import random_simulation.
Local Open Scope Z_scope.

Section Batches.

Variable py_state : Type.
Variable random_randint : py_state -> Z -> Z -> Z * py_state.
Variable self : RandomSimulation.

Abbreviation generate := (generate py_state random_randint self).
Abbreviation _generate_batch :=
  (_generate_batch py_state random_randint self).
Abbreviation collect := (executor_map py_state random_randint self).

Lemma generate_length (k : nat) :
  forall rng out, generate k rng = Ok out -> List.length (fst out) = k.
Proof.
  induction k as [|k IH]; simpl; intros rng out H.
  - inversion H; reflexivity.
  - destruct (randint py_state random_randint rng _ _) as [v|e];
      simpl in H; [|discriminate].
    destruct (generate k (snd v)) as [vs|e] eqn:E; simpl in H;
      [|discriminate].
    inversion H; subst; simpl. f_equal. apply (IH _ _ E).
Qed.

Lemma generate_total (k : nat) :
  min_value (self_config self) <= max_value (self_config self) ->
  forall rng, exists out, generate k rng = Ok out.
Proof.
  intros Hle. induction k as [|k IH]; simpl; intros rng.
  - eexists; reflexivity.
  - unfold randint.
    replace (max_value (self_config self) <? min_value (self_config self))
      with false by (symmetry; apply Z.ltb_ge; lia).
    simpl. destruct (IH (snd (random_randint rng
                               (min_value (self_config self))
                               (max_value (self_config self))))) as [vs ->].
    simpl. eexists; reflexivity.
Qed.

(** Drawing numbers can only fail with the [ValueError] of an empty
    range. *)
Lemma generate_raises_ValueError (k : nat) :
  forall rng e, generate k rng = Raise e -> e = ValueError.
Proof.
  induction k as [|k IH]; simpl; intros rng e H; [discriminate|].
  unfold randint in H.
  destruct (max_value (self_config self) <? min_value (self_config self));
    simpl in H; [inversion H; reflexivity|].
  destruct (generate k _) as [vs|e'] eqn:E; simpl in H; [discriminate|].
  inversion H; subst. apply (IH _ _ E).
Qed.

Lemma collect_length (worker_rng : nat -> py_state) (b : Z)
  (tasks : list (nat * Z)) :
  (forall t, In t tasks -> snd t = b) ->
  forall results, collect worker_rng tasks = Ok results ->
    List.length (List.concat results)
    = (List.length tasks * Z.to_nat b)%nat.
Proof.
  intros Hb. induction tasks as [|t tasks IH]; simpl; intros results H.
  - inversion H; reflexivity.
  - unfold executor_map in H; simpl in H. fold (collect worker_rng tasks) in H.
    destruct (_generate_batch (worker_rng (fst t)) (snd t)) as [out|e] eqn:E;
      simpl in H; [|discriminate].
    destruct (collect worker_rng tasks) as [rest|e]; simpl in H;
      [|discriminate].
    inversion H; subst; simpl. rewrite length_app.
    rewrite (IH (fun t' Ht' => Hb t' (or_intror Ht')) rest eq_refl).
    unfold random_simulation._generate_batch in E.
    rewrite (generate_length _ _ _ E), (Hb t (or_introl eq_refl)).
    reflexivity.
Qed.

Lemma collect_total (worker_rng : nat -> py_state) (tasks : list (nat * Z)) :
  min_value (self_config self) <= max_value (self_config self) ->
  exists results, collect worker_rng tasks = Ok results.
Proof.
  intros Hle. induction tasks as [|t tasks IH].
  - eexists; reflexivity.
  - unfold executor_map; simpl. fold (collect worker_rng tasks).
    unfold random_simulation._generate_batch.
    destruct (generate_total (Z.to_nat (snd t)) Hle (worker_rng (fst t)))
      as [out ->].
    destruct IH as [rest ->]. simpl. eexists; reflexivity.
Qed.

Lemma collect_raises_ValueError (worker_rng : nat -> py_state)
  (tasks : list (nat * Z)) (e : exn) :
  collect worker_rng tasks = Raise e -> e = ValueError.
Proof.
  induction tasks as [|t tasks IH]; [discriminate|].
  unfold executor_map; simpl. fold (collect worker_rng tasks).
  destruct (_generate_batch (worker_rng (fst t)) (snd t)) as [out|e'] eqn:E;
    simpl.
  - destruct (collect worker_rng tasks) as [rest|e']; simpl;
      [discriminate|].
    intros H; inversion H; subst. apply IH; reflexivity.
  - intros H; inversion H; subst.
    apply (generate_raises_ValueError _ _ _ E).
Qed.

Lemma tasks_same_size (b n : Z) (t : nat * Z) :
  In t (combine (range n) (map (fun _ : nat => b) (range n))) -> snd t = b.
Proof.
  intros Hin. destruct t as [i v]. apply in_combine_r in Hin.
  apply in_map_iff in Hin as [j [Hj _]]. simpl. auto.
Qed.

Lemma tasks_length (b n : Z) :
  List.length (combine (range n) (map (fun _ : nat => b) (range n)))
  = Z.to_nat n.
Proof.
  rewrite length_combine, length_map. unfold range. rewrite length_seq.
  apply Nat.min_id.
Qed.

(** [_parallel_simulation] once the batch size is known. *)
Lemma _parallel_simulation_unfold (worker_rng : nat -> py_state) (b : Z) :
  or_else (batch_size (self_config self))
    (floordiv (trials (self_config self)) (num_processes (self_config self)))
  = Ok b ->
  _parallel_simulation py_state random_randint self worker_rng
  = do n_batches <- floordiv (trials (self_config self)) b;
    do _ <- (if num_processes (self_config self) <=? 0
             then Raise ValueError else Ok tt);
    do results <- collect worker_rng
                    (combine (range n_batches)
                       (map (fun _ : nat => b) (range n_batches)));
    Ok (List.concat results).
Proof.
  intros Hb. unfold _parallel_simulation. rewrite Hb. reflexivity.
Qed.

  (** *** C5: the parallel partition *)

(** C5.  In a parallel run ([parallel] set and [trials >= 10000]) whose
    batch size [b] (the configured one, or [trials // num_processes]) is
    positive and does not divide [trials], the number of generated
    samples is [b * (trials // b)], strictly less than [trials]: the
    remainder is dropped.  Such a run returns whenever there is at least
    one process and the range of values is not empty. *)
Theorem parallel_run_drops_remainder (rng : py_state)
  (worker_rng : nat -> py_state) (b : Z) :
  parallel (self_config self) = true ->
  10000 <= trials (self_config self) ->
  or_else (batch_size (self_config self))
    (floordiv (trials (self_config self)) (num_processes (self_config self)))
  = Ok b ->
  0 < b ->
  trials (self_config self) mod b <> 0 ->
  (forall data rng',
      run_results py_state random_randint self rng worker_rng
      = Ok (data, rng') ->
      Z.of_nat (List.length data) = b * (trials (self_config self) / b)
      /\ b * (trials (self_config self) / b) < trials (self_config self))
  /\ (1 <= num_processes (self_config self) ->
      min_value (self_config self) <= max_value (self_config self) ->
      exists data,
        run_results py_state random_randint self rng worker_rng
        = Ok (data, rng)).
Proof.
  intros Hpar Htr Hb Hpos Hmod.
  assert (Hrun : run_results py_state random_randint self rng worker_rng
                 = do results <- _parallel_simulation py_state
                                   random_randint self worker_rng;
                   Ok (results, rng)).
  { unfold run_results. rewrite Hpar.
    replace (10000 <=? trials (self_config self)) with true
      by (symmetry; apply Z.leb_le; assumption).
    reflexivity. }
  rewrite Hrun, (_parallel_simulation_unfold worker_rng b Hb).
  unfold floordiv.
  replace (b =? 0) with false by (symmetry; apply Z.eqb_neq; lia).
  simpl.
  pose proof (Z.div_mod (trials (self_config self)) b ltac:(lia)) as Hdm.
  pose proof (Z.mod_pos_bound (trials (self_config self)) b Hpos) as Hbd.
  assert (Hq : 0 <= trials (self_config self) / b)
    by (apply Z.div_pos; lia).
  split.
  - intros data rng' H.
    destruct (num_processes (self_config self) <=? 0); simpl in H;
      [discriminate|].
    destruct (collect worker_rng _) as [results|e] eqn:E; simpl in H;
      [|discriminate].
    inversion H; subst.
    rewrite (collect_length worker_rng b _ (tasks_same_size b _) _ E).
    rewrite tasks_length. split; [|lia].
    rewrite Nat2Z.inj_mul, !Z2Nat.id by lia. lia.
  - intros Hnp Hle.
    replace (num_processes (self_config self) <=? 0) with false
      by (symmetry; apply Z.leb_gt; lia).
    simpl.
    destruct (collect_total worker_rng
                (combine (range (trials (self_config self) / b))
                   (map (fun _ : nat => b)
                      (range (trials (self_config self) / b)))) Hle)
      as [results ->].
    simpl. eexists; reflexivity.
Qed.

(** *** C9: the parallel flag below 10000 trials *)

(** C9.  With [parallel] set and [trials < 10000], [run] takes the
    sequential branch: its results are those of the single call
    [_generate_batch(trials)], a batch of exactly [trials] values (none
    when [trials] is not positive), drawn from the parent's generator;
    the worker processes play no part.  The call returns whenever the
    range of values is not empty. *)
Theorem small_run_is_sequential (rng : py_state)
  (worker_rng : nat -> py_state) :
  parallel (self_config self) = true ->
  trials (self_config self) < 10000 ->
  run_results py_state random_randint self rng worker_rng
  = _generate_batch rng (trials (self_config self))
  /\ (forall data rng',
        run_results py_state random_randint self rng worker_rng
        = Ok (data, rng') ->
        Z.of_nat (List.length data) = Z.max 0 (trials (self_config self)))
  /\ (min_value (self_config self) <= max_value (self_config self) ->
      exists data rng',
        run_results py_state random_randint self rng worker_rng
        = Ok (data, rng'))
  /\ (forall worker_rng',
        run_results py_state random_randint self rng worker_rng'
        = run_results py_state random_randint self rng worker_rng).
Proof.
  intros Hpar Htr.
  assert (Hrun : forall w,
             run_results py_state random_randint self rng w
             = _generate_batch rng (trials (self_config self))).
  { intros w. unfold run_results. rewrite Hpar.
    replace (10000 <=? trials (self_config self)) with false
      by (symmetry; apply Z.leb_gt; assumption).
    reflexivity. }
  split; [apply Hrun|]. split; [|split].
  - intros data rng' H. rewrite Hrun in H.
    unfold random_simulation._generate_batch in H.
    apply generate_length in H. simpl in H. lia.
  - intros Hle. rewrite Hrun.
    unfold random_simulation._generate_batch.
    destruct (generate_total (Z.to_nat (trials (self_config self))) Hle rng)
      as [[data rng'] ->].
    exists data, rng'. reflexivity.
  - intros w. rewrite !Hrun. reflexivity.
Qed.

(** *** C10: the default batch size *)

(** With no batch size configured, [_parallel_simulation] raises
    [ZeroDivisionError] exactly when a divisor is 0: the number of
    processes, or the default batch size [trials // num_processes]. *)
Lemma default_batch_ZeroDivisionError (worker_rng : nat -> py_state) :
  batch_size (self_config self) = None ->
  (_parallel_simulation py_state random_randint self worker_rng
   = Raise ZeroDivisionError
   <-> num_processes (self_config self) = 0
       \/ trials (self_config self) / num_processes (self_config self) = 0).
Proof.
  intros Hnone. unfold _parallel_simulation. rewrite Hnone. simpl.
  unfold floordiv.
  destruct (Z.eqb_spec (num_processes (self_config self)) 0) as [H0|H0];
    simpl; [tauto|].
  destruct (Z.eqb_spec (trials (self_config self)
                        / num_processes (self_config self)) 0) as [Hq|Hq];
    simpl; [tauto|].
  split; [|tauto]. intros H. exfalso.
  destruct (num_processes (self_config self) <=? 0); simpl in H;
    [discriminate|].
  destruct (collect worker_rng _) as [results|e] eqn:E; simpl in H;
    [discriminate|].
  apply collect_raises_ValueError in E. congruence.
Qed.

(** C10 (as amended).  With [batch_size] unset and
    [0 <= trials < num_processes], [_parallel_simulation] raises
    [ZeroDivisionError]: the default batch size [trials // num_processes]
    is 0 and is the divisor of the number of batches.  With [batch_size]
    unset the call raises [ZeroDivisionError] in no other case than a
    divisor that is 0: the number of processes or that default batch
    size. *)
Theorem default_batch_size_zero_raises (worker_rng : nat -> py_state) :
  batch_size (self_config self) = None ->
  (0 <= trials (self_config self) < num_processes (self_config self) ->
   floordiv (trials (self_config self)) (num_processes (self_config self))
   = Ok 0
   /\ _parallel_simulation py_state random_randint self worker_rng
      = Raise ZeroDivisionError)
  /\ (_parallel_simulation py_state random_randint self worker_rng
      = Raise ZeroDivisionError ->
      num_processes (self_config self) = 0
      \/ trials (self_config self) / num_processes (self_config self) = 0).
Proof.
  intros Hnone. split.
  - intros Hlt. split.
    + unfold floordiv.
      replace (num_processes (self_config self) =? 0) with false
        by (symmetry; apply Z.eqb_neq; lia).
      rewrite Z.div_small by lia. reflexivity.
    + apply (default_batch_ZeroDivisionError worker_rng Hnone).
      right. apply Z.div_small. lia.
  - apply (default_batch_ZeroDivisionError worker_rng Hnone).
Qed.

End Batches.

Lemma parallel_run_drops_remainder_witness :
  exists data,
    run_results Z lcg_randint
      (random_fixtures.sim_of random_fixtures.config_parallel_3) 1
      random_fixtures.worker_rng = Ok (data, 1)
    /\ Z.of_nat (List.length data) = 9999.
Proof.
  destruct (parallel_run_drops_remainder Z lcg_randint
              (random_fixtures.sim_of random_fixtures.config_parallel_3) 1
              random_fixtures.worker_rng 3333)
    as [Hlen Hret]; try reflexivity; try (simpl; lia).
  - vm_compute. discriminate.
  - destruct Hret as [data Hdata]; try (simpl; lia).
    exists data. split; [exact Hdata|].
    destruct (Hlen data 1 Hdata) as [H _]. exact H.
Defined.

Lemma small_run_is_sequential_witness :
  run_results Z lcg_randint
    (random_fixtures.sim_of random_fixtures.config_small_parallel) 1
    random_fixtures.worker_rng
  = _generate_batch Z lcg_randint
      (random_fixtures.sim_of random_fixtures.config_small_parallel) 1 5000.
Proof.
  destruct (small_run_is_sequential Z lcg_randint
              (random_fixtures.sim_of random_fixtures.config_small_parallel)
              1 random_fixtures.worker_rng) as [H _];
    [reflexivity | simpl; lia | exact H].
Defined.

(** C10 as stated fails for a negative number of trials: with
    [trials = -1] and four processes the default batch size is
    [-1 // 4 = -1], there is [-1 // -1 = 1] batch, it is empty, and the
    call returns the empty list. *)
Lemma default_batch_negative_trials_returns :
  batch_size random_fixtures.config_negative_trials = None
  /\ num_processes random_fixtures.config_negative_trials
     > trials random_fixtures.config_negative_trials
  /\ _parallel_simulation Z lcg_randint
       (random_fixtures.sim_of random_fixtures.config_negative_trials)
       random_fixtures.worker_rng = Ok [].
Proof. repeat split. Qed.

Lemma default_batch_size_zero_raises_witness :
  _parallel_simulation Z lcg_randint
    (random_fixtures.sim_of random_fixtures.config_3_of_4)
    random_fixtures.worker_rng = Raise ZeroDivisionError.
Proof.
  destruct (default_batch_size_zero_raises Z lcg_randint
              (random_fixtures.sim_of random_fixtures.config_3_of_4)
              random_fixtures.worker_rng) as [H _]; [reflexivity|].
  destruct H as [_ H]; [simpl; lia | exact H].
Defined.

End random_simulation_facts.

(** * The statistics of [RandomSimulation.run] *)

Module statistics_facts.

Import random_simulation notions int64_as_float int_float_facts.
Local Open Scope Z_scope.

(** *** C8: the mean between the minimum and the maximum *)

(** C8 as stated fails in binary64 arithmetic: the mean of three equal
    values can exceed them.  With [min_value = max_value =
    7205759403792794] and three trials, [run] reports the mean
    [7205759403792795] above the maximum; and the three equal estimates
    [(8 / 10) * 4] of a [PiEstimation] have a mean above themselves. *)
Lemma mean_above_max :
  (exists res rng',
      run Z lcg_randint (random_fixtures.sim_of random_fixtures.config_big)
        1 random_fixtures.worker_rng 0 1 = Ok (res, rng')
      /\ raw_data res
         = [random_fixtures.big; random_fixtures.big; random_fixtures.big]
      /\ max (statistics res) = float_of_int random_fixtures.big
      /\ mean (statistics res) = float_of_int (random_fixtures.big + 1)
      /\ (mean (statistics res) <=? max (statistics res))%float = false)
  /\ (np.mean [fixtures.estimate_8_of_10; fixtures.estimate_8_of_10;
               fixtures.estimate_8_of_10]
      <=? fixtures.estimate_8_of_10)%float = false.
Proof.
  split.
  - eexists. eexists. split; [vm_compute; reflexivity|].
    repeat split.
  - vm_compute. reflexivity.
Qed.

Lemma np_min_max_ok (x : Z) (xs : list Z) (B : Z) :
  all_within B (x :: xs) ->
  exists lo hi,
    np.min (x :: xs) = Ok lo /\ np.max (x :: xs) = Ok hi
    /\ Z.abs lo <= B /\ Z.abs hi <= B
    /\ forall y, In y (x :: xs) -> lo <= y <= hi.
Proof.
  intros Hin.
  destruct (fold_min_le xs x) as [L1 [L2 L3]].
  destruct (fold_max_ge xs x) as [U1 [U2 U3]].
  exists (fold_left Z.min xs x), (fold_left Z.max xs x).
  split; [reflexivity|]. split; [reflexivity|].
  split; [apply Hin, L3|]. split; [apply Hin, U3|].
  intros y [->|Hy]; [lia|]. split; [apply L2, Hy | apply U2, Hy].
Qed.

(** C8 (as amended).  For every non-empty buffer of integers whose sum
    cannot reach 2^53 in magnitude (length times largest magnitude below
    2^53), the statistics are computed and the mean lies within
    [[min, max]]: [min <= mean] and [mean <= max] as floats. *)
Theorem mean_within_min_max (l : list Z) (B : Z) :
  l <> [] -> all_within B l -> 1 <= B ->
  Z.of_nat (List.length l) * B < 2 ^ 53 ->
  exists st,
    compute_statistics l = Ok st
    /\ (min st <=? mean st)%float = true
    /\ (mean st <=? max st)%float = true.
Proof.
  intros Hne Hin HB Hb.
  destruct l as [|x xs]; [congruence|].
  destruct (np_min_max_ok x xs B Hin) as [lo [hi [Hlo [Hhi [Blo [Bhi Hall]]]]]].
  unfold compute_statistics. rewrite Hlo, Hhi. cbn [bind].
  eexists. split; [reflexivity|]. cbn [min mean max].
  destruct (np_sum_int B (x :: xs) Hin Hb) as [Hsum Hsumb].
  assert (Hlen : 1 <= Z.of_nat (List.length (x :: xs)))
    by (cbn [List.length]; lia).
  assert (Hcount : Prim2SF (np.count (np.asfloat (x :: xs)))
                   = SF_of_int (Z.of_nat (List.length (x :: xs))))
    by (apply np_count_int; nia).
  pose proof (fold_add_bounds lo hi (x :: xs) Hall 0) as Hbounds.
  fold (total (x :: xs)) in Hbounds.
  unfold np.mean.
  rewrite !leb_spec, div_spec, Hsum, Hcount, !Prim2SF_float_of_int by nia.
  split.
  - apply SFleb_div_lower; nia.
  - apply SFleb_div_upper; nia.
Qed.

Lemma mean_within_min_max_witness :
  exists st,
    compute_statistics [3; 1; 2] = Ok st
    /\ (min st <=? mean st)%float = true
    /\ (mean st <=? max st)%float = true.
Proof.
  apply (mean_within_min_max [3; 1; 2] 3).
  - discriminate.
  - intros x [<-|[<-|[<-|[]]]]; simpl; lia.
  - lia.
  - simpl. lia.
Defined.

(** *** C6: a buffer of one repeated value *)

(** C6 as stated fails in binary64 arithmetic: for three draws of
    [7205759403792794] the float sum is rounded, the mean is off by one,
    the standard deviation is 1 and skewness and kurtosis are [-1] and
    [-2], not NaN. *)
Lemma constant_buffer_not_degenerate :
  exists res rng',
    run Z lcg_randint (random_fixtures.sim_of random_fixtures.config_big)
      1 random_fixtures.worker_rng 0 1 = Ok (res, rng')
    /\ raw_data res
       = [random_fixtures.big; random_fixtures.big; random_fixtures.big]
    /\ (mean (statistics res) =? float_of_int random_fixtures.big)%float
       = false
    /\ std_dev (statistics res) = 1%float
    /\ skewness (statistics res) = (-1)%float
    /\ kurtosis (statistics res) = (-2)%float
    /\ is_nan (skewness (statistics res)) = false
    /\ is_nan (kurtosis (statistics res)) = false.
Proof.
  eexists. eexists. split; [vm_compute; reflexivity|].
  repeat split.
Qed.

Lemma SFdiv_int_multiple (c n : Z) :
  0 < n -> n * Z.max 1 (Z.abs c) < 2 ^ 53 ->
  SFdiv prec emax (SF_of_int (n * c)) (SF_of_int n) = SF_of_int c.
Proof.
  intros Hn Hb.
  assert (Hn53 : n < 2 ^ 53) by nia.
  assert (Hc53 : Z.abs c < 2 ^ 53) by nia.
  destruct (Z.eq_dec c 0) as [->|Hc].
  { rewrite Z.mul_0_r.
    destruct (SF_of_int_finite n ltac:(lia) ltac:(lia)) as [mn [en [-> _]]].
    replace (n <? 0) with false by (symmetry; apply Z.ltb_ge; lia).
    reflexivity. }
  destruct (SFdiv_int (n * c) n ltac:(nia) ltac:(nia) ltac:(lia))
    as [m [e [-> [Hdm [He Hbounds]]]]].
  destruct (SF_of_int_scaled c Hc Hc53) as [mc [ec [-> [Hdc [Hec Hvc]]]]].
  destruct (Hbounds (Z.abs c) ltac:(lia)) as [Hup Hdown].
  assert (Hval : Zpos m * 2 ^ (e + 200) = Zpos mc * 2 ^ (ec + 200)) by nia.
  pose proof (compare_normal m mc e ec Hdm Hdc ltac:(lia) ltac:(lia)) as Hcmp.
  rewrite Hval, Z.compare_refl in Hcmp.
  replace (n * c <? 0) with (c <? 0)
    by (destruct (Z.ltb_spec c 0), (Z.ltb_spec (n * c) 0); try reflexivity; nia).
  destruct (Z.compare_spec e ec) as [->| |]; try discriminate.
  apply Pos.compare_eq in Hcmp. subst. reflexivity.
Qed.

Lemma total_repeat (c : Z) (n : nat) : total (repeat c n) = Z.of_nat n * c.
Proof.
  unfold total.
  assert (H : forall A, fold_left Z.add (repeat c n) A = A + Z.of_nat n * c).
  { induction n as [|n IH]; intros A; [simpl; lia|].
    cbn [repeat fold_left]. rewrite IH, Nat2Z.inj_succ. lia. }
  rewrite H. lia.
Qed.

(** The mean of [n >= 1] copies of the integer [c] is [c]. *)
Lemma np_mean_repeat (c : Z) (n : nat) :
  (1 <= n)%nat -> Z.of_nat n * Z.max 1 (Z.abs c) < 2 ^ 53 ->
  np.mean (np.asfloat (repeat c n)) = float_of_int c.
Proof.
  intros Hn Hb. apply Prim2SF_inj. unfold np.mean.
  assert (Hin : all_within (Z.max 1 (Z.abs c)) (repeat c n)).
  { intros x Hx. apply repeat_spec in Hx. subst. lia. }
  assert (Hlen : List.length (repeat c n) = n) by apply repeat_length.
  destruct (np_sum_int _ (repeat c n) Hin) as [Hsum _];
    [rewrite Hlen; exact Hb|].
  rewrite div_spec, Hsum, np_count_int, Hlen, total_repeat by (rewrite Hlen; nia).
  unfold SF64div. rewrite SFdiv_int_multiple by lia.
  symmetry. apply Prim2SF_float_of_int. nia.
Qed.

(** [x - x] is [+0] for every finite [x]. *)
Lemma sub_self_finite (x : float) :
  is_finite x = true -> (x - x = 0)%float.
Proof.
  unfold is_finite. intros Hx. apply Prim2SF_inj. rewrite sub_spec.
  change (Prim2SF 0) with (S754_zero false).
  destruct (Prim2SF x) as [s|s| |s m e]; try discriminate.
  - destruct s; reflexivity.
  - unfold SF64sub. cbn [SFsub].
    match goal with
    | |- binary_normalize _ _ ?z _ _ = _ =>
        replace z with 0 by (symmetry; apply Z.sub_diag)
    end.
    reflexivity.
Qed.

Lemma float_of_int_finite (c : Z) :
  Z.abs c < 2 ^ 53 -> is_finite (float_of_int c) = true.
Proof.
  intros Hc. unfold is_finite. rewrite Prim2SF_float_of_int by exact Hc.
  destruct c; reflexivity.
Qed.

Lemma np_sum_repeat_zero (n : nat) : np.sum (repeat 0%float n) = 0%float.
Proof.
  unfold np.sum. induction n as [|n IH]; [reflexivity|].
  cbn [repeat fold_left]. change (0 + 0)%float with 0%float. exact IH.
Qed.

Lemma fold_add_repeat_nan (n : nat) :
  fold_left PrimFloat.add (repeat nan n) nan = nan.
Proof.
  induction n as [|n IH]; [reflexivity|].
  cbn [repeat fold_left]. change (nan + nan)%float with nan. exact IH.
Qed.

Lemma np_sum_repeat_nan (n : nat) :
  (1 <= n)%nat -> np.sum (repeat nan n) = nan.
Proof.
  intros Hn. unfold np.sum. destruct n as [|n]; [lia|].
  cbn [repeat fold_left]. change (0 + nan)%float with nan.
  apply fold_add_repeat_nan.
Qed.

Lemma count_repeat_positive (x : float) (n : nat) :
  (1 <= n)%nat -> Z.of_nat n < 2 ^ 53 ->
  exists m e, Prim2SF (np.count (repeat x n)) = S754_finite false m e.
Proof.
  intros Hn Hb. unfold np.count. rewrite repeat_length.
  rewrite Prim2SF_float_of_int by lia.
  destruct (SF_of_int_finite (Z.of_nat n) ltac:(lia) ltac:(lia))
    as [m [e [-> _]]].
  replace (Z.of_nat n <? 0) with false by (symmetry; apply Z.ltb_ge; lia).
  exists m, e. reflexivity.
Qed.

Lemma zero_div_positive (y : float) (m : positive) (e : Z) :
  Prim2SF y = S754_finite false m e -> (0 / y = 0)%float.
Proof.
  intros Hy. apply Prim2SF_inj. rewrite div_spec, Hy. reflexivity.
Qed.

Lemma nan_div (y : float) : (nan / y = nan)%float.
Proof.
  apply Prim2SF_inj. rewrite div_spec. reflexivity.
Qed.

(** A buffer of [N >= 1] copies of a finite float [c] whose mean is [c]
    itself has variance and standard deviation 0, and its skewness and
    kurtosis are NaN: every deviation is [0], and [0 / 0] is NaN. *)
Lemma constant_float_buffer (c : float) (N : nat) :
  (1 <= N)%nat -> Z.of_nat N < 2 ^ 53 -> is_finite c = true ->
  np.mean (repeat c N) = c ->
  np.var (repeat c N) = 0%float
  /\ np.std (repeat c N) = 0%float
  /\ _calculate_skewness (repeat c N) = nan
  /\ _calculate_kurtosis (repeat c N) = nan.
Proof.
  intros HN HN53 Hfin Hmean.
  assert (Hvar : np.var (repeat c N) = 0%float).
  { unfold np.var. rewrite Hmean, map_repeat.
    cbv zeta. rewrite sub_self_finite by exact Hfin.
    change (0 * 0)%float with 0%float.
    unfold np.mean. rewrite np_sum_repeat_zero.
    destruct (count_repeat_positive 0%float N HN HN53) as [m [e Hcount]].
    apply (zero_div_positive _ m e Hcount). }
  assert (Hstd : np.std (repeat c N) = 0%float).
  { unfold np.std. rewrite Hvar. reflexivity. }
  split; [exact Hvar|]. split; [exact Hstd|]. split.
  - unfold _calculate_skewness. rewrite Hstd, Hmean, map_repeat.
    rewrite sub_self_finite by exact Hfin.
    change (np.pow3 (0 / 0)%float) with nan.
    unfold np.mean. rewrite np_sum_repeat_nan by exact HN. apply nan_div.
  - unfold _calculate_kurtosis. rewrite Hstd, Hmean, map_repeat.
    rewrite sub_self_finite by exact Hfin.
    change (np.pow4 (0 / 0)%float) with nan.
    unfold np.mean. rewrite np_sum_repeat_nan by exact HN. rewrite nan_div.
    reflexivity.
Qed.

(** C6 (as amended).  For a buffer of [N >= 2] copies of one integer [c]
    with [N * max(1, |c|) < 2^53], the statistics are computed without an
    exception, [mean == c], [std_dev == 0] (and the variance is 0), and
    skewness and kurtosis are NaN. *)
Theorem constant_buffer_statistics (c : Z) (N : nat) :
  (2 <= N)%nat -> Z.of_nat N * Z.max 1 (Z.abs c) < 2 ^ 53 ->
  exists st,
    compute_statistics (repeat c N) = Ok st
    /\ mean st = float_of_int c
    /\ std_dev st = 0%float
    /\ variance st = 0%float
    /\ is_nan (skewness st) = true
    /\ is_nan (kurtosis st) = true.
Proof.
  intros HN Hb.
  assert (Hc53 : Z.abs c < 2 ^ 53) by nia.
  assert (HN53 : Z.of_nat N < 2 ^ 53) by nia.
  assert (Hmean : np.mean (np.asfloat (repeat c N)) = float_of_int c)
    by (apply np_mean_repeat; [lia | exact Hb]).
  assert (Hdata : np.asfloat (repeat c N) = repeat (float_of_int c) N)
    by apply map_repeat.
  destruct (constant_float_buffer (float_of_int c) N ltac:(lia) HN53
              (float_of_int_finite c Hc53))
    as [Hvar [Hstd [Hskew Hkurt]]];
    [rewrite <- Hdata; exact Hmean|].
  rewrite <- Hdata in Hvar, Hstd, Hskew, Hkurt.
  destruct N as [|N]; [lia|].
  unfold compute_statistics. cbn [repeat np.min np.max bind].
  eexists. split; [reflexivity|]. cbn [mean std_dev variance skewness kurtosis].
  change (c :: repeat c N) with (repeat c (S N)).
  rewrite Hmean, Hstd, Hvar, Hskew, Hkurt. repeat split.
Qed.

Lemma constant_buffer_statistics_witness :
  exists st,
    compute_statistics [7; 7; 7] = Ok st
    /\ mean st = float_of_int 7
    /\ std_dev st = 0%float
    /\ variance st = 0%float
    /\ is_nan (skewness st) = true
    /\ is_nan (kurtosis st) = true.
Proof.
  apply (constant_buffer_statistics 7 3); [lia | simpl; lia].
Defined.

End statistics_facts.

(** * Construction of the configurations *)

Module config_facts.

Import notions.

(** C4 as stated fails: [MonteCarloConfig(num_samples=0)] and
    [SimulationConfig(trials=0, num_processes=0)] are constructed without
    any exception. *)
Lemma invalid_config_is_constructed :
  (exists cfg,
      monte_carlo_simulation.MonteCarloConfig__init__
        {| monte_carlo_simulation.kw_num_samples := Some 0%Z;
           monte_carlo_simulation.kw_num_processes := None;
           monte_carlo_simulation.kw_seed := None;
           monte_carlo_simulation.kw_batch_size := None;
           monte_carlo_simulation.kw_use_numpy := None;
           monte_carlo_simulation.kw_store_points := None;
           monte_carlo_simulation.kw_convergence_threshold := None;
           monte_carlo_simulation.kw_max_iterations := None |} = Ok cfg
      /\ monte_carlo_simulation.num_samples cfg = 0%Z
      /\ invalid_config cfg)
  /\ (exists cfg,
        random_simulation.SimulationConfig__init__
          {| random_simulation.kw_min_value := None;
             random_simulation.kw_max_value := None;
             random_simulation.kw_trials := Some 0%Z;
             random_simulation.kw_seed := None;
             random_simulation.kw_parallel := None;
             random_simulation.kw_num_processes := Some 0%Z;
             random_simulation.kw_batch_size := None |} = Ok cfg
        /\ random_simulation.trials cfg = 0%Z
        /\ random_simulation.num_processes cfg = 0%Z).
Proof.
  split.
  - eexists. split; [reflexivity|]. split; [reflexivity|].
    left. simpl. lia.
  - eexists. repeat split.
Qed.

(** C4 (as amended).  Constructing a [MonteCarloConfig] or a
    [SimulationConfig] never raises: the generated constructors validate
    nothing and store every argument as it is given, whether it is
    positive or not; an argument that is not given takes its default. *)
Theorem config_construction_never_raises :
  (forall kw : monte_carlo_simulation.MonteCarloConfig_kwargs,
      exists cfg,
        monte_carlo_simulation.MonteCarloConfig__init__ kw = Ok cfg
        /\ monte_carlo_simulation.num_samples cfg
           = monte_carlo_simulation.default
               (monte_carlo_simulation.kw_num_samples kw) 10000%Z
        /\ monte_carlo_simulation.num_processes cfg
           = monte_carlo_simulation.default
               (monte_carlo_simulation.kw_num_processes kw) 4%Z
        /\ monte_carlo_simulation.batch_size cfg
           = monte_carlo_simulation.default
               (monte_carlo_simulation.kw_batch_size kw) None
        /\ monte_carlo_simulation.convergence_threshold cfg
           = monte_carlo_simulation.default
               (monte_carlo_simulation.kw_convergence_threshold kw)
               monte_carlo_simulation.threshold_1e_6
        /\ monte_carlo_simulation.max_iterations cfg
           = monte_carlo_simulation.default
               (monte_carlo_simulation.kw_max_iterations kw) 100%Z)
  /\ (forall kw : random_simulation.SimulationConfig_kwargs,
        exists cfg,
          random_simulation.SimulationConfig__init__ kw = Ok cfg
          /\ random_simulation.trials cfg
             = random_simulation.default
                 (random_simulation.kw_trials kw) 1000%Z
          /\ random_simulation.num_processes cfg
             = random_simulation.default
                 (random_simulation.kw_num_processes kw) 4%Z
          /\ random_simulation.batch_size cfg
             = random_simulation.default
                 (random_simulation.kw_batch_size kw) None).
Proof.
  split; intros kw; eexists; repeat split.
Qed.

End config_facts.

(** * More of [monte_carlo_simulation.py]: the trials *)

Module trial_facts.

Import monte_carlo_simulation notions more_notions int64_as_float.
Import int_float_facts.
Local Open Scope Z_scope.

(** *** Floats of the estimate *)

Lemma Prim2SF_four : Prim2SF 4 = S754_finite false 4503599627370496 (-50).
Proof. reflexivity. Qed.

(** Multiplying a normal number by 4 adds 2 to its exponent. *)
Lemma mul_four_normal (q : float) (s : bool) (m : positive) (e : Z) :
  Prim2SF q = S754_finite s m e -> Zpos (digits2_pos m) = 53 ->
  -1000 <= e <= 900 ->
  Prim2SF (q * 4)%float = S754_finite s m (e + 2).
Proof.
  intros Hq Hd He. rewrite mul_spec, Hq, Prim2SF_four.
  unfold SF64mul. cbn [SFmul]. rewrite xorb_false_r.
  rewrite Pos2Z.inj_mul.
  change (Zpos 4503599627370496) with (2 ^ 52).
  rewrite binary_round_aux_exact by lia.
  f_equal. lia.
Qed.

(** The estimate [(k / n) * 4] of a trial with [k] of [n] points inside
    lies between 0 and 4. *)
Lemma estimate_between_0_and_4 (k n : Z) :
  0 <= k <= n -> 1 <= n < 2 ^ 53 ->
  (0 <=? float_of_int k / float_of_int n * 4)%float = true
  /\ (float_of_int k / float_of_int n * 4 <=? 4)%float = true.
Proof.
  intros Hk Hn.
  destruct (Z.eq_dec k 0) as [->|Hk0].
  - assert (H0 : (float_of_int 0 / float_of_int n = 0)%float).
    { apply Prim2SF_inj. rewrite div_spec, !Prim2SF_float_of_int by lia.
      destruct (SF_of_int_finite n ltac:(lia) ltac:(lia)) as [mn [en [-> _]]].
      replace (n <? 0) with false by (symmetry; apply Z.ltb_ge; lia).
      reflexivity. }
    rewrite H0. split; reflexivity.
  - destruct (SFdiv_int k n Hk0 ltac:(lia) ltac:(lia))
      as [m [e [Hdiv [Hd [He Hbounds]]]]].
    replace (k <? 0) with false in Hdiv by (symmetry; apply Z.ltb_ge; lia).
    assert (Hq : Prim2SF (float_of_int k / float_of_int n)
                 = S754_finite false m e).
    { rewrite div_spec, !Prim2SF_float_of_int by lia. exact Hdiv. }
    pose proof (mul_four_normal _ false m e Hq Hd ltac:(lia)) as Hest.
    rewrite !leb_spec, Hest, Prim2SF_four.
    split; [reflexivity|].
    unfold SFleb. cbn [SFcompare].
    rewrite compare_normal by (try reflexivity; lia).
    apply compare_le_true.
    destruct (Hbounds 1 ltac:(lia)) as [Hup _].
    rewrite (Z.abs_eq k) in Hup by lia.
    specialize (Hup ltac:(lia)).
    replace (e + 2 + 200) with (e + 200 + 2) by lia.
    rewrite Z.pow_add_r by lia.
    change (Zpos 4503599627370496 * 2 ^ (-50 + 200)) with (1 * 2 ^ 200 * 2 ^ 2).
    rewrite Z.mul_assoc.
    apply Z.mul_le_mono_nonneg_r; [lia | exact Hup].
Qed.

Section Trials.

Variable np_state : Type.
Variable np_random_uniform1 : np_state -> float -> float -> float * np_state.
Variable py_state : Type.
Variable random_uniform : py_state -> float -> float -> float * py_state.

Abbreviation uniform_array :=
  (np_random_uniform np_state np_random_uniform1).
Abbreviation numpy_trial :=
  (_run_numpy_trial np_state np_random_uniform1 py_state).
Abbreviation python_trial :=
  (_run_python_trial np_state py_state random_uniform).
Abbreviation pi_sim :=
  (PiEstimation_sim np_state np_random_uniform1 py_state random_uniform).

Lemma np_random_uniform_length (low high : float) (size : nat) :
  forall st, List.length (fst (uniform_array st low high size)) = size.
Proof.
  induction size as [|k IH]; intros st; simpl; [reflexivity|].
  destruct (np_random_uniform1 st low high) as [v st1].
  specialize (IH st1).
  destruct (uniform_array st1 low high k) as [vs st2].
  simpl in *. congruence.
Qed.

(** The points flagged as inside are as many as the distances within 1. *)
Lemma count_inside_new_points (xy : list (float * float)) :
  count_inside
    (map (fun p => (fst p, snd p,
                    (fst p * fst p + snd p * snd p <=? 1)%float)) xy)
  = Z.of_nat
      (List.length
         (filter (fun d => (d <=? 1)%float)
            (map (fun p => (fst p * fst p + snd p * snd p)%float) xy))).
Proof.
  unfold count_inside. f_equal.
  induction xy as [|p xy IH]; [reflexivity|].
  cbn [map filter snd].
  destruct (fst p * fst p + snd p * snd p <=? 1)%float; simpl; congruence.
Qed.

(** What a numpy trial returns, for [num_samples >= 0]. *)
Lemma _run_numpy_trial_ok (st : Globals np_state py_state * PiEstimation) :
  0 <= num_samples (config (snd st)) ->
  exists x y r2,
    List.length x = Z.to_nat (num_samples (config (snd st)))
    /\ List.length y = Z.to_nat (num_samples (config (snd st)))
    /\ numpy_trial st
       = Ok ((float_of_int
                (Z.of_nat
                   (List.length
                      (filter (fun d => (d <=? 1)%float)
                         (map (fun p => (fst p * fst p + snd p * snd p)%float)
                            (combine x y)))))
              / float_of_int (num_samples (config (snd st))) * 4,
              Some [("inside_circle"%string,
                     Z.of_nat
                       (List.length
                          (filter (fun d => (d <=? 1)%float)
                             (map (fun p =>
                                     (fst p * fst p + snd p * snd p)%float)
                                (combine x y)))))])%float,
             ({| np_rng := r2; py_rng := py_rng np_state py_state (fst st) |},
              {| config := config (snd st);
                 points :=
                   if store_points (config (snd st))
                   then points (snd st)
                        ++ map (fun p =>
                                  (fst p, snd p,
                                   (fst p * fst p + snd p * snd p <=? 1)%float))
                             (combine x y)
                   else points (snd st) |})).
Proof.
  intros Hn. destruct st as [g self]. unfold _run_numpy_trial. cbn [fst snd].
  replace (num_samples (config self) <? 0) with false
    by (symmetry; apply Z.ltb_ge; exact Hn).
  pose proof (np_random_uniform_length (-1) 1
                (Z.to_nat (num_samples (config self))) (np_rng np_state py_state g)) as Hx.
  destruct (uniform_array (np_rng np_state py_state g) (-1) 1
              (Z.to_nat (num_samples (config self)))) as [x r1].
  pose proof (np_random_uniform_length (-1) 1
                (Z.to_nat (num_samples (config self))) r1) as Hy.
  destruct (uniform_array r1 (-1) 1
              (Z.to_nat (num_samples (config self)))) as [y r2].
  exists x, y, r2. split; [exact Hx|]. split; [exact Hy|]. reflexivity.
Qed.

Lemma filter_length_bound {A : Type} (f : A -> bool) (l : list A) :
  (List.length (filter f l) <= List.length l)%nat.
Proof.
  induction l as [|a l IH]; simpl; [lia|]. destruct (f a); simpl; lia.
Qed.

(** X1.  A numpy trial with [1 <= num_samples < 2^53] returns: the count
    [inside_circle] lies in [[0, num_samples]], the estimate is
    [(inside_circle / num_samples) * 4] and lies in [[0, 4]]. *)
Theorem numpy_trial_estimate_in_range
  (st : Globals np_state py_state * PiEstimation) :
  1 <= num_samples (config (snd st)) < 2 ^ 53 ->
  exists est k st',
    numpy_trial st = Ok ((est, Some [("inside_circle"%string, k)]), st')
    /\ 0 <= k <= num_samples (config (snd st))
    /\ est = (float_of_int k
              / float_of_int (num_samples (config (snd st))) * 4)%float
    /\ (0 <=? est)%float = true
    /\ (est <=? 4)%float = true.
Proof.
  intros Hn.
  destruct (_run_numpy_trial_ok st ltac:(lia)) as [x [y [r2 [Hx [Hy Hrun]]]]].
  set (k := Z.of_nat
              (List.length
                 (filter (fun d => (d <=? 1)%float)
                    (map (fun p => (fst p * fst p + snd p * snd p)%float)
                       (combine x y))))) in *.
  assert (Hk : 0 <= k <= num_samples (config (snd st))).
  { unfold k. split; [lia|].
    pose proof (filter_length_bound (fun d => (d <=? 1)%float)
                  (map (fun p => (fst p * fst p + snd p * snd p)%float)
                     (combine x y))) as Hle.
    rewrite length_map, length_combine, Hx, Hy, Nat.min_id in Hle. lia. }
  eexists; eexists; eexists. split; [exact Hrun|].
  split; [exact Hk|]. split; [reflexivity|].
  apply estimate_between_0_and_4; assumption.
Qed.

(** A negative sample count is rejected by [np.random.uniform]. *)
Lemma numpy_trial_negative (st : Globals np_state py_state * PiEstimation) :
  num_samples (config (snd st)) < 0 -> numpy_trial st = Raise ValueError.
Proof.
  intros Hneg. destruct st as [g self]. unfold _run_numpy_trial.
  cbn [snd] in *.
  replace (num_samples (config self) <? 0) with true
    by (symmetry; apply Z.ltb_lt; exact Hneg).
  reflexivity.
Qed.

(** X2.  At the edge: with [num_samples = 0] a numpy trial does not raise and
    its estimate is NaN ([0 / 0]); with a negative [num_samples] it raises
    [ValueError]. *)
Theorem numpy_trial_without_samples
  (st : Globals np_state py_state * PiEstimation) :
  (num_samples (config (snd st)) = 0 ->
   exists est st',
     numpy_trial st = Ok ((est, Some [("inside_circle"%string, 0)]), st')
     /\ is_nan est = true)
  /\ (num_samples (config (snd st)) < 0 -> numpy_trial st = Raise ValueError).
Proof.
  split.
  - intros H0.
    destruct (_run_numpy_trial_ok st ltac:(lia)) as [x [y [r2 [Hx [Hy Hrun]]]]].
    rewrite H0 in Hx, Hy, Hrun. simpl in Hx, Hy.
    destruct x; [|discriminate]. destruct y; [|discriminate].
    eexists; eexists. split; [exact Hrun|]. reflexivity.
  - apply numpy_trial_negative.
Qed.

(** X3.  A numpy trial that returns keeps the configuration; with
    [store_points] it appends exactly [num_samples] points, of which as
    many are flagged inside as the reported [inside_circle]; without, the
    points are untouched. *)
Theorem numpy_trial_stores_points
  (st st' : Globals np_state py_state * PiEstimation)
  (r : float * option Dict) :
  numpy_trial st = Ok (r, st') ->
  config (snd st') = config (snd st)
  /\ exists new,
       points (snd st') = points (snd st) ++ new
       /\ (store_points (config (snd st)) = false -> new = [])
       /\ (store_points (config (snd st)) = true ->
           Z.of_nat (List.length new) = num_samples (config (snd st))
           /\ snd r = Some [("inside_circle"%string, count_inside new)]).
Proof.
  intros Hrun.
  destruct (Z.lt_ge_cases (num_samples (config (snd st))) 0) as [Hneg|Hn].
  { rewrite (numpy_trial_negative st Hneg) in Hrun. discriminate. }
  destruct (_run_numpy_trial_ok st Hn) as [x [y [r2 [Hx [Hy Hrun']]]]].
  rewrite Hrun' in Hrun. inversion Hrun; subst; clear Hrun.
  cbn [snd config points].
  split; [reflexivity|].
  destruct (store_points (config (snd st))).
  - eexists. split; [reflexivity|]. split; [discriminate|]. intros _.
    split.
    + rewrite length_map, length_combine, Hx, Hy, Nat.min_id. lia.
    + rewrite count_inside_new_points. reflexivity.
  - exists []. split; [rewrite app_nil_r; reflexivity|].
    split; [reflexivity | discriminate].
Qed.

(** X4.  The pure-Python trial never produces an estimate from samples: with
    [num_samples >= 1] the first draw reads the unbound name [random] and
    raises [NameError]; with [num_samples = 0] the division [0 / 0] of ints
    raises [ZeroDivisionError]; with a negative [num_samples] the loop is
    empty and the estimate is [-0.0]. *)
Theorem python_trial_never_samples
  (st : Globals np_state py_state * PiEstimation) :
  (1 <= num_samples (config (snd st)) ->
   python_trial st = Raise (NameError "random"))
  /\ (num_samples (config (snd st)) = 0 ->
      python_trial st = Raise ZeroDivisionError)
  /\ (- 2 ^ 53 < num_samples (config (snd st)) < 0 ->
      python_trial st
      = Ok ((neg_zero, Some [("inside_circle"%string, 0)]), st)).
Proof.
  destruct st as [g self]. unfold _run_python_trial. cbn [snd].
  split; [|split].
  - intros Hn.
    destruct (Z.to_nat (num_samples (config self))) as [|k] eqn:E; [lia|].
    reflexivity.
  - intros ->. reflexivity.
  - intros Hn.
    replace (Z.to_nat (num_samples (config self))) with 0%nat by lia.
    cbn [python_trial_loop bind]. unfold truediv.
    replace (num_samples (config self) =? 0) with false
      by (symmetry; apply Z.eqb_neq; lia).
    cbn [bind].
    assert (Hq : (float_of_int 0 / float_of_int (num_samples (config self))
                  = neg_zero)%float).
    { apply Prim2SF_inj. rewrite div_spec, !Prim2SF_float_of_int by lia.
      destruct (SF_of_int_finite (num_samples (config self))
                  ltac:(lia) ltac:(lia)) as [mn [en [-> _]]].
      replace (num_samples (config self) <? 0) with true
        by (symmetry; apply Z.ltb_lt; lia).
      reflexivity. }
    rewrite Hq. reflexivity.
Qed.

End Trials.

Lemma numpy_trial_estimate_in_range_witness :
  exists est k st',
    _run_numpy_trial Z fixtures.lcg_uniform Z
      (fixtures.pi_state fixtures.config_inf_50)
    = Ok ((est, Some [("inside_circle"%string, k)]), st')
    /\ 0 <= k <= 20
    /\ (0 <=? est)%float = true /\ (est <=? 4)%float = true.
Proof.
  destruct (numpy_trial_estimate_in_range Z fixtures.lcg_uniform Z
              (fixtures.pi_state fixtures.config_inf_50))
    as [est [k [st' [H1 [H2 [_ [H3 H4]]]]]]]; [simpl; lia|].
  exists est, k, st'. auto.
Defined.

Lemma numpy_trial_stores_points_witness :
  exists r st',
    _run_numpy_trial Z fixtures.lcg_uniform Z
      (fixtures.pi_state more_fixtures.config_store_points) = Ok (r, st')
    /\ Z.of_nat (List.length (points (snd st'))) = 20
    /\ snd r = Some [("inside_circle"%string, count_inside (points (snd st')))].
Proof.
  destruct (_run_numpy_trial Z fixtures.lcg_uniform Z
              (fixtures.pi_state more_fixtures.config_store_points))
    as [[r st']|e] eqn:E; [|vm_compute in E; discriminate].
  destruct (numpy_trial_stores_points Z fixtures.lcg_uniform Z _ _ _ E)
    as [_ [new [Hp [_ Hs]]]].
  destruct (Hs eq_refl) as [Hlen Hcount].
  exists r, st'. split; [reflexivity|].
  simpl in Hp. rewrite Hp. auto.
Defined.

Lemma python_trial_never_samples_witness :
  _run_python_trial Z Z fixtures.lcg_uniform
    (fixtures.pi_state more_fixtures.config_python) = Raise (NameError "random").
Proof.
  destruct (python_trial_never_samples Z Z fixtures.lcg_uniform
              (fixtures.pi_state more_fixtures.config_python)) as [H _].
  apply H. simpl. lia.
Defined.

Lemma numpy_trial_without_samples_witness :
  exists est st',
    _run_numpy_trial Z fixtures.lcg_uniform Z
      (fixtures.pi_state more_fixtures.config_no_samples)
    = Ok ((est, Some [("inside_circle"%string, 0)]), st')
    /\ is_nan est = true.
Proof.
  destruct (numpy_trial_without_samples Z fixtures.lcg_uniform Z
              (fixtures.pi_state more_fixtures.config_no_samples)) as [H _].
  apply H. reflexivity.
Defined.

End trial_facts.

(** * More of [monte_carlo_simulation.py]: the analyzer *)

Module analyzer_facts.

Import monte_carlo_simulation notions more_notions plots int64_as_float.
Import int_float_facts monte_carlo_facts trial_facts.
Local Open Scope Z_scope.

(** *** Lists and floats *)

Lemma mapM_first_failure {A B : Type} (f : A -> res B) (xs : list A) :
  forall (i : nat) (x : A) (e : exn),
    nth_error xs i = Some x -> f x = Raise e ->
    (forall j y, (j < i)%nat -> nth_error xs j = Some y -> is_ok (f y) = true) ->
    mapM f xs = Raise e.
Proof.
  induction xs as [|x0 xs IH]; intros i x e Hi Hx Hbefore.
  - destruct i; discriminate.
  - destruct i as [|i]; simpl in Hi.
    + inversion Hi; subst. simpl. rewrite Hx. reflexivity.
    + simpl. pose proof (Hbefore 0%nat x0 ltac:(lia) eq_refl) as H0.
      destruct (f x0) as [y0|e0]; [|discriminate]. simpl.
      rewrite (IH i x e Hi Hx); [reflexivity|].
      intros j y Hj Hy. apply (Hbefore (Datatypes.S j) y); [lia | exact Hy].
Qed.

Lemma abs_sub_nan (e : float) : abs (nan - e) = nan.
Proof.
  apply Prim2SF_inj. rewrite abs_spec, sub_spec. reflexivity.
Qed.

Lemma abs_div_nan (e : float) : abs ((nan - e) / e) = nan.
Proof.
  apply Prim2SF_inj. rewrite abs_spec, div_spec, sub_spec. reflexivity.
Qed.

(** [abs] never gives a negative number. *)
Lemma abs_not_negative (x : float) : (abs x <? 0)%float = false.
Proof.
  rewrite ltb_spec, abs_spec.
  destruct (Prim2SF x) as [s|s| |s m e]; reflexivity.
Qed.

Section Analyzer.

Variable S : Type.
Variable sim : MonteCarloSimulation S.

(** *** [run_parallel]: failures *)

(** X5.  If the trial of worker [i] raises and those of the workers before it
    return, [run_parallel] raises the same exception: there is no partial
    result. *)
Theorem run_parallel_raises_first_failure (self : MonteCarloAnalyzer S)
  (start_time end_time : float) (worker : nat -> S) (i : nat) (e : exn) :
  Z.of_nat i < num_processes (analyzer_config S self) ->
  run_trial sim (worker i) = Raise e ->
  (forall j, (j < i)%nat -> is_ok (run_trial sim (worker j)) = true) ->
  run_parallel S sim self start_time end_time worker = Raise e.
Proof.
  intros Hi He Hbefore. unfold run_parallel.
  destruct (or_else_floordiv_ok (batch_size (analyzer_config S self))
              (num_samples (analyzer_config S self))
              (num_processes (analyzer_config S self)) ltac:(lia)) as [b ->].
  cbn [bind].
  replace (num_processes (analyzer_config S self) <=? 0) with false
    by (symmetry; apply Z.leb_gt; lia).
  cbn [bind].
  rewrite (mapM_first_failure _ _ i i e); [reflexivity | | |].
  - unfold range. rewrite nth_error_seq.
    destruct (Nat.ltb_spec i (Z.to_nat (num_processes (analyzer_config S self))));
      [reflexivity | lia].
  - rewrite He. reflexivity.
  - intros j y Hj Hy. unfold range in Hy. rewrite nth_error_seq in Hy.
    destruct (Nat.ltb_spec j (Z.to_nat (num_processes (analyzer_config S self))));
      [|discriminate].
    inversion Hy; subst. simpl.
    specialize (Hbefore y Hj).
    destruct (run_trial sim (worker y)); [reflexivity | discriminate].
Qed.

(** X6.  With [num_processes <= 0], [run_parallel] never returns: it raises
    [ZeroDivisionError] when [num_processes] is 0 and no batch size is
    set (the default batch size divides by it), and [ValueError] (from the
    process pool) otherwise. *)
Theorem run_parallel_without_processes (self : MonteCarloAnalyzer S)
  (start_time end_time : float) (worker : nat -> S) :
  num_processes (analyzer_config S self) <= 0 ->
  run_parallel S sim self start_time end_time worker
  = Raise (if (num_processes (analyzer_config S self) =? 0)
              && match batch_size (analyzer_config S self) with
                 | Some b => b =? 0
                 | None => true
                 end
           then ZeroDivisionError else ValueError).
Proof.
  intros Hn. unfold run_parallel, or_else, floordiv.
  replace (num_processes (analyzer_config S self) <=? 0) with true
    by (symmetry; apply Z.leb_le; exact Hn).
  destruct (batch_size (analyzer_config S self)) as [b|];
    [destruct (b =? 0)|];
    destruct (num_processes (analyzer_config S self) =? 0); reflexivity.
Qed.

(** *** [run_sequential]: no iteration, and more than one run *)

(** X7.  With [max_iterations <= 0] no trial is run and nothing raises: buffer,
    history and simulation are unchanged, and [num_iterations] is the
    length of the buffer.  On a fresh analyzer the report then consists of
    NaN: estimate, both errors and the standard deviation. *)
Theorem run_sequential_without_iterations (self : MonteCarloAnalyzer S)
  (start_time end_time : float) :
  max_iterations (analyzer_config S self) <= 0 ->
  exists self' rep,
    run_sequential S sim self start_time end_time = Ok (self', rep)
    /\ results S self' = results S self
    /\ convergence_history S self' = convergence_history S self
    /\ simulation S self' = simulation S self
    /\ num_iterations rep = Z.of_nat (List.length (results S self))
    /\ (results S self = [] ->
        is_nan (estimate rep) = true
        /\ is_nan (absolute_error rep) = true
        /\ is_nan (relative_error rep) = true
        /\ is_nan (standard_deviation rep) = true).
Proof.
  intros Hm. unfold run_sequential.
  replace (Z.to_nat (max_iterations (analyzer_config S self))) with 0%nat
    by lia.
  cbn [sequential_loop bind].
  eexists; eexists. split; [reflexivity|]. cbn.
  repeat (split; [reflexivity|]).
  intros ->. change (np.mean []) with nan. change (np.std []) with nan.
  unfold is_nan. rewrite abs_sub_nan, abs_div_nan. repeat split.
Qed.

(** The effect of [run_sequential] on buffer, history and report, given
    the trials it may run. *)
Lemma run_sequential_spec (self : MonteCarloAnalyzer S)
  (start_time end_time : float) (rs : list float) (s' : S) :
  1 <= max_iterations (analyzer_config S self) ->
  trials S sim (Z.to_nat (max_iterations (analyzer_config S self)))
    (simulation S self) = Ok (rs, s') ->
  exists n self' rep,
    run_sequential S sim self start_time end_time = Ok (self', rep)
    /\ 1 <= Z.of_nat n <= max_iterations (analyzer_config S self)
    /\ (2 <= max_iterations (analyzer_config S self) -> (2 <= n)%nat)
    /\ results S self' = results S self ++ firstn n rs
    /\ convergence_history S self'
       = convergence_history S self
         ++ map (fun i => np.mean (results S self ++ firstn i rs)) (seq 1 n)
    /\ num_iterations rep
       = Z.of_nat (List.length (results S self)) + Z.of_nat n
    /\ estimate rep = np.mean (results S self ++ firstn n rs).
Proof.
  intros Hm Htr.
  destruct (sequential_loop_spec S sim
              (convergence_threshold (analyzer_config S self))
              (Z.to_nat (max_iterations (analyzer_config S self)))
              (simulation S self) rs s' (results S self)
              (convergence_history S self) infinity Htr)
    as [n [sfin [Hle [Hpos [Hloop [Hbefore Hat]]]]]].
  pose proof (trials_length S sim _ _ rs s' Htr) as Hlen.
  assert (Hn1 : (1 <= n)%nat) by (apply Hpos; lia).
  exists n. eexists; eexists. split.
  { unfold run_sequential. rewrite Hloop. cbn [bind]. reflexivity. }
  cbn.
  split; [lia|]. split.
  { intros H2. destruct (Nat.eq_dec n 1) as [->|]; [|lia].
    assert (Hlt : (1 < Z.to_nat (max_iterations (analyzer_config S self)))%nat)
      by lia.
    apply Hat in Hlt. unfold stop_test in Hlt.
    rewrite first_iteration_never_stops in Hlt. discriminate. }
  split; [reflexivity|]. split; [reflexivity|]. split; [|reflexivity].
  rewrite length_app, length_firstn, Hlen. lia.
Qed.

(** X8.  A sequential run on an analyzer that already holds results appends to
    them: after [n >= 1] iterations the buffer is the old one followed by
    the [n] new estimates, the history has [n] more running means, each
    taken over old and new results together, and the report counts and
    averages all of them.  The previous estimate starts at [inf] again, so
    that also this run performs at least two iterations when
    [max_iterations >= 2]. *)
Theorem run_sequential_appends (self : MonteCarloAnalyzer S)
  (start_time end_time : float) (rs : list float) (s' : S) :
  1 <= max_iterations (analyzer_config S self) ->
  trials S sim (Z.to_nat (max_iterations (analyzer_config S self)))
    (simulation S self) = Ok (rs, s') ->
  exists n self' rep,
    run_sequential S sim self start_time end_time = Ok (self', rep)
    /\ 1 <= Z.of_nat n <= max_iterations (analyzer_config S self)
    /\ (2 <= max_iterations (analyzer_config S self) -> (2 <= n)%nat)
    /\ results S self' = results S self ++ firstn n rs
    /\ convergence_history S self'
       = convergence_history S self
         ++ map (fun i => np.mean (results S self ++ firstn i rs)) (seq 1 n)
    /\ num_iterations rep
       = Z.of_nat (List.length (results S self)) + Z.of_nat n
    /\ estimate rep = np.mean (results S self ++ firstn n rs).
Proof. apply run_sequential_spec. Qed.

End Analyzer.

Lemma run_parallel_raises_first_failure_witness :
  run_parallel _ fixtures.pi_sim
    (more_fixtures.pi_analyzer more_fixtures.config_python) 0 1
    (fixtures.pi_worker more_fixtures.config_python)
  = Raise (NameError "random").
Proof.
  apply (run_parallel_raises_first_failure _ fixtures.pi_sim
           (more_fixtures.pi_analyzer more_fixtures.config_python) 0 1
           (fixtures.pi_worker more_fixtures.config_python) 0).
  - simpl. lia.
  - reflexivity.
  - intros j Hj. lia.
Defined.

Lemma run_parallel_without_processes_witness :
  run_parallel _ fixtures.pi_sim
    (more_fixtures.pi_analyzer more_fixtures.config_no_processes) 0 1
    (fixtures.pi_worker more_fixtures.config_no_processes)
  = Raise ZeroDivisionError.
Proof.
  apply (run_parallel_without_processes _ fixtures.pi_sim
           (more_fixtures.pi_analyzer more_fixtures.config_no_processes) 0 1
           (fixtures.pi_worker more_fixtures.config_no_processes)).
  simpl. lia.
Defined.

Lemma run_sequential_without_iterations_witness :
  exists self' rep,
    run_sequential _ fixtures.pi_sim
      (more_fixtures.pi_analyzer more_fixtures.config_no_iterations) 0 1
    = Ok (self', rep)
    /\ results _ self' = []
    /\ num_iterations rep = 0
    /\ is_nan (estimate rep) = true.
Proof.
  destruct (run_sequential_without_iterations _ fixtures.pi_sim
              (more_fixtures.pi_analyzer more_fixtures.config_no_iterations)
              0 1) as [self' [rep [H1 [H2 [_ [_ [H5 H6]]]]]]].
  - simpl. lia.
  - exists self', rep. split; [exact H1|]. split; [exact H2|].
    split; [exact H5|]. apply H6. reflexivity.
Defined.

Lemma run_sequential_appends_witness :
  exists n self' rep,
    run_sequential _ fixtures.pi_sim
      (more_fixtures.pi_analyzer_after_run fixtures.config_inf_50) 0 1
    = Ok (self', rep)
    /\ (2 <= n)%nat
    /\ num_iterations rep = 1 + Z.of_nat n.
Proof.
  destruct (trials _ fixtures.pi_sim 50
              (fixtures.pi_state fixtures.config_inf_50))
    as [[rs s']|e] eqn:E; [|vm_compute in E; discriminate].
  destruct (run_sequential_appends _ fixtures.pi_sim
              (more_fixtures.pi_analyzer_after_run fixtures.config_inf_50)
              0 1 rs s')
    as [n [self' [rep [H1 [_ [H3 [_ [_ [H6 _]]]]]]]]].
  - simpl. lia.
  - exact E.
  - exists n, self', rep. split; [exact H1|]. split; [|exact H6].
    apply H3. simpl. lia.
Defined.

End analyzer_facts.

(** * More of [monte_carlo_simulation.py]: the report *)

Module report_facts.

Import monte_carlo_simulation notions more_notions plots int64_as_float.
Import int_float_facts monte_carlo_facts trial_facts analyzer_facts.
Import statistics_facts.
Local Open Scope Z_scope.

(** *** Division by one *)

Lemma Prim2SF_one : Prim2SF 1 = S754_finite false 4503599627370496 (-52).
Proof. reflexivity. Qed.

Lemma normal_exponent_range (x : float) (s : bool) (m : positive) (e : Z) :
  Prim2SF x = S754_finite s m e -> Zpos (digits2_pos m) = 53 ->
  -1074 <= e <= 971.
Proof.
  intros Hx Hd. pose proof (Prim2SF_valid x) as Hv. rewrite Hx in Hv.
  unfold SpecFloat.valid_binary, bounded, canonical_mantissa in Hv.
  apply andb_true_iff in Hv as [Hc Hb].
  apply Z.eqb_eq in Hc. apply Z.leb_le in Hb.
  rewrite Hd in Hc. unfold fexp, SpecFloat.emin, prec, emax in *. lia.
Qed.

Lemma div_eucl_pow2 (m : positive) (k : Z) :
  0 <= k ->
  Z.div_eucl (Zpos m * 2 ^ k * 2 ^ 52) (Zpos 4503599627370496)
  = (Zpos m * 2 ^ k, 0).
Proof.
  intros Hk.
  assert (Hp : 0 < 2 ^ k) by (apply Z.pow_pos_nonneg; lia).
  pose proof (Z_div_mod (Zpos m * 2 ^ k * 2 ^ 52) (Zpos 4503599627370496)
                ltac:(lia)) as H.
  destruct (Z.div_eucl _ _) as [q r]. destruct H as [H1 H2].
  change (Zpos 4503599627370496) with (2 ^ 52) in *.
  generalize dependent (Zpos m * 2 ^ k). intros v Hv.
  assert (q = v /\ r = 0) as [-> ->]; [|reflexivity].
  assert (Hr : r = 2 ^ 52 * (v - q)) by lia.
  assert (v - q = 0) by nia. split; lia.
Qed.

(** A normal number divided by 1 is itself. *)
Lemma div_one_normal (x : float) :
  is_normal x = true -> (x / 1 = x)%float.
Proof.
  unfold is_normal. intros Hn.
  destruct (Prim2SF x) as [s|s| |s m e] eqn:Hx; try discriminate.
  apply Z.eqb_eq in Hn.
  pose proof (normal_exponent_range x s m e Hx Hn) as He.
  apply Prim2SF_inj. rewrite div_spec, Hx, Prim2SF_one.
  unfold SF64div. cbn [SFdiv]. unfold SFdiv_core_binary.
  rewrite !Zdigits2_pos, Hn.
  change (Zpos (digits2_pos 4503599627370496)) with 53.
  rewrite xorb_false_r.
  destruct (Z.eq_dec e (-1074)) as [->|Hne].
  - change (Z.min (fexp prec emax (53 + -1074 - (53 + -52))) (-1074 - -52))
      with (-1074).
    change (-1074 - -52 - -1074) with 52.
    rewrite Z.shiftl_mul_pow2 by lia.
    replace (Zpos m * 2 ^ 52) with (Zpos m * 2 ^ 0 * 2 ^ 52) by lia.
    rewrite div_eucl_pow2 by lia.
    rewrite new_location_exact, binary_round_aux_exact by lia.
    f_equal.
  - rewrite fexp_normal by lia.
    replace (Z.min (53 + e - (53 + -52) - 53) (e - -52)) with (e - 1) by lia.
    replace (e - -52 - (e - 1)) with 53 by lia.
    rewrite Z.shiftl_mul_pow2 by lia.
    replace (Zpos m * 2 ^ 53) with (Zpos m * 2 ^ 1 * 2 ^ 52)
      by (change (2 ^ 53) with (2 ^ 1 * 2 ^ 52); ring).
    rewrite div_eucl_pow2 by lia.
    rewrite new_location_exact, binary_round_aux_exact by lia.
    f_equal. lia.
Qed.

Lemma is_normal_finite (x : float) : is_normal x = true -> is_finite x = true.
Proof.
  unfold is_normal, is_finite. destruct (Prim2SF x); congruence.
Qed.

Lemma zero_add_normal (x : float) : is_normal x = true -> (0 + x = x)%float.
Proof.
  unfold is_normal. intros Hn. apply Prim2SF_inj. rewrite add_spec.
  change (Prim2SF 0) with (S754_zero false).
  destruct (Prim2SF x); try discriminate. reflexivity.
Qed.

(** The mean of a buffer with the single normal entry [x] is [x], and its
    standard deviation is 0. *)
Lemma single_entry_mean_std (x : float) :
  is_normal x = true \/ x = 0%float ->
  np.mean [x] = x /\ np.std [x] = 0%float.
Proof.
  intros [Hn| ->]; [|split; reflexivity].
  assert (Hmean : np.mean [x] = x).
  { unfold np.mean, np.sum. cbn [fold_left].
    change (np.count [x]) with 1%float.
    rewrite zero_add_normal, div_one_normal by exact Hn. reflexivity. }
  split; [exact Hmean|].
  unfold np.std, np.var. rewrite Hmean. cbn [map].
  rewrite sub_self_finite by (apply is_normal_finite; exact Hn).
  reflexivity.
Qed.

(** The estimate of a numpy trial is 0 or a normal number. *)
Lemma estimate_normal_or_zero (k n : Z) :
  0 <= k <= n -> 1 <= n < 2 ^ 53 ->
  is_normal (float_of_int k / float_of_int n * 4)%float = true
  \/ (float_of_int k / float_of_int n * 4 = 0)%float.
Proof.
  intros Hk Hn.
  destruct (Z.eq_dec k 0) as [->|Hk0].
  - right.
    assert (H0 : (float_of_int 0 / float_of_int n = 0)%float).
    { apply Prim2SF_inj. rewrite div_spec, !Prim2SF_float_of_int by lia.
      destruct (SF_of_int_finite n ltac:(lia) ltac:(lia)) as [mn [en [-> _]]].
      replace (n <? 0) with false by (symmetry; apply Z.ltb_ge; lia).
      reflexivity. }
    rewrite H0. reflexivity.
  - left.
    destruct (SFdiv_int k n Hk0 ltac:(lia) ltac:(lia))
      as [m [e [Hdiv [Hd [He _]]]]].
    assert (Hq : Prim2SF (float_of_int k / float_of_int n)
                 = S754_finite (k <? 0) m e).
    { rewrite div_spec, !Prim2SF_float_of_int by lia. exact Hdiv. }
    unfold is_normal.
    rewrite (mul_four_normal _ _ m e Hq Hd) by lia.
    apply Z.eqb_eq. exact Hd.
Qed.

Section Report.

Variable S : Type.
Variable sim : MonteCarloSimulation S.

(** X9.  The report on a buffer with one entry [x], a normal number or 0: the
    estimate is [x] itself, the standard deviation is 0 and one iteration
    is counted. *)
Theorem report_of_single_entry (self : MonteCarloAnalyzer S) (x : float) :
  results S self = [x] ->
  is_normal x = true \/ x = 0%float ->
  estimate (_analyze_results S sim self) = x
  /\ standard_deviation (_analyze_results S sim self) = 0%float
  /\ num_iterations (_analyze_results S sim self) = 1
  /\ absolute_error (_analyze_results S sim self)
     = abs (x - get_exact_value sim (simulation S self)).
Proof.
  intros Hres Hx. unfold _analyze_results.
  cbn [estimate standard_deviation num_iterations absolute_error].
  rewrite Hres.
  destruct (single_entry_mean_std x Hx) as [-> ->].
  repeat split.
Qed.

(** X10.  Both errors of a report are NaN, 0 or positive, never negative; and
    when the estimate equals a finite reference value other than 0, both
    are 0. *)
Theorem report_errors_not_negative (self : MonteCarloAnalyzer S) :
  (absolute_error (_analyze_results S sim self) <? 0)%float = false
  /\ (relative_error (_analyze_results S sim self) <? 0)%float = false
  /\ (estimate (_analyze_results S sim self)
      = exact_value (_analyze_results S sim self) ->
      is_finite (exact_value (_analyze_results S sim self)) = true ->
      (exact_value (_analyze_results S sim self) =? 0)%float = false ->
      absolute_error (_analyze_results S sim self) = 0%float
      /\ relative_error (_analyze_results S sim self) = 0%float).
Proof.
  unfold _analyze_results.
  cbn [estimate exact_value absolute_error relative_error].
  split; [apply abs_not_negative|]. split; [apply abs_not_negative|].
  intros -> Hfin Hnz.
  rewrite sub_self_finite by exact Hfin.
  split; [reflexivity|].
  apply Prim2SF_inj. rewrite abs_spec, div_spec.
  unfold is_finite in Hfin. rewrite eqb_spec in Hnz.
  change (Prim2SF 0) with (S754_zero false) in *.
  destruct (Prim2SF (get_exact_value sim (simulation S self)))
    as [s|s| |s m e]; try discriminate; reflexivity.
Qed.


End Report.

Lemma report_of_single_entry_witness :
  estimate (_analyze_results _ fixtures.pi_sim
              (more_fixtures.pi_analyzer_after_run fixtures.config_inf_50))
  = 3%float
  /\ standard_deviation
       (_analyze_results _ fixtures.pi_sim
          (more_fixtures.pi_analyzer_after_run fixtures.config_inf_50))
     = 0%float.
Proof.
  destruct (report_of_single_entry _ fixtures.pi_sim
              (more_fixtures.pi_analyzer_after_run fixtures.config_inf_50)
              3%float) as [H1 [H2 _]].
  - reflexivity.
  - left. reflexivity.
  - split; [exact H1 | exact H2].
Defined.

Lemma report_errors_not_negative_witness :
  absolute_error
    (_analyze_results unit more_fixtures.three_sim
       {| simulation := tt; analyzer_config := fixtures.config_inf_50;
          results := [3%float]; runtime := 0%float;
          convergence_history := [3%float] |}) = 0%float
  /\ relative_error
       (_analyze_results unit more_fixtures.three_sim
          {| simulation := tt; analyzer_config := fixtures.config_inf_50;
             results := [3%float]; runtime := 0%float;
             convergence_history := [3%float] |}) = 0%float.
Proof.
  destruct (report_errors_not_negative unit more_fixtures.three_sim
              {| simulation := tt; analyzer_config := fixtures.config_inf_50;
                 results := [3%float]; runtime := 0%float;
                 convergence_history := [3%float] |}) as [_ [_ H]].
  apply H; reflexivity.
Defined.


End report_facts.

(** * The Pi estimation under the analyzer *)

Module pi_run_facts.

Import monte_carlo_simulation notions more_notions int64_as_float.
Import int_float_facts monte_carlo_facts trial_facts analyzer_facts.
Local Open Scope Z_scope.

Section LoopInvariant.

Variable S : Type.
Variable sim : MonteCarloSimulation S.
Variable Inv : S -> Prop.
Variable Q : float -> Prop.
Variable measure : S -> nat.
Variable d : nat.

Hypothesis trial_step :
  forall s, Inv s ->
    exists r, run_trial sim s = Ok r /\ Inv (snd r) /\ Q (fst (fst r))
              /\ measure (snd r) = (measure s + d)%nat.

(** When every trial from a state of [Inv] returns, keeps [Inv], gives an
    estimate of [Q] and adds [d] to the measure, the loop returns, and
    has appended estimates of [Q] only, between 1 and [k] of them. *)
Lemma sequential_loop_invariant (t : float) (k : nat) :
  forall (s : S) (pre hist : list float) (prev : float),
    Inv s ->
    exists sfin new hist',
      sequential_loop S sim k s pre hist prev t = Ok (sfin, pre ++ new, hist')
      /\ Inv sfin /\ Forall Q new
      /\ measure sfin = (measure s + List.length new * d)%nat
      /\ (List.length new <= k)%nat
      /\ (1 <= k -> 1 <= List.length new)%nat.
Proof.
  induction k as [|k IH]; intros s pre hist prev Hs.
  - exists s, [], hist. simpl. rewrite app_nil_r.
    repeat split; auto; lia.
  - destruct (trial_step s Hs) as [r [Hr [Hinv [Hq Hm]]]].
    simpl. rewrite Hr. simpl.
    destruct (abs (np.mean (pre ++ [fst (fst r)]) - prev) <? t)%float.
    + exists (snd r), [fst (fst r)], (hist ++ [np.mean (pre ++ [fst (fst r)])]).
      simpl. repeat split; auto; lia.
    + destruct (IH (snd r) (pre ++ [fst (fst r)])
                  (hist ++ [np.mean (pre ++ [fst (fst r)])])
                  (np.mean (pre ++ [fst (fst r)])) Hinv)
        as [sfin [new [hist' [Hloop [Hfin [Hall [Hmeas [Hlen _]]]]]]]].
      exists sfin, (fst (fst r) :: new), hist'.
      rewrite Hloop, <- app_assoc. simpl.
      repeat split; auto; lia.
Qed.

End LoopInvariant.

Section PiRuns.

Variable np_state : Type.
Variable np_random_uniform1 : np_state -> float -> float -> float * np_state.
Variable py_state : Type.
Variable random_uniform : py_state -> float -> float -> float * py_state.

Abbreviation State := (Globals np_state py_state * PiEstimation)%type.
Abbreviation the_pi_sim :=
  (PiEstimation_sim np_state np_random_uniform1 py_state random_uniform).

(** One numpy trial from a state whose configuration is [cfg]. *)
Lemma pi_trial_step (cfg : MonteCarloConfig) (st : State) :
  use_numpy cfg = true -> 1 <= num_samples cfg < 2 ^ 53 ->
  config (snd st) = cfg ->
  exists r,
    run_trial the_pi_sim st = Ok r
    /\ config (snd (snd r)) = cfg
    /\ ((0 <=? fst (fst r))%float = true /\ (fst (fst r) <=? 4)%float = true)
    /\ List.length (points (snd (snd r)))
       = (List.length (points (snd st))
          + (if store_points cfg then Z.to_nat (num_samples cfg) else 0))%nat.
Proof.
  intros Hnp Hn Hcfg.
  cbn [run_trial PiEstimation_sim]. unfold PiEstimation_run_trial.
  rewrite Hcfg, Hnp.
  destruct (_run_numpy_trial_ok np_state np_random_uniform1 py_state st
              ltac:(rewrite Hcfg; lia)) as [x [y [r2 [Hx [Hy Hrun]]]]].
  rewrite Hrun. eexists. split; [reflexivity|].
  cbn [fst snd config points]. rewrite Hcfg.
  split; [reflexivity|]. split.
  - apply estimate_between_0_and_4; [|exact Hn].
    split; [lia|].
    pose proof (filter_length_bound (fun d => (d <=? 1)%float)
                  (map (fun p => (fst p * fst p + snd p * snd p)%float)
                     (combine x y))) as Hb.
    rewrite length_map, length_combine, Hx, Hy, Hcfg in Hb. lia.
  - destruct (store_points cfg); [|lia].
    rewrite length_app, length_map, length_combine, Hx, Hy, Hcfg. lia.
Qed.

(** X12.  A sequential run of the Pi estimation on the numpy path, with
    [1 <= num_samples < 2^53], always returns.  It appends between one and
    [max_iterations] estimates (none when [max_iterations <= 0]), each
    between 0 and 4, and with [store_points] set the simulation holds
    [num_samples] more points for each of them: the stored points grow
    with every iteration and every run. *)
Theorem pi_sequential_run_returns (self : MonteCarloAnalyzer State)
  (start_time end_time : float) :
  use_numpy (config (snd (simulation State self))) = true ->
  1 <= num_samples (config (snd (simulation State self))) < 2 ^ 53 ->
  exists self' rep new,
    run_sequential State the_pi_sim self start_time end_time
    = Ok (self', rep)
    /\ results State self' = results State self ++ new
    /\ Z.of_nat (List.length new)
       <= Z.max 0 (max_iterations (analyzer_config State self))
    /\ (1 <= max_iterations (analyzer_config State self) ->
        (1 <= List.length new)%nat)
    /\ Forall (fun r => (0 <=? r)%float = true /\ (r <=? 4)%float = true) new
    /\ config (snd (simulation State self'))
       = config (snd (simulation State self))
    /\ List.length (points (snd (simulation State self')))
       = (List.length (points (snd (simulation State self)))
          + List.length new
            * (if store_points (config (snd (simulation State self)))
               then Z.to_nat (num_samples
                                (config (snd (simulation State self))))
               else 0))%nat.
Proof.
  intros Hnp Hn.
  set (cfg := config (snd (simulation State self))) in *.
  destruct (sequential_loop_invariant State the_pi_sim
              (fun st => config (snd st) = cfg)
              (fun r => (0 <=? r)%float = true /\ (r <=? 4)%float = true)
              (fun st => List.length (points (snd st)))
              (if store_points cfg then Z.to_nat (num_samples cfg) else 0%nat)
              (fun st Hst => pi_trial_step cfg st Hnp Hn Hst)
              (convergence_threshold (analyzer_config State self))
              (Z.to_nat (max_iterations (analyzer_config State self)))
              (simulation State self) (results State self)
              (convergence_history State self) infinity eq_refl)
    as [sfin [new [hist' [Hloop [Hfin [Hall [Hmeas [Hlen Hpos]]]]]]]].
  unfold run_sequential. rewrite Hloop. cbn [bind].
  eexists; eexists; exists new. split; [reflexivity|].
  cbn [results simulation].
  split; [reflexivity|]. split; [lia|]. split; [intros; apply Hpos; lia|].
  split; [exact Hall|]. split; [exact Hfin | exact Hmeas].
Qed.

(** X13.  On the pure-Python path ([use_numpy] false) with [num_samples >= 1]
    neither strategy can run: the first trial raises [NameError] on
    [random], and so do [run_sequential] (with [max_iterations >= 1]) and
    [run_parallel] (with [num_processes >= 1]). *)
Theorem python_path_runs_raise (self : MonteCarloAnalyzer State)
  (start_time end_time : float) (worker : nat -> State) :
  use_numpy (config (snd (simulation State self))) = false ->
  1 <= num_samples (config (snd (simulation State self))) ->
  (1 <= max_iterations (analyzer_config State self) ->
   run_sequential State the_pi_sim self start_time end_time
   = Raise (NameError "random"))
  /\ (1 <= num_processes (analyzer_config State self) ->
      config (snd (worker 0%nat)) = config (snd (simulation State self)) ->
      run_parallel State the_pi_sim self start_time end_time worker
      = Raise (NameError "random")).
Proof.
  intros Hnp Hn.
  assert (Htrial : forall st,
             config (snd st) = config (snd (simulation State self)) ->
             run_trial the_pi_sim st = Raise (NameError "random")).
  { intros st Hst. cbn [run_trial PiEstimation_sim].
    unfold PiEstimation_run_trial. rewrite Hst, Hnp.
    destruct st as [g p]. cbn [snd] in Hst.
    unfold _run_python_trial. rewrite Hst.
    destruct (Z.to_nat (num_samples (config (snd (simulation State self)))))
      as [|k] eqn:Hk; [lia|].
    reflexivity. }
  split.
  - intros Hm. unfold run_sequential.
    destruct (Z.to_nat (max_iterations (analyzer_config State self)))
      as [|k] eqn:Hk; [lia|].
    cbn [sequential_loop]. rewrite (Htrial _ eq_refl). reflexivity.
  - intros Hp Hw. unfold run_parallel.
    destruct (or_else_floordiv_ok
                (batch_size (analyzer_config State self))
                (num_samples (analyzer_config State self))
                (num_processes (analyzer_config State self)) ltac:(lia))
      as [b ->].
    cbn [bind].
    replace (num_processes (analyzer_config State self) <=? 0) with false
      by (symmetry; apply Z.leb_gt; lia).
    cbn [bind]. unfold range.
    destruct (Z.to_nat (num_processes (analyzer_config State self)))
      as [|k] eqn:Hk; [lia|].
    cbn [seq mapM]. rewrite (Htrial _ Hw). reflexivity.
Qed.

End PiRuns.

Lemma pi_sequential_run_returns_witness :
  exists self' rep new,
    run_sequential _ fixtures.pi_sim
      (more_fixtures.pi_analyzer more_fixtures.config_store_inf_50) 0 1
    = Ok (self', rep)
    /\ results _ self' = new
    /\ (1 <= List.length new)%nat
    /\ List.length (points (snd (simulation _ self')))
       = (List.length new * 20)%nat.
Proof.
  destruct (pi_sequential_run_returns Z fixtures.lcg_uniform Z
              fixtures.lcg_uniform
              (more_fixtures.pi_analyzer more_fixtures.config_store_inf_50)
              0 1)
    as [self' [rep [new [H1 [H2 [_ [H4 [_ [_ H7]]]]]]]]].
  - reflexivity.
  - simpl. lia.
  - exists self', rep, new. split; [exact H1|]. split; [exact H2|].
    split; [apply H4; simpl; lia | exact H7].
Defined.

Lemma python_path_runs_raise_witness :
  run_sequential _ fixtures.pi_sim
    (more_fixtures.pi_analyzer more_fixtures.config_python) 0 1
  = Raise (NameError "random")
  /\ run_parallel _ fixtures.pi_sim
       (more_fixtures.pi_analyzer more_fixtures.config_python) 0 1
       (fixtures.pi_worker more_fixtures.config_python)
     = Raise (NameError "random").
Proof.
  destruct (python_path_runs_raise Z fixtures.lcg_uniform Z
              fixtures.lcg_uniform
              (more_fixtures.pi_analyzer more_fixtures.config_python) 0 1
              (fixtures.pi_worker more_fixtures.config_python))
    as [H1 H2].
  - reflexivity.
  - simpl. lia.
  - split; [apply H1; simpl; lia | apply H2; [simpl; lia | reflexivity]].
Defined.

End pi_run_facts.

(** * More of [random_simulation.py]: batches and runs *)

Module batch_facts.

Import random_simulation notions more_notions int64_as_float.
Import int_float_facts random_simulation_facts statistics_facts.
Local Open Scope Z_scope.

(** The generator of the fixtures keeps the promise of [random.randint]. *)
Lemma lcg_randint_in_range : randint_in_range lcg_randint.
Proof.
  intros st a b Hab. unfold lcg_randint. cbn [fst].
  pose proof (Z.mod_pos_bound (lcg_next st) (b - a + 1) ltac:(lia)). lia.
Qed.

(** Conversion to float keeps the order of integers below 2^53. *)
Lemma SF_of_int_le (a b : Z) :
  Z.abs a < 2 ^ 53 -> Z.abs b < 2 ^ 53 -> a <= b ->
  SFleb (SF_of_int a) (SF_of_int b) = true.
Proof.
  intros Ha Hb Hab.
  rewrite <- (SFdiv_int_multiple a 1) by lia.
  replace (1 * a) with a by lia.
  apply SFleb_div_upper; lia.
Qed.

Lemma float_of_int_le (a b : Z) :
  Z.abs a < 2 ^ 53 -> Z.abs b < 2 ^ 53 -> a <= b ->
  (float_of_int a <=? float_of_int b)%float = true.
Proof.
  intros Ha Hb Hab.
  rewrite leb_spec, !Prim2SF_float_of_int by assumption.
  apply SF_of_int_le; assumption.
Qed.

Lemma or_else_Ok_nonzero (x : option Z) (n d b : Z) :
  or_else x (floordiv n d) = Ok b -> x = Some b \/ (d <> 0 /\ b = n / d).
Proof.
  unfold or_else, floordiv. intros H.
  destruct x as [v|].
  - destruct (v =? 0).
    + destruct (Z.eqb_spec d 0); [discriminate|].
      inversion H. right. split; auto.
    + inversion H. left. reflexivity.
  - destruct (Z.eqb_spec d 0); [discriminate|].
    inversion H. right. split; auto.
Qed.

Section Runs.

Variable py_state : Type.
Variable random_randint : py_state -> Z -> Z -> Z * py_state.
Variable self : RandomSimulation.

Abbreviation lo := (min_value (self_config self)).
Abbreviation hi := (max_value (self_config self)).
Abbreviation in_range := (fun v : Z => lo <= v <= hi).
Abbreviation generate := (generate py_state random_randint self).
Abbreviation _generate_batch :=
  (_generate_batch py_state random_randint self).
Abbreviation collect := (executor_map py_state random_randint self).
Abbreviation run_results := (run_results py_state random_randint self).
Abbreviation run := (run py_state random_randint self).

Hypothesis randint_ok : randint_in_range random_randint.

Lemma generate_in_range (k : nat) :
  forall rng out, generate k rng = Ok out -> Forall in_range (fst out).
Proof.
  induction k as [|k IH]; simpl; intros rng out H.
  - inversion H. constructor.
  - unfold randint in H.
    destruct (Z.ltb_spec hi lo) as [Hlt|Hle]; simpl in H; [discriminate|].
    destruct (generate k _) as [vs|e] eqn:E; simpl in H; [|discriminate].
    inversion H; subst; simpl. constructor.
    + apply randint_ok. exact Hle.
    + apply (IH _ _ E).
Qed.

Lemma collect_in_range (worker_rng : nat -> py_state)
  (tasks : list (nat * Z)) :
  forall results, collect worker_rng tasks = Ok results ->
    Forall in_range (List.concat results).
Proof.
  induction tasks as [|t tasks IH]; simpl; intros results H.
  - inversion H. constructor.
  - unfold executor_map in H; simpl in H. fold (collect worker_rng tasks) in H.
    destruct (_generate_batch (worker_rng (fst t)) (snd t)) as [out|e] eqn:E;
      simpl in H; [|discriminate].
    destruct (collect worker_rng tasks) as [rest|e]; simpl in H;
      [|discriminate].
    inversion H; subst; simpl. apply Forall_app. split.
    + apply (generate_in_range _ _ _ E).
    + apply IH. reflexivity.
Qed.

(** Whatever branch [run] takes, its results lie in the configured range
    and are at most [trials] many. *)
Lemma run_results_in_range (rng : py_state) (worker_rng : nat -> py_state)
  (data : list Z) (rng' : py_state) :
  run_results rng worker_rng = Ok (data, rng') ->
  Forall in_range data
  /\ Z.of_nat (List.length data) <= Z.max 0 (trials (self_config self)).
Proof.
  unfold random_simulation.run_results.
  destruct (parallel (self_config self)
            && (10000 <=? trials (self_config self))) eqn:Hbr.
  - apply andb_true_iff in Hbr as [_ Htr]. apply Z.leb_le in Htr.
    unfold _parallel_simulation.
    destruct (or_else _ _) as [b|e] eqn:Hb; cbn [bind]; [|discriminate].
    unfold floordiv at 1.
    destruct (Z.eqb_spec b 0) as [Hb0|Hb0]; cbn [bind]; [discriminate|].
    destruct (num_processes (self_config self) <=? 0); cbn [bind];
      [discriminate|].
    destruct (collect worker_rng _) as [results|e] eqn:E; cbn [bind];
      [|discriminate].
    intros H. inversion H; subst. split.
    + apply (collect_in_range _ _ _ E).
    + rewrite (collect_length py_state random_randint self worker_rng b _
                 (tasks_same_size b _) _ E), tasks_length.
      destruct (Z.le_gt_cases b 0) as [Hneg|Hpos].
      * replace (Z.to_nat b) with 0%nat by lia. lia.
      * pose proof (Z.mul_div_le (trials (self_config self)) b Hpos).
        assert (0 <= trials (self_config self) / b)
          by (apply Z.div_pos; lia).
        rewrite Nat2Z.inj_mul, !Z2Nat.id by lia. lia.
  - intros H. unfold random_simulation._generate_batch in H. split.
    + apply (generate_in_range _ _ _ H).
    + apply generate_length in H. cbn [fst] in H. lia.
Qed.

(** X14.  With a generator that keeps the promise of [random.randint] and a
    range that is not empty, [_generate_batch(size)] returns [size] values
    (none for [size <= 0]), each within [min_value, max_value]. *)
Theorem batch_values_in_range (rng : py_state) (size : Z) :
  lo <= hi ->
  exists data rng',
    _generate_batch rng size = Ok (data, rng')
    /\ Z.of_nat (List.length data) = Z.max 0 size
    /\ Forall in_range data.
Proof.
  intros Hle. unfold random_simulation._generate_batch.
  destruct (generate_total py_state random_randint self (Z.to_nat size)
              Hle rng) as [[data rng'] H].
  exists data, rng'. split; [exact H|]. split.
  - apply generate_length in H. cbn [fst] in H. lia.
  - apply (generate_in_range _ _ _ H).
Qed.

(** X15.  The statistics of a run lie within the configured range: for values
    bounded by [B] with [trials * B < 2^53], a run that returns has
    [min_value <= min <= mean <= max <= max_value], and all its raw data
    in that range.  On the sequential branch with [trials >= 1] and a
    range that is not empty, the run returns. *)
Theorem run_statistics_within_configured_range (B : Z) (rng : py_state)
  (worker_rng : nat -> py_state) (start_time end_time : float) :
  1 <= B -> - B <= lo -> hi <= B ->
  trials (self_config self) * B < 2 ^ 53 ->
  (forall res rng',
      run rng worker_rng start_time end_time = Ok (res, rng') ->
      Forall in_range (raw_data res)
      /\ (float_of_int lo <=? min (statistics res))%float = true
      /\ (min (statistics res) <=? mean (statistics res))%float = true
      /\ (mean (statistics res) <=? max (statistics res))%float = true
      /\ (max (statistics res) <=? float_of_int hi)%float = true)
  /\ (1 <= trials (self_config self) -> lo <= hi ->
      parallel (self_config self) = false
      \/ trials (self_config self) < 10000 ->
      exists res rng',
        run rng worker_rng start_time end_time = Ok (res, rng')).
Proof.
  intros HB Hlo Hhi Hbound. split.
  - intros res rng' Hrun. unfold random_simulation.run in Hrun.
    destruct (run_results rng worker_rng) as [[data r1]|e] eqn:Hres;
      cbn [bind fst snd] in Hrun; [|discriminate].
    destruct (run_results_in_range _ _ _ _ Hres) as [Hall Hlen].
    destruct data as [|x xs].
    { cbn in Hrun. discriminate. }
    assert (Hin : forall y, In y (x :: xs) -> lo <= y <= hi)
      by (apply Forall_forall; exact Hall).
    assert (Hwithin : all_within B (x :: xs))
      by (intros y Hy; specialize (Hin y Hy); lia).
    assert (Hlen1 : 1 <= Z.of_nat (List.length (x :: xs)))
      by (cbn [List.length]; lia).
    assert (Hb : Z.of_nat (List.length (x :: xs)) * B < 2 ^ 53) by nia.
    destruct (np_min_max_ok x xs B Hwithin)
      as [mn [mx [Hmn [Hmx [Bmn [Bmx Hmm]]]]]].
    assert (Hmn_in : lo <= mn).
    { unfold np.min in Hmn. inversion Hmn; subst.
      destruct (fold_min_le xs x) as [_ [_ Hmem]].
      apply Hin. exact Hmem. }
    assert (Hmx_in : mx <= hi).
    { unfold np.max in Hmx. inversion Hmx; subst.
      destruct (fold_max_ge xs x) as [_ [_ Hmem]].
      apply Hin. exact Hmem. }
    unfold compute_statistics in Hrun. rewrite Hmn, Hmx in Hrun.
    cbn [bind] in Hrun. injection Hrun as <- _.
    cbn [raw_data statistics min mean max].
    change (float_of_int x :: np.asfloat xs) with (np.asfloat (x :: xs)).
    split; [exact Hall|].
    destruct (np_sum_int B (x :: xs) Hwithin Hb) as [Hsum Hsumb].
    assert (Hcount : Prim2SF (np.count (np.asfloat (x :: xs)))
                     = SF_of_int (Z.of_nat (List.length (x :: xs))))
      by (apply np_count_int; nia).
    pose proof (fold_add_bounds mn mx (x :: xs) Hmm 0) as Hbounds.
    fold (total (x :: xs)) in Hbounds.
    split; [apply float_of_int_le; nia|].
    split; [|split; [|apply float_of_int_le; nia]].
    + unfold np.mean.
      rewrite leb_spec, div_spec, Hsum, Hcount, Prim2SF_float_of_int by nia.
      apply SFleb_div_lower; nia.
    + unfold np.mean.
      rewrite leb_spec, div_spec, Hsum, Hcount, Prim2SF_float_of_int by nia.
      apply SFleb_div_upper; nia.
  - intros Htr Hle Hseq. unfold random_simulation.run.
    assert (Hbr : parallel (self_config self)
                  && (10000 <=? trials (self_config self)) = false).
    { destruct Hseq as [-> | Hlt]; [reflexivity|].
      replace (10000 <=? trials (self_config self)) with false
        by (symmetry; apply Z.leb_gt; exact Hlt).
      apply andb_false_r. }
    unfold random_simulation.run_results. rewrite Hbr.
    unfold random_simulation._generate_batch.
    destruct (generate_total py_state random_randint self
                (Z.to_nat (trials (self_config self))) Hle rng)
      as [[data r1] Hgen].
    rewrite Hgen. cbn [bind fst snd].
    pose proof (generate_length _ _ _ _ _ _ Hgen) as Hlen. cbn [fst] in Hlen.
    destruct data as [|x xs]; [cbn [List.length] in Hlen; lia|].
    unfold compute_statistics. cbn [np.min np.max bind].
    eexists; eexists; reflexivity.
Qed.

End Runs.

Section Edges.

Variable py_state : Type.
Variable random_randint : py_state -> Z -> Z -> Z * py_state.
Variable self : RandomSimulation.

(** X16.  [_generate_batch] at its edges: a size that is not positive gives the
    empty list, draws nothing and never raises, even on an empty range;
    a positive size on an empty range ([max_value < min_value]) raises
    [ValueError]. *)
Theorem batch_edge_cases (rng : py_state) (size : Z) :
  (size <= 0 ->
   random_simulation._generate_batch py_state random_randint self rng size
   = Ok ([], rng))
  /\ (1 <= size ->
      max_value (self_config self) < min_value (self_config self) ->
      random_simulation._generate_batch py_state random_randint self rng size
      = Raise ValueError).
Proof.
  unfold random_simulation._generate_batch. split.
  - intros Hs. replace (Z.to_nat size) with 0%nat by lia. reflexivity.
  - intros Hs Hlt.
    destruct (Z.to_nat size) as [|k] eqn:Hk; [lia|].
    cbn [random_simulation.generate]. unfold randint.
    replace (max_value (self_config self) <? min_value (self_config self))
      with true by (symmetry; apply Z.ltb_lt; exact Hlt).
    reflexivity.
Qed.

(** X17.  A run with [trials <= 0] raises [ValueError]: it takes the sequential
    branch, generates nothing, and [np.min] rejects the empty array. *)
Theorem run_without_trials_raises (rng : py_state)
  (worker_rng : nat -> py_state) (start_time end_time : float) :
  trials (self_config self) <= 0 ->
  random_simulation.run py_state random_randint self rng worker_rng
    start_time end_time
  = Raise ValueError.
Proof.
  intros Htr. unfold random_simulation.run, random_simulation.run_results.
  replace (10000 <=? trials (self_config self)) with false
    by (symmetry; apply Z.leb_gt; lia).
  rewrite andb_false_r. unfold random_simulation._generate_batch.
  replace (Z.to_nat (trials (self_config self))) with 0%nat by lia.
  reflexivity.
Qed.

(** X18.  A parallel run ([parallel] set, [trials >= 10000]) whose configured
    batch size is negative or larger than [trials] raises [ValueError]:
    there is no batch at all, so either the executor rejects the number
    of processes or [np.min] rejects the empty result. *)
Theorem oversized_batch_raises (rng : py_state)
  (worker_rng : nat -> py_state) (start_time end_time : float) (b : Z) :
  parallel (self_config self) = true ->
  10000 <= trials (self_config self) ->
  batch_size (self_config self) = Some b ->
  b < 0 \/ trials (self_config self) < b ->
  random_simulation.run py_state random_randint self rng worker_rng
    start_time end_time
  = Raise ValueError.
Proof.
  intros Hpar Htr Hbs Hb.
  unfold random_simulation.run, random_simulation.run_results.
  rewrite Hpar.
  replace (10000 <=? trials (self_config self)) with true
    by (symmetry; apply Z.leb_le; exact Htr).
  cbn [andb]. unfold _parallel_simulation. rewrite Hbs.
  assert (Hb0 : (b =? 0) = false) by (apply Z.eqb_neq; lia).
  unfold or_else, floordiv. rewrite Hb0. cbn [bind]. rewrite Hb0.
  cbn [bind].
  assert (Hq : Z.to_nat (trials (self_config self) / b) = 0%nat).
  { destruct Hb as [Hneg|Hbig].
    - assert (trials (self_config self) / b <= 0); [|lia].
      pose proof (Z.div_mod (trials (self_config self)) b ltac:(lia)).
      pose proof (Z.mod_neg_bound (trials (self_config self)) b Hneg).
      nia.
    - rewrite Z.div_small by lia. reflexivity. }
  unfold range. rewrite Hq. cbn [seq map combine].
  destruct (num_processes (self_config self) <=? 0); reflexivity.
Qed.

End Edges.

Lemma batch_values_in_range_witness :
  exists data rng',
    _generate_batch Z lcg_randint
      (random_fixtures.sim_of more_random_fixtures.config_10) 1 10
    = Ok (data, rng')
    /\ Z.of_nat (List.length data) = 10
    /\ Forall (fun v => 1 <= v <= 100) data.
Proof.
  apply (batch_values_in_range Z lcg_randint
           (random_fixtures.sim_of more_random_fixtures.config_10)
           lcg_randint_in_range 1 10).
  simpl. lia.
Defined.

Lemma run_statistics_within_configured_range_witness :
  exists res rng',
    run Z lcg_randint
      (random_fixtures.sim_of more_random_fixtures.config_10) 1
      random_fixtures.worker_rng 0 1 = Ok (res, rng')
    /\ (float_of_int 1 <=? min (statistics res))%float = true
    /\ (max (statistics res) <=? float_of_int 100)%float = true.
Proof.
  destruct (run_statistics_within_configured_range Z lcg_randint
              (random_fixtures.sim_of more_random_fixtures.config_10)
              lcg_randint_in_range 100 1 random_fixtures.worker_rng 0 1)
    as [Hstats Hret]; try (simpl; lia).
  destruct Hret as [res [rng' Hrun]]; try (simpl; lia).
  exists res, rng'. split; [exact Hrun|].
  destruct (Hstats res rng' Hrun) as [_ [H1 [_ [_ H4]]]].
  split; [exact H1 | exact H4].
Defined.

Lemma batch_edge_cases_witness :
  _generate_batch Z lcg_randint
    (random_fixtures.sim_of more_random_fixtures.config_empty_range) 1 0
  = Ok ([], 1)
  /\ _generate_batch Z lcg_randint
       (random_fixtures.sim_of more_random_fixtures.config_empty_range) 1 10
     = Raise ValueError.
Proof.
  split.
  - apply (batch_edge_cases Z lcg_randint
             (random_fixtures.sim_of more_random_fixtures.config_empty_range)
             1 0). lia.
  - apply (batch_edge_cases Z lcg_randint
             (random_fixtures.sim_of more_random_fixtures.config_empty_range)
             1 10); simpl; lia.
Defined.

Lemma run_without_trials_raises_witness :
  run Z lcg_randint
    (random_fixtures.sim_of more_random_fixtures.config_no_trials) 1
    random_fixtures.worker_rng 0 1 = Raise ValueError.
Proof.
  apply (run_without_trials_raises Z lcg_randint
           (random_fixtures.sim_of more_random_fixtures.config_no_trials)).
  simpl. lia.
Defined.

Lemma oversized_batch_raises_witness :
  run Z lcg_randint
    (random_fixtures.sim_of more_random_fixtures.config_oversized_batch) 1
    random_fixtures.worker_rng 0 1 = Raise ValueError.
Proof.
  apply (oversized_batch_raises Z lcg_randint
           (random_fixtures.sim_of more_random_fixtures.config_oversized_batch)
           1 random_fixtures.worker_rng 0 1 20000).
  - reflexivity.
  - simpl. lia.
  - reflexivity.
  - right. simpl. lia.
Defined.

End batch_facts.

(** * More on the statistics and the plots *)

Module spread_facts.

Import monte_carlo_simulation random_simulation.
Import notions more_notions plots int64_as_float.
Import int_float_facts statistics_facts batch_facts.
Local Open Scope Z_scope.

(** *** Variance and standard deviation are never negative *)

Lemma sign_clear_round_finish (m e : Z) :
  sign_clear (round_finish false m e) = true.
Proof.
  unfold round_finish.
  destruct (shr_fexp prec emax m e loc_Exact) as [mrs e'].
  destruct (shr_m mrs); [reflexivity | | reflexivity].
  destruct (e' <=? emax - prec); reflexivity.
Qed.

Lemma sign_clear_round_aux (m e : Z) (l : location) :
  sign_clear (binary_round_aux prec emax false m e l) = true.
Proof. rewrite binary_round_aux_finish. apply sign_clear_round_finish. Qed.

Lemma sign_clear_square (x : spec_float) :
  sign_clear (SFmul prec emax x x) = true.
Proof.
  destruct x as [s|s| |s m e]; cbn [SFmul]; rewrite ?xorb_nilpotent;
    try reflexivity.
  apply sign_clear_round_aux.
Qed.

Lemma sign_clear_add (x y : spec_float) :
  sign_clear x = true -> sign_clear y = true ->
  sign_clear (SFadd prec emax x y) = true.
Proof.
  destruct x as [[|]|[|]| |[|] m1 e1]; try discriminate;
    destruct y as [[|]|[|]| |[|] m2 e2]; try discriminate;
    intros _ _; try reflexivity.
  cbn [SFadd cond_Zopp].
  change (Zpos (fst (shl_align m1 e1 (Z.min e1 e2)))
          + Zpos (fst (shl_align m2 e2 (Z.min e1 e2))))
    with (Zpos (fst (shl_align m1 e1 (Z.min e1 e2))
                + fst (shl_align m2 e2 (Z.min e1 e2)))).
  cbn [binary_normalize]. unfold binary_round.
  destruct (shl_align _ _ _) as [mz ez].
  apply sign_clear_round_aux.
Qed.

Lemma sign_clear_div (x y : spec_float) :
  sign_clear x = true ->
  (y = S754_zero false \/ exists m e, y = S754_finite false m e) ->
  sign_clear (SFdiv prec emax x y) = true.
Proof.
  intros Hx Hy.
  destruct x as [[|]|[|]| |[|] m1 e1]; try discriminate;
    destruct Hy as [->|[m2 [e2 ->]]]; try reflexivity.
  cbn [SFdiv xorb].
  destruct (SFdiv_core_binary prec emax (Zpos m1) e1 (Zpos m2) e2)
    as [[mz ez] lz].
  apply sign_clear_round_aux.
Qed.

Lemma sign_clear_sqrt (x : spec_float) :
  sign_clear x = true -> sign_clear (SFsqrt prec emax x) = true.
Proof.
  destruct x as [[|]|[|]| |[|] m e]; try discriminate; intros _;
    try reflexivity.
  cbn [SFsqrt].
  destruct (SFsqrt_core_binary prec emax (Zpos m) e) as [[mz ez] lz].
  apply sign_clear_round_aux.
Qed.

Lemma sign_clear_not_negative (x : float) :
  sign_clear (Prim2SF x) = true -> not_negative x = true.
Proof.
  unfold not_negative. rewrite leb_spec.
  change (Prim2SF 0) with (S754_zero false).
  destruct (Prim2SF x) as [[|]|[|]| |[|] m e]; try discriminate;
    reflexivity.
Qed.

Lemma sign_clear_fold_add (l : list float) :
  (forall x, In x l -> sign_clear (Prim2SF x) = true) ->
  forall acc, sign_clear (Prim2SF acc) = true ->
    sign_clear (Prim2SF (fold_left PrimFloat.add l acc)) = true.
Proof.
  induction l as [|x l IH]; intros Hl acc Hacc; [exact Hacc|].
  cbn [fold_left]. apply IH.
  - intros y Hy. apply Hl. right. exact Hy.
  - rewrite add_spec. apply sign_clear_add; [exact Hacc|].
    apply Hl. left. reflexivity.
Qed.

Lemma count_zero_or_positive (a : list float) :
  Z.of_nat (List.length a) < 2 ^ 53 ->
  Prim2SF (np.count a) = S754_zero false
  \/ exists m e, Prim2SF (np.count a) = S754_finite false m e.
Proof.
  intros Hlen. unfold np.count. rewrite Prim2SF_float_of_int by lia.
  destruct (Z.of_nat (List.length a)) as [|p|p] eqn:E; [left; reflexivity | | lia].
  right. cbn [SF_of_int]. eexists; eexists; reflexivity.
Qed.

(** [np.var] and [np.std] of any buffer with fewer than 2^53 entries are
    NaN or not below 0. *)
Lemma np_var_std_sign_clear (a : list float) :
  Z.of_nat (List.length a) < 2 ^ 53 ->
  sign_clear (Prim2SF (np.var a)) = true
  /\ sign_clear (Prim2SF (np.std a)) = true.
Proof.
  intros Hlen.
  assert (Hvar : sign_clear (Prim2SF (np.var a)) = true).
  { unfold np.var, np.mean at 1. rewrite div_spec.
    apply sign_clear_div.
    - unfold np.sum. apply sign_clear_fold_add; [|reflexivity].
      intros x Hx. apply in_map_iff in Hx as [y [<- _]].
      rewrite mul_spec. apply sign_clear_square.
    - apply count_zero_or_positive. rewrite length_map. exact Hlen. }
  split; [exact Hvar|].
  unfold np.std. rewrite sqrt_spec. apply sign_clear_sqrt. exact Hvar.
Qed.


(** X20.  The standard deviation of a Monte Carlo report is NaN or not below 0,
    whatever the buffer of fewer than 2^53 estimates holds. *)
Theorem standard_deviation_never_negative (S : Type)
  (sim : MonteCarloSimulation S) (self : MonteCarloAnalyzer S) :
  Z.of_nat (List.length (results S self)) < 2 ^ 53 ->
  not_negative (standard_deviation (_analyze_results S sim self)) = true.
Proof.
  intros Hlen. unfold _analyze_results. cbn [standard_deviation].
  apply sign_clear_not_negative.
  apply (np_var_std_sign_clear (results S self) Hlen).
Qed.

(** *** The median *)

Lemma insert_sorted_In (x y : Z) (l : list Z) :
  In y (insert_sorted x l) -> y = x \/ In y l.
Proof.
  induction l as [|z l IH]; simpl.
  - intros [<-|[]]. left. reflexivity.
  - destruct (x <=? z); simpl.
    + intros [<-|[<-|H]]; auto.
    + intros [<-|H]; auto. destruct (IH H); auto.
Qed.

Lemma insert_sorted_length (x : Z) (l : list Z) :
  List.length (insert_sorted x l) = Datatypes.S (List.length l).
Proof.
  induction l as [|z l IH]; simpl; [reflexivity|].
  destruct (x <=? z); simpl; [reflexivity|]. rewrite IH. reflexivity.
Qed.

Lemma sorted_In (y : Z) (l : list Z) : In y (sorted l) -> In y l.
Proof.
  induction l as [|x l IH]; simpl; [auto|].
  intros H. apply insert_sorted_In in H as [->|H]; auto.
Qed.

Lemma sorted_length (l : list Z) : List.length (sorted l) = List.length l.
Proof.
  induction l as [|x l IH]; simpl; [reflexivity|].
  rewrite insert_sorted_length, IH. reflexivity.
Qed.

Lemma In_firstn (y : Z) (k : nat) (s : list Z) :
  In y (firstn k s) -> In y s.
Proof.
  intros H. rewrite <- (firstn_skipn k s). apply in_or_app. left. exact H.
Qed.

Lemma In_skipn (y : Z) (k : nat) (s : list Z) :
  In y (skipn k s) -> In y s.
Proof.
  intros H. rewrite <- (firstn_skipn k s). apply in_or_app. right. exact H.
Qed.

Lemma slice_In (y : Z) (k j : nat) (s : list Z) :
  In y (firstn k (skipn j s)) -> In y s.
Proof.
  intros H. apply In_firstn in H. apply In_skipn in H. exact H.
Qed.

(** The mean of a list of integers lies between any bounds of its
    elements. *)
Lemma mean_between (l : list Z) (lo hi B : Z) :
  l <> [] -> (forall y, In y l -> lo <= y <= hi) ->
  1 <= B -> Z.abs lo <= B -> Z.abs hi <= B ->
  Z.of_nat (List.length l) * B < 2 ^ 53 ->
  (float_of_int lo <=? np.mean (np.asfloat l))%float = true
  /\ (np.mean (np.asfloat l) <=? float_of_int hi)%float = true.
Proof.
  intros Hne Hin HB Hlo Hhi Hb.
  assert (Hlen : 1 <= Z.of_nat (List.length l))
    by (destruct l; [congruence | cbn [List.length]; lia]).
  assert (Hwithin : all_within B l)
    by (intros y Hy; specialize (Hin y Hy); lia).
  destruct (np_sum_int B l Hwithin Hb) as [Hsum Hsumb].
  assert (Hcount : Prim2SF (np.count (np.asfloat l))
                   = SF_of_int (Z.of_nat (List.length l)))
    by (apply np_count_int; nia).
  pose proof (fold_add_bounds lo hi l Hin 0) as Hbounds.
  fold (total l) in Hbounds.
  unfold np.mean.
  rewrite !leb_spec, div_spec, Hsum, Hcount, !Prim2SF_float_of_int by nia.
  split.
  - apply SFleb_div_lower; nia.
  - apply SFleb_div_upper; nia.
Qed.

(** X21.  The median of [run] lies between the minimum and the maximum, for a
    list that is not empty and whose values are below 2^52 in magnitude. *)
Theorem median_within_min_max (l : list Z) (B : Z) :
  l <> [] -> all_within B l -> 1 <= B -> 2 * B < 2 ^ 53 ->
  exists st,
    compute_statistics l = Ok st
    /\ (min st <=? median st)%float = true
    /\ (median st <=? max st)%float = true.
Proof.
  intros Hne Hin HB Hb.
  destruct l as [|x xs]; [congruence|].
  destruct (np_min_max_ok x xs B Hin) as [lo [hi [Hlo [Hhi [Blo [Bhi Hall]]]]]].
  unfold compute_statistics. rewrite Hlo, Hhi. cbn [bind].
  eexists. split; [reflexivity|]. cbn [min median max].
  unfold np_median.
  pose proof (sorted_length (x :: xs)) as Hlen.
  cbn [List.length] in Hlen.
  set (s := sorted (x :: xs)) in *.
  set (n := List.length s) in *.
  assert (Hslice : forall k j, (1 <= k <= 2)%nat -> (j < n)%nat ->
            (float_of_int lo
             <=? np.mean (np.asfloat (firstn k (skipn j s))))%float = true
            /\ (np.mean (np.asfloat (firstn k (skipn j s)))
                <=? float_of_int hi)%float = true).
  { intros k j Hk Hj.
    assert (Hl : (1 <= List.length (firstn k (skipn j s)) <= 2)%nat).
    { rewrite length_firstn, length_skipn. fold n. lia. }
    apply (mean_between _ lo hi B); try lia.
    - intros E. rewrite E in Hl. cbn in Hl. lia.
    - intros y Hy. apply Hall. apply sorted_In.
      apply (slice_In y k j). exact Hy.
    - nia. }
  pose proof (Nat.lt_div2 n ltac:(lia)) as Hdiv.
  destruct (Nat.even n); apply Hslice; lia.
Qed.

(** *** The running average of [visualize_results] *)






Lemma standard_deviation_never_negative_witness :
  not_negative
    (standard_deviation
       (_analyze_results _ fixtures.pi_sim
          (more_fixtures.pi_analyzer_after_run fixtures.config_inf_50)))
  = true.
Proof.
  apply (standard_deviation_never_negative _ fixtures.pi_sim
           (more_fixtures.pi_analyzer_after_run fixtures.config_inf_50)).
  simpl. lia.
Defined.

Lemma median_within_min_max_witness :
  exists st,
    compute_statistics [3; 1; 2; 7] = Ok st
    /\ (min st <=? median st)%float = true
    /\ (median st <=? max st)%float = true.
Proof.
  apply (median_within_min_max [3; 1; 2; 7] 7).
  - discriminate.
  - intros x [<-|[<-|[<-|[<-|[]]]]]; simpl; lia.
  - lia.
  - lia.
Defined.


End spread_facts.
